(** * platform2 / Strike2: transport engine, proxy front end and scraper

    A shallow embedding of the Go sources
    - [internal/transport/utls_client.go], [internal/transport/fingerprints.go]
    - [projects/strike2/strike2.go], [projects/strike2/auth/auth.go]
    - [projects/strike2/proxy/handler.go], [projects/strike2/scraper/scraper.go]
    together with the properties the design document states about them.

    Go strings are byte sequences: they are [string] here (8-bit characters);
    runes are decoded from them as [unicode/utf8] does.  The case tables of
    the [unicode] package beyond ASCII are data of the Go release: they are
    taken as given ([unicode.Tables]), and every statement holds whatever
    they are.
    Maps are [gmap]s.  The network, the TLS stack and the HTTP/2 library are
    an oracle record; every call the code makes on them is logged in a trace,
    so that "no dial happened" or "the connection was closed" are statements
    about the trace. *)

From Stdlib Require Import Ascii String ZArith NArith Lia Bool.
From stdpp Require Import gmap strings list fin_maps.

Local Open Scope string_scope.
Local Open Scope Z_scope.

(** ** [unicode/utf8]: runes in byte strings *)

Module utf8.

Definition RuneError : Z := 65533.     (* U+FFFD *)
Definition RuneSelf : Z := 128.
Definition MaxRune : Z := 1114111.     (* U+10FFFF *)

Definition byte (c : ascii) : Z := Z.of_N (N_of_ascii c).
Definition char (b : Z) : ascii := ascii_of_N (Z.to_N (b mod 256)).

(** A byte within [lo, hi]: the accept range of a continuation byte. *)
Definition accept (lo hi b : Z) : bool := (lo <=? b) && (b <=? hi).

(** The runes of [for _, r := range s], each decoded as
    [DecodeRuneInString] does: one to four bytes; a byte that starts no
    well-formed encoding (a stray continuation byte, an overlong form, a
    surrogate, a value above U+10FFFF, a sequence cut short) counts as
    [RuneError], of width 1. *)
Fixpoint runes (s : string) : list Z :=
  match s with
  | EmptyString => []
  | String c0 s1 =>
      let b0 := byte c0 in
      let invalid := RuneError :: runes s1 in
      if b0 <? RuneSelf then b0 :: runes s1
      else if (b0 <? 194) || (244 <? b0) then invalid
      else
        let lo := if b0 =? 224 then 160 else if b0 =? 240 then 144 else 128 in
        let hi := if b0 =? 237 then 159 else if b0 =? 244 then 143 else 191 in
        match s1 with
        | EmptyString => invalid
        | String c1 s2 =>
            let b1 := byte c1 in
            if negb (accept lo hi b1) then invalid
            else if b0 <? 224 then
              Z.lor (Z.shiftl (Z.land b0 31) 6) (Z.land b1 63) :: runes s2
            else
              match s2 with
              | EmptyString => invalid
              | String c2 s3 =>
                  let b2 := byte c2 in
                  if negb (accept 128 191 b2) then invalid
                  else if b0 <? 240 then
                    Z.lor (Z.shiftl (Z.land b0 15) 12)
                      (Z.lor (Z.shiftl (Z.land b1 63) 6) (Z.land b2 63)) :: runes s3
                  else
                    match s3 with
                    | EmptyString => invalid
                    | String c3 s4 =>
                        let b3 := byte c3 in
                        if negb (accept 128 191 b3) then invalid
                        else
                          Z.lor (Z.shiftl (Z.land b0 7) 18)
                            (Z.lor (Z.shiftl (Z.land b1 63) 12)
                               (Z.lor (Z.shiftl (Z.land b2 63) 6) (Z.land b3 63)))
                          :: runes s4
                    end
              end
        end
  end.

(** [AppendRune]: the encoding of a rune; what is no Unicode scalar value is
    encoded as [RuneError]. *)
Definition EncodeRune (r : Z) : string :=
  if (0 <=? r) && (r <? RuneSelf) then String (char r) EmptyString
  else if (0 <=? r) && (r <? 2048) then
    String (char (Z.lor 192 (Z.shiftr r 6)))
      (String (char (Z.lor 128 (Z.land r 63))) EmptyString)
  else
    let r := if (r <? 0) || (MaxRune <? r) || ((55296 <=? r) && (r <=? 57343))
             then RuneError else r in
    if r <? 65536 then
      String (char (Z.lor 224 (Z.shiftr r 12)))
        (String (char (Z.lor 128 (Z.land (Z.shiftr r 6) 63)))
           (String (char (Z.lor 128 (Z.land r 63))) EmptyString))
    else
      String (char (Z.lor 240 (Z.shiftr r 18)))
        (String (char (Z.lor 128 (Z.land (Z.shiftr r 12) 63)))
           (String (char (Z.lor 128 (Z.land (Z.shiftr r 6) 63)))
              (String (char (Z.lor 128 (Z.land r 63))) EmptyString))).

End utf8.

(** ** [unicode]: letter case of runes *)

Module unicode.

Definition MaxASCII : Z := 127.

(** The case tables beyond ASCII, as the functions the package reads them
    through. *)
Record Tables := mkTables {
  lowerCase : Z -> Z;    (* [To(LowerCase, r)] for [r > MaxASCII] *)
  orbitNext : Z -> Z     (* [SimpleFold(r)] for [MaxASCII < r <= MaxRune] *)
}.

(** [unicode.ToLower] *)
Definition ToLower (T : Tables) (r : Z) : Z :=
  if r <=? MaxASCII then
    if (65 <=? r) && (r <=? 90) then r + 32 else r
  else lowerCase T r.

(** The table [asciiFold]: a letter goes to its other case, except that 'k'
    goes on to the Kelvin sign U+212A and 's' to the long s U+017F. *)
Definition asciiFold (r : Z) : Z :=
  if (65 <=? r) && (r <=? 90) then r + 32
  else if r =? 107 then 8490
  else if r =? 115 then 383
  else if (97 <=? r) && (r <=? 122) then r - 32
  else r.

(** [unicode.SimpleFold]: the next rune of the orbit of [r]. *)
Definition SimpleFold (T : Tables) (r : Z) : Z :=
  if (r <? 0) || (utf8.MaxRune <? r) then r
  else if r <=? MaxASCII then asciiFold r
  else orbitNext T r.

(** No orbit of the tables holds more than four runes. *)
Definition orbitLimit : nat := 4.

End unicode.

(** ** Go library functions on strings *)

Module strings.

(** [strings.HasPrefix(s, prefix)] *)
Definition HasPrefix (s pre : string) : bool := String.prefix pre s.

(** [strings.Contains(s, substr)]: [substr] starts at some position of [s]. *)
Fixpoint Contains (s substr : string) : bool :=
  String.prefix substr s ||
  match s with
  | EmptyString => false
  | String _ s' => Contains s' substr
  end.

Definition is_upper (c : ascii) : bool :=
  ((65 <=? nat_of_ascii c) && (nat_of_ascii c <=? 90))%nat.

Definition is_lower (c : ascii) : bool :=
  ((97 <=? nat_of_ascii c) && (nat_of_ascii c <=? 122))%nat.

Definition lower_char (c : ascii) : ascii :=
  if is_upper c then ascii_of_nat (nat_of_ascii c + 32) else c.

Definition upper_char (c : ascii) : ascii :=
  if is_lower c then ascii_of_nat (nat_of_ascii c - 32) else c.

(** The ASCII branch of [strings.ToLower]: 'A'..'Z' are lower-cased, every
    other byte is left alone. *)
Fixpoint lowerASCII (s : string) : string :=
  match s with
  | EmptyString => EmptyString
  | String c s' => String (lower_char c) (lowerASCII s')
  end.

(** No byte of [s] is [utf8.RuneSelf] or more. *)
Fixpoint isASCII (s : string) : bool :=
  match s with
  | EmptyString => true
  | String c s' => (nat_of_ascii c <? 128)%nat && isASCII s'
  end.

(** [strings.Map(mapping, s)]: every rune of [s] is replaced by its image,
    encoded anew; a negative image drops the rune.  A byte that is no valid
    UTF-8 counts as the rune [utf8.RuneError]. *)
Definition Map (mapping : Z -> Z) (s : string) : string :=
  foldr (fun c out => let r := mapping c in
                      if r <? 0 then out else utf8.EncodeRune r +:+ out)
    EmptyString (utf8.runes s).

(** [strings.ToLower(s)]: the ASCII branch when [s] is ASCII,
    [Map(unicode.ToLower, s)] otherwise. *)
Definition ToLower (T : unicode.Tables) (s : string) : string :=
  if isASCII s then lowerASCII s else Map (unicode.ToLower T) s.

(** [strings.SplitN(s, sep, 2)] for a one-byte separator: [None] stands for
    the one-element result [[s]] (no separator in [s]), [Some (a, b)] for
    the two-element result, cut at the first separator. *)
Fixpoint SplitN2 (s : string) (sep : ascii) : option (string * string) :=
  match s with
  | EmptyString => None
  | String c s' =>
      if Ascii.eqb c sep then Some (EmptyString, s')
      else match SplitN2 s' sep with
           | Some (a, b) => Some (String c a, b)
           | None => None
           end
  end.

(** The slice [s[n:]] (for [n <= len(s)]). *)
Fixpoint drop (n : nat) (s : string) : string :=
  match n, s with
  | O, _ => s
  | S n', String _ s' => drop n' s'
  | S _, EmptyString => EmptyString
  end.

(** The loop [for r != sr && r < tr { r = unicode.SimpleFold(r) }] of
    [EqualFold]: it walks the orbit of [sr] upwards. *)
Fixpoint foldLoop (n : nat) (T : unicode.Tables) (sr tr r : Z) : Z :=
  match n with
  | O => r
  | S n' =>
      if negb (r =? sr) && (r <? tr) then foldLoop n' T sr tr (unicode.SimpleFold T r)
      else r
  end.

(** One step of [EqualFold]: the runes [sr] and [tr] are equal, or ASCII
    letters that differ by case, or of one orbit. *)
Definition foldEq (T : unicode.Tables) (sr tr : Z) : bool :=
  if tr =? sr then true
  else
    let (sr, tr) := if tr <? sr then (tr, sr) else (sr, tr) in
    if tr <? utf8.RuneSelf then (65 <=? sr) && (sr <=? 90) && (tr =? sr + 32)
    else foldLoop unicode.orbitLimit T sr tr (unicode.SimpleFold T sr) =? tr.

Fixpoint equalRunes (T : unicode.Tables) (s t : list Z) : bool :=
  match s, t with
  | [], [] => true
  | sr :: s', tr :: t' => foldEq T sr tr && equalRunes T s' t'
  | _, _ => false
  end.

(** [strings.EqualFold(s, t)]: both strings are walked rune by rune; they
    are equal under folding when they have as many runes and every pair
    folds together.  (The byte loop Go runs first over a common ASCII prefix
    decides the same on ASCII bytes.) *)
Definition EqualFold (T : unicode.Tables) (s t : string) : bool :=
  equalRunes T (utf8.runes s) (utf8.runes t).

End strings.

(** ** [encoding/base64], [StdEncoding]

    RFC 4648 section 4 with padding, as Go implements it: the decoder skips
    carriage returns and line feeds, insists on padding, and does not look at
    the unused low bits of the last character before the padding. *)

Module base64.

Definition encodeStd : string :=
  "ABCDEFGHIJKLMNOPQRSTUVWXYZabcdefghijklmnopqrstuvwxyz0123456789+/".

Definition pad : ascii := "="%char.

(** [enc.encode[n]] *)
Definition enc6 (n : N) : ascii :=
  match String.get (N.to_nat n) encodeStd with
  | Some c => c
  | None => "A"%char
  end.

Fixpoint index_from (c : ascii) (s : string) (i : N) : option N :=
  match s with
  | EmptyString => None
  | String d s' => if Ascii.eqb c d then Some i else index_from c s' (N.succ i)
  end.

(** [enc.decodeMap[c]], [None] for 0xFF *)
Definition dec6 (c : ascii) : option N := index_from c encodeStd 0%N.

Definition byte_of (n : N) : ascii := ascii_of_N (n mod 256).

(** [val = a<<16 | b<<8 | c], the three source bytes of a quantum. *)
Definition val3 (a b c : ascii) : N :=
  (N_of_ascii a * 65536 + N_of_ascii b * 256 + N_of_ascii c)%N.

(** [EncodeToString]: the characters of a quantum are [val>>18&0x3F],
    [val>>12&0x3F], [val>>6&0x3F] and [val&0x3F], written with division and
    remainder; a last quantum of one or two bytes is padded. *)
Fixpoint EncodeToString (src : string) : string :=
  match src with
  | EmptyString => EmptyString
  | String a EmptyString =>
      let val := val3 a zero zero in
      String (enc6 ((val / 262144) mod 64))
        (String (enc6 ((val / 4096) mod 64)) (String pad (String pad EmptyString)))
  | String a (String b EmptyString) =>
      let val := val3 a b zero in
      String (enc6 ((val / 262144) mod 64))
        (String (enc6 ((val / 4096) mod 64))
           (String (enc6 ((val / 64) mod 64)) (String pad EmptyString)))
  | String a (String b (String c rest)) =>
      let val := val3 a b c in
      String (enc6 ((val / 262144) mod 64))
        (String (enc6 ((val / 4096) mod 64))
           (String (enc6 ((val / 64) mod 64))
              (String (enc6 (val mod 64)) (EncodeToString rest))))
  end.

(** The decoder drops every carriage return and line feed of its input. *)
Fixpoint stripCRLF (s : string) : string :=
  match s with
  | EmptyString => EmptyString
  | String c s' =>
      if Ascii.eqb c "010"%char || Ascii.eqb c "013"%char then stripCRLF s'
      else String c (stripCRLF s')
  end.

(** A full quantum: four alphabet characters give three bytes. *)
Definition decode4 (a b c d : ascii) : option string :=
  match dec6 a, dec6 b, dec6 c, dec6 d with
  | Some n0, Some n1, Some n2, Some n3 =>
      let val := (((n0 * 64 + n1) * 64 + n2) * 64 + n3)%N in
      Some (String (byte_of (val / 65536))
              (String (byte_of (val / 256)) (String (byte_of val) EmptyString)))
  | _, _, _, _ => None
  end.

(** The last quantum [ab==]: one byte. *)
Definition decode2 (a b : ascii) : option string :=
  match dec6 a, dec6 b with
  | Some n0, Some n1 =>
      Some (String (byte_of ((n0 * 64 + n1) / 16)) EmptyString)
  | _, _ => None
  end.

(** The last quantum [abc=]: two bytes. *)
Definition decode3 (a b c : ascii) : option string :=
  match dec6 a, dec6 b, dec6 c with
  | Some n0, Some n1, Some n2 =>
      let val := ((n0 * 64 + n1) * 64 + n2)%N in
      Some (String (byte_of (val / 1024)) (String (byte_of (val / 4)) EmptyString))
  | _, _, _ => None
  end.

Fixpoint decodeQuanta (s : string) : option string :=
  match s with
  | EmptyString => Some EmptyString
  | String a (String b (String c (String d rest))) =>
      if Ascii.eqb c pad then
        if Ascii.eqb d pad && String.eqb rest EmptyString then decode2 a b else None
      else if Ascii.eqb d pad then
        if String.eqb rest EmptyString then decode3 a b c else None
      else
        match decode4 a b c d, decodeQuanta rest with
        | Some bytes, Some more => Some (bytes +:+ more)
        | _, _ => None
        end
  | _ => None
  end.

(** [base64.StdEncoding.DecodeString(s)]; [None] is a [CorruptInputError]. *)
Definition DecodeString (s : string) : option string := decodeQuanta (stripCRLF s).

End base64.

(** ** Errors and results *)

Inductive error : Type :=
| ErrMsg (msg : string)                   (* an error value with this text *)
| ErrWrap (context : string) (inner : error). (* fmt.Errorf("context: %w", inner) *)

Inductive result (A : Type) : Type :=
| Ok (a : A)
| Err (e : error).
Arguments Ok {A} a.
Arguments Err {A} e.

Definition is_Err {A} (r : result A) : bool :=
  match r with Ok _ => false | Err _ => true end.

(** [err.Error()] *)
Fixpoint error_string (e : error) : string :=
  match e with
  | ErrMsg msg => msg
  | ErrWrap context inner => context +:+ ": " +:+ error_string inner
  end.

(** ** [net/http]: headers, requests, responses *)

(** [http.Header]: a map from header name to the list of its values. *)
Abbreviation Header := (gmap string (list string)).

Module http.

(** [validHeaderFieldByte]: the token characters of RFC 7230. *)
Definition validHeaderFieldByte (c : ascii) : bool :=
  let n := nat_of_ascii c in
  (strings.is_upper c || strings.is_lower c
   || ((48 <=? n) && (n <=? 57))
   || strings.Contains "!#$%&'*+-.^_`|~" (String c EmptyString))%nat.

Fixpoint allValid (s : string) : bool :=
  match s with
  | EmptyString => true
  | String c s' => validHeaderFieldByte c && allValid s'
  end.

(** The casing loop of [canonicalMIMEHeaderKey]: upper case at the start and
    after a dash, lower case elsewhere. *)
Fixpoint canonCase (upper : bool) (s : string) : string :=
  match s with
  | EmptyString => EmptyString
  | String c s' =>
      let c' := if upper then strings.upper_char c else strings.lower_char c in
      String c' (canonCase (Ascii.eqb c' "-"%char) s')
  end.

(** [textproto.CanonicalMIMEHeaderKey]: a key with a byte that is not a
    token character is returned unchanged. *)
Definition CanonicalMIMEHeaderKey (s : string) : string :=
  if allValid s then canonCase true s else s.

(** [h[key]], the nil slice when the key is absent *)
Definition values (h : Header) (key : string) : list string :=
  default [] (h !! key).

(** [h.Get(key)] *)
Definition Get (h : Header) (key : string) : string :=
  match values h (CanonicalMIMEHeaderKey key) with
  | v :: _ => v
  | [] => EmptyString
  end.

(** [h.Add(key, value)] *)
Definition Add (h : Header) (key value : string) : Header :=
  let key := CanonicalMIMEHeaderKey key in
  <[key := (values h key ++ [value])%list]> h.

(** [h.Set(key, value)] *)
Definition Set_ (h : Header) (key value : string) : Header :=
  <[CanonicalMIMEHeaderKey key := [value]]> h.

(** [h.Del(key)] *)
Definition Del (h : Header) (key : string) : Header :=
  delete (CanonicalMIMEHeaderKey key) h.

Definition MethodConnect : string := "CONNECT".

Definition StatusOK : Z := 200.
Definition StatusBadRequest : Z := 400.
Definition StatusProxyAuthRequired : Z := 407.
Definition StatusInternalServerError : Z := 500.
Definition StatusBadGateway : Z := 502.
Definition StatusServiceUnavailable : Z := 503.

End http.

Record URL := mkURL {
  Scheme : string;
  User : option string;   (* [u.User.String()], when the URL carries credentials *)
  Host : string;
  Path : string
}.

(** [u.IsAbs()] *)
Definition IsAbs (u : URL) : bool := negb (String.eqb (Scheme u) "").

(** A deadline of a context or of a socket. *)
Inductive deadline : Type :=
| DeadlineAt (t : Z)        (* a fixed instant *)
| DeadlineIn (d : Z)        (* time.Now().Add(d), [d] in nanoseconds *)
| NoDeadline.               (* none; time.Time{} on a socket *)

Record Request := mkRequest {
  Method : string;
  req_URL : URL;
  req_Host : string;        (* r.Host, the authority of a CONNECT *)
  req_Header : Header;
  req_Body : string;
  req_deadline : deadline   (* ctx.Deadline() of the request's context *)
}.

(** The body of a response is a stream: the bytes it will deliver and the way
    it ends (end of file, or a read error after the last byte). *)
Record BodyStream := mkBody {
  unread : list Byte.byte;
  read_err : option error
}.

Record Response := mkResponse {
  StatusCode : Z;
  resp_Header : Header;
  Body : BodyStream
}.

(** ** Module transport: utls_client.go *)

Module transport.

(** *** fingerprints.go *)

(** [utls.ClientHelloID]: the three profiles the catalog uses, and the zero
    value of the struct. *)
Inductive ClientHelloID : Type :=
| HelloZero
| HelloChrome_Auto
| HelloFirefox_Auto
| HelloIOS_Auto.

Record Fingerprint := mkFingerprint {
  ID : ClientHelloID;
  Name : string;
  UserAgent : string
}.

(** The zero value of [Fingerprint]. *)
Definition zeroFingerprint : Fingerprint := mkFingerprint HelloZero "" "".

Definition GetFingerprints : list Fingerprint :=
  [ mkFingerprint HelloChrome_Auto "Chrome"
      "Mozilla/5.0 (Windows NT 10.0; Win64; x64) AppleWebKit/537.36 (KHTML, like Gecko) Chrome/120.0.0.0 Safari/537.36";
    mkFingerprint HelloFirefox_Auto "Firefox"
      "Mozilla/5.0 (Windows NT 10.0; Win64; x64; rv:121.0) Gecko/20100101 Firefox/121.0";
    mkFingerprint HelloIOS_Auto "Safari"
      "Mozilla/5.0 (iPhone; CPU iPhone OS 17_0 like Mac OS X) AppleWebKit/605.1.15 (KHTML, like Gecko) Version/17.0 Mobile/15E148 Safari/604.1" ].

(** [GetRandomFingerprint]: [fps[0]]; [None] would be the index panic. *)
Definition GetRandomFingerprint : option Fingerprint :=
  let fps := GetFingerprints in
  fps !! 0%nat.

(** *** utls_client.go *)

(** Sockets and HTTP/2 sessions are known by their identity. *)
Definition Conn := nat.
Definition ClientConn := nat.

(** A [*utls.UConn] after the handshake: the socket and what
    [ConnectionState().NegotiatedProtocol] reports. *)
Record UConn := mkUConn { uc_conn : Conn; NegotiatedProtocol : string }.

(** What the operating system, uTLS, [net/http] and [x/net/http2] answer.
    A response is what the library hands out: when the request carries no
    Accept-Encoding header the library asks for gzip itself and hands out
    what comes compressed with the body inflated and without its
    Content-Encoding header; when the request carries one, the response is
    handed out as it came. *)
Record Network := mkNetwork {
  SplitHostPort : string -> result (string * string);
  DialContext : string -> result Conn;
  Handshake : Conn -> string -> result string;  (* socket, SNI: negotiated ALPN *)
  NewClientConn : Conn -> result ClientConn;
  CanTakeNewRequest : ClientConn -> bool;
  h2_RoundTrip : ClientConn -> Request -> result Response;
  h1_RoundTrip : Conn -> Request -> result Response;
  http1Transport_RoundTrip : Request -> result Response;
  arrived : Response -> option nat
    (* the context of the request is cancelled while the body of the response
       is still unread: how many bytes of it had arrived; [None] when the
       body had come to its end before *)
}.

(** [context.Canceled] *)
Definition context_Canceled : error := ErrMsg "context canceled".

(** The response once the context of its request is cancelled: the library
    aborts the exchange, reading the body yields what had arrived and then
    fails with [context.Canceled]. *)
Definition cancelled (net : Network) (resp : Response) : Response :=
  match arrived net resp with
  | Some n =>
      mkResponse (StatusCode resp) (resp_Header resp)
        (mkBody (firstn n (unread (Body resp))) (Some context_Canceled))
  | None => resp
  end.

Inductive event : Type :=
| EvDial (addr : string)
| EvSetDeadline (c : Conn) (d : deadline)
| EvHandshake (c : Conn) (serverName : string)
| EvClose (c : Conn)
| EvNewClientConn (c : Conn)
| EvH2RoundTrip (cc : ClientConn) (req : Request)
| EvH1RoundTrip (c : Conn) (req : Request)
| EvPlainRoundTrip (req : Request)
| EvLog (addr proto : string).

(** The mutable part of [utlsRoundTripper], and the log of its calls. *)
Record rtState := mkState {
  h2ConnPool : gmap string ClientConn;
  trace : list event
}.

(** [tlsTimeout: 10 * time.Second], in nanoseconds. *)
Definition tlsTimeout : Z := 10 * 1000000000.

(** *** A state monad over [rtState] *)

Definition M (A : Type) : Type := rtState -> A * rtState.

Definition ret {A} (a : A) : M A := fun st => (a, st).

Definition bind {A B} (m : M A) (k : A -> M B) : M B :=
  fun st => let (a, st') := m st in k a st'.

Notation "'do' x <- m ; k" := (bind m (fun x => k))
  (at level 10, x name, m at level 100, k at level 200).
Notation "'run' m ; k" := (bind m (fun _ => k))
  (at level 10, m at level 100, k at level 200).

Definition emit (e : event) : M unit :=
  fun st => (tt, mkState (h2ConnPool st) (trace st ++ [e])%list).

(** [rt.h2ConnPool[addr]] under the read lock *)
Definition poolLookup (addr : string) : M (option ClientConn) :=
  fun st => (h2ConnPool st !! addr, st).

(** [delete(rt.h2ConnPool, addr)] under the write lock *)
Definition poolDelete (addr : string) : M unit :=
  fun st => (tt, mkState (delete addr (h2ConnPool st)) (trace st)).

(** [rt.h2ConnPool[addr] = h2Conn] under the write lock *)
Definition poolStore (addr : string) (cc : ClientConn) : M unit :=
  fun st => (tt, mkState (<[addr := cc]> (h2ConnPool st)) (trace st)).

Section RoundTripper.

Variable net : Network.

(** [dialUTLS], utls_client.go 84-114 *)
Definition dialUTLS (req : Request) (addr : string) : M (result UConn) :=
  let host := match SplitHostPort net addr with
              | Ok (h, _) => h
              | Err _ => addr
              end in
  run emit (EvDial addr);
  match DialContext net addr with
  | Err e => ret (Err (ErrWrap "TCP dial failed" e))
  | Ok conn =>
      let d := match req_deadline req with
               | NoDeadline => DeadlineIn tlsTimeout
               | deadline => deadline
               end in
      run emit (EvSetDeadline conn d);
      run emit (EvHandshake conn host);
      match Handshake net conn host with
      | Err e =>
          run emit (EvClose conn);
          ret (Err (ErrWrap "TLS handshake failed" e))
      | Ok proto =>
          run emit (EvSetDeadline conn NoDeadline);
          ret (Ok (mkUConn conn proto))
      end
  end.

(** [roundTripH2], utls_client.go 163-181 *)
Definition roundTripH2 (req : Request) (conn : UConn) (addr : string)
  : M (result Response) :=
  run emit (EvNewClientConn (uc_conn conn));
  match NewClientConn net (uc_conn conn) with
  | Err e =>
      run emit (EvClose (uc_conn conn));
      ret (Err (ErrWrap "failed to create HTTP/2 connection" e))
  | Ok h2Conn =>
      run poolStore addr h2Conn;
      run emit (EvH2RoundTrip h2Conn req);
      ret (h2_RoundTrip net h2Conn req)
  end.

(** [roundTripH1], utls_client.go 184-202 *)
Definition roundTripH1 (req : Request) (conn : UConn) : M (result Response) :=
  run emit (EvH1RoundTrip (uc_conn conn) req);
  match h1_RoundTrip net (uc_conn conn) req with
  | Err e => run emit (EvClose (uc_conn conn)); ret (Err e)
  | Ok resp => ret (Ok resp)
  end.

(** The pool key of a request, utls_client.go 122-125 *)
Definition poolKey (req : Request) : string :=
  let addr := Host (req_URL req) in
  if negb (strings.Contains addr ":") then addr +:+ ":443" else addr.

(** utls_client.go 127-139: the pooled session, if there is one with spare
    capacity.  [Some resp] is the early [return resp, nil]; [None] means
    the function goes on to line 141. *)
Definition tryPooled (req : Request) (addr : string) : M (option Response) :=
  do pooled <- poolLookup addr;
  match pooled with
  | Some h2Conn =>
      if CanTakeNewRequest net h2Conn then
        run emit (EvH2RoundTrip h2Conn req);
        match h2_RoundTrip net h2Conn req with
        | Ok resp => ret (Some resp)
        | Err _ => run poolDelete addr; ret None
        end
      else ret None
  | None => ret None
  end.

(** utls_client.go 141-159: dial, then branch on the negotiated protocol. *)
Definition dialAndDispatch (req : Request) (addr : string) : M (result Response) :=
  do r <- dialUTLS req addr;
  match r with
  | Err e => ret (Err e)
  | Ok uConn =>
      let negotiatedProto := NegotiatedProtocol uConn in
      run emit (EvLog addr negotiatedProto);
      if String.eqb negotiatedProto "h2" then
        roundTripH2 req uConn addr
      else if String.eqb negotiatedProto "http/1.1"
              || String.eqb negotiatedProto "" then
        roundTripH1 req uConn
      else
        run emit (EvClose (uc_conn uConn));
        ret (Err (ErrMsg ("unsupported protocol: " +:+ negotiatedProto)))
  end.

(** [RoundTrip], utls_client.go 117-160 *)
Definition RoundTrip (req : Request) : M (result Response) :=
  if negb (String.eqb (Scheme (req_URL req)) "https") then
    run emit (EvPlainRoundTrip req);
    ret (http1Transport_RoundTrip net req)
  else
    let addr := poolKey req in
    do early <- tryPooled req addr;
    match early with
    | Some resp => ret (Ok resp)
    | None => dialAndDispatch req addr
    end.

(** [UTLSClient.Do], utls_client.go 241-255, for a client with this
    fingerprint; the state is that of the client's round tripper.  When the
    context of the request has no deadline, [Do] makes one of 30 seconds and
    cancels it as it returns ([defer cancel()]): the response it hands out
    is that of a cancelled request. *)
Definition Do (fingerprint : Fingerprint) (req : Request) : M (result Response) :=
  let hdr :=
    if String.eqb (http.Get (req_Header req) "User-Agent") "" then
      http.Set_ (req_Header req) "User-Agent" (UserAgent fingerprint)
    else req_Header req in
  let ctx :=
    match req_deadline req with
    | NoDeadline => DeadlineIn (30 * 1000000000)
    | deadline => deadline
    end in
  do res <- RoundTrip (mkRequest (Method req) (req_URL req) (req_Host req) hdr
                         (req_Body req) ctx);
  match req_deadline req, res with
  | NoDeadline, Ok resp => ret (Ok (cancelled net resp))
  | _, _ => ret res
  end.

End RoundTripper.

(** [newUTLSRoundTripper]: an empty pool. *)
Definition newUTLSRoundTripper : rtState := mkState ∅ [].

End transport.

(** ** Module auth: auth.go *)

Module auth.

Record SimpleAuth := mkSimpleAuth { token : string }.

(** [ValidateProxyAuth], auth.go 70-92 *)
Definition ValidateProxyAuth (a : SimpleAuth) (r : Request) : bool :=
  let proxyAuth := http.Get (req_Header r) "Proxy-Authorization" in
  if String.eqb proxyAuth "" then false
  else if negb (strings.HasPrefix proxyAuth "Basic ") then false
  else
    match base64.DecodeString (strings.drop 6 proxyAuth) with
    | None => false
    | Some decoded =>
        match strings.SplitN2 decoded ":" with
        | None => false
        | Some (_, parts1) => String.eqb parts1 (token a)
        end
    end.

Definition dquote : string := String "034"%char EmptyString.
Definition CRLF : string := String "013"%char (String "010"%char EmptyString).

(** What [Reject407] writes: status, headers, body. *)
Record Rejection := mkRejection {
  rej_status : Z;
  rej_header : Header;
  rej_body : string
}.

(** [Reject407], auth.go 95-100 *)
Definition Reject407 : Rejection :=
  let h := http.Set_ ∅ "Proxy-Authenticate" ("Basic realm=" +:+ dquote +:+ "Strike2" +:+ dquote) in
  let h := http.Set_ h "Content-Type" "text/plain" in
  mkRejection http.StatusProxyAuthRequired h
    ("407 Proxy Authentication Required" +:+ CRLF).

(** [encoding/hex]: [hextable] and [hex.EncodeToString], two digits per byte,
    [hextable[v>>4]] and [hextable[v&0x0f]]. *)
Definition hextable : string := "0123456789abcdef".

Definition hexDigit (n : N) : ascii :=
  match String.get (N.to_nat n) hextable with
  | Some c => c
  | None => "0"%char
  end.

Fixpoint hex_EncodeToString (src : list ascii) : string :=
  match src with
  | [] => EmptyString
  | v :: rest =>
      String (hexDigit (N_of_ascii v / 16))
        (String (hexDigit (N_of_ascii v mod 16)) (hex_EncodeToString rest))
  end.

(** [generateRandomToken], auth.go 102-108.  [entropy] is what [rand.Read]
    does to the 32-byte slice: an error, or the byte it puts at each index.
    [None] is the panic. *)
Definition generateRandomToken (entropy : result (nat -> ascii)) : option string :=
  match entropy with
  | Err _ => None
  | Ok fill =>
      let b := map fill (seq 0 32) in
      Some ("sk_live_" +:+ hex_EncodeToString b)
  end.

(** [NewSimpleAuth], auth.go 55-61 *)
Definition NewSimpleAuth (token : string) (entropy : result (nat -> ascii))
  : option SimpleAuth :=
  if String.eqb token "" then
    match generateRandomToken entropy with
    | Some token => Some (mkSimpleAuth token)
    | None => None
    end
  else Some (mkSimpleAuth token).

(** [Token], auth.go 64-66 *)
Definition Token (a : SimpleAuth) : string := token a.

End auth.

(** ** Module proxy: proxy/config.go and proxy/handler.go *)

Module proxy.

Record Config := mkConfig {
  UpstreamProxy : string;
  Fingerprint : string
}.

(** [HasUpstreamProxy] *)
Definition HasUpstreamProxy (c : Config) : bool :=
  negb (String.eqb (UpstreamProxy c) "").

Record Handler := mkHandler {
  config : Config;
  fingerprint : transport.Fingerprint;
  upstreamURL : option URL
}.

(** What the handler meets outside: the network of the forwarding client,
    the sockets of the tunnel, the inbound connection. *)
Record World := mkWorld {
  net : transport.Network;
  url_Parse : string -> result URL;
  NewRequest : string -> URL -> result unit;    (* http.NewRequestWithContext *)
  conn_Write : transport.Conn -> string -> result unit;
  ReadResponse : transport.Conn -> result (Z * string);  (* status code, status line *)
  Hijack : option (result transport.Conn);      (* None: w is no http.Hijacker *)
  caseTables : unicode.Tables
}.

Inductive event : Type :=
| EvDialTCP (addr : string)
| EvWrite (c : transport.Conn) (data : string)
| EvReadResponse (c : transport.Conn)
| EvClose (c : transport.Conn)
| EvHijack
| EvRelay (clientConn targetConn : transport.Conn)
| EvTransport (e : transport.event).

(** What the inbound client gets. *)
Inductive served : Type :=
| HttpError (msg : string) (code : Z)            (* http.Error(w, msg, code) *)
| Rejected (r : auth.Rejection)                  (* auth.Reject407(w) *)
| Tunnel (clientConn targetConn : transport.Conn)
    (* "HTTP/1.1 200 Connection Established" on the hijacked socket, then the relay *)
| Relayed (code : Z) (header : Header) (body : BodyStream)
    (* w.WriteHeader(code) after the header copy, then io.Copy of the body *)
| ApiRouter.                                     (* h.apiRouter.ServeHTTP(w, r) *)

(** The loop of [NewHandler] over the catalog. *)
Fixpoint lookupFold (T : unicode.Tables) (name : string)
    (fps : list transport.Fingerprint) : transport.Fingerprint :=
  match fps with
  | [] => transport.zeroFingerprint
  | fp :: rest =>
      if strings.EqualFold T (transport.Name fp) name then fp
      else lookupFold T name rest
  end.

(** [NewHandler], handler.go 27-56 *)
Definition NewHandler (w : World) (config : Config) : result Handler :=
  let fp := if negb (String.eqb (Fingerprint config) "")
            then lookupFold (caseTables w) (Fingerprint config) transport.GetFingerprints
            else transport.zeroFingerprint in
  let fp := if String.eqb (transport.Name fp) ""
            then default transport.zeroFingerprint transport.GetRandomFingerprint
            else fp in
  if HasUpstreamProxy config then
    match url_Parse w (UpstreamProxy config) with
    | Err e => Err (ErrWrap "invalid upstream proxy URL" e)
    | Ok u => Ok (mkHandler config fp (Some u))
    end
  else Ok (mkHandler config fp None).

(** [copyHeaders], handler.go 230-251 *)
Definition hopByHop : gmap string bool :=
  list_to_map
    [ ("Connection", true);
      ("Keep-Alive", true);
      ("Proxy-Authenticate", true);
      ("Proxy-Authorization", true);
      ("Proxy-Connection", true);
      ("Te", true);
      ("Trailer", true);
      ("Transfer-Encoding", true);
      ("Upgrade", true) ].

Definition copyHeaders (dst src : Header) : Header :=
  map_fold
    (fun key values dst =>
       if default false (hopByHop !! key) then dst
       else foldl (fun dst value => http.Add dst key value) dst values)
    dst src.

(** [dialDirectTLS], handler.go 130-137: a plain TCP dial. *)
Definition dialDirectTLS (w : World) (addr : string)
  : result transport.Conn * list event :=
  (transport.DialContext (net w) addr, [EvDialTCP addr]).

(** [dialViaUpstreamProxy], handler.go 140-186 *)
Definition dialViaUpstreamProxy (w : World) (upstream : URL) (targetAddr : string)
  : result transport.Conn * list event :=
  let proxyAddr := Host upstream in
  let proxyAddr := if negb (strings.Contains proxyAddr ":")
                   then proxyAddr +:+ ":80" else proxyAddr in
  match transport.DialContext (net w) proxyAddr with
  | Err e => (Err (ErrWrap "failed to connect to upstream proxy" e), [EvDialTCP proxyAddr])
  | Ok conn =>
      let connectReq :=
        "CONNECT " +:+ targetAddr +:+ " HTTP/1.1" +:+ auth.CRLF
        +:+ "Host: " +:+ targetAddr +:+ auth.CRLF in
      let connectReq :=
        match User upstream with
        | Some userinfo =>
            connectReq +:+ "Proxy-Authorization: Basic "
            +:+ base64.EncodeToString userinfo +:+ auth.CRLF
        | None => connectReq
        end in
      let connectReq := connectReq +:+ auth.CRLF in
      match conn_Write w conn connectReq with
      | Err e =>
          (Err (ErrWrap "failed to send CONNECT to upstream" e),
           [EvDialTCP proxyAddr; EvWrite conn connectReq; EvClose conn])
      | Ok _ =>
          match ReadResponse w conn with
          | Err e =>
              (Err (ErrWrap "failed to read upstream CONNECT response" e),
               [EvDialTCP proxyAddr; EvWrite conn connectReq; EvReadResponse conn;
                EvClose conn])
          | Ok (code, status) =>
              if negb (code =? 200) then
                (Err (ErrMsg ("upstream proxy CONNECT failed: " +:+ status)),
                 [EvDialTCP proxyAddr; EvWrite conn connectReq; EvReadResponse conn;
                  EvClose conn])
              else
                (Ok conn,
                 [EvDialTCP proxyAddr; EvWrite conn connectReq; EvReadResponse conn])
          end
      end
  end.

(** The address a CONNECT is dialled at, handler.go 71-74 *)
Definition targetAddr (r : Request) : string :=
  let targetAddr := req_Host r in
  if negb (strings.Contains targetAddr ":") then targetAddr +:+ ":443" else targetAddr.

(** [handleConnect], handler.go 68-127.  [transport.NewUTLSClient] never
    returns an error, so its 500 branch does not appear. *)
Definition handleConnect (h : Handler) (w : World) (r : Request)
  : served * list event :=
  let targetAddr := targetAddr r in
  let (dialled, evs) :=
    match upstreamURL h with
    | Some upstream => dialViaUpstreamProxy w upstream targetAddr
    | None => dialDirectTLS w targetAddr
    end in
  match dialled with
  | Err e =>
      (HttpError ("Failed to connect: " +:+ error_string e) http.StatusBadGateway, evs)
  | Ok targetConn =>
      match Hijack w with
      | None =>
          (HttpError "Hijacking not supported" http.StatusInternalServerError,
           evs ++ [EvClose targetConn])%list
      | Some (Err e) =>
          (HttpError (error_string e) http.StatusServiceUnavailable,
           evs ++ [EvHijack; EvClose targetConn])%list
      | Some (Ok clientConn) =>
          (Tunnel clientConn targetConn,
           evs ++ [EvHijack;
                   EvWrite clientConn
                     ("HTTP/1.1 200 Connection Established" +:+ auth.CRLF +:+ auth.CRLF);
                   EvRelay clientConn targetConn;
                   EvClose clientConn; EvClose targetConn])%list
      end
  end.

(** [handleHTTP], handler.go 189-227.  Every call builds a new client, so
    the round tripper starts with an empty pool. *)
Definition handleHTTP (h : Handler) (w : World) (r : Request)
  : served * list event :=
  if negb (IsAbs (req_URL r)) then
    (HttpError "This is a proxy server. Send absolute URLs." http.StatusBadRequest, [])
  else
    match NewRequest w (Method r) (req_URL r) with
    | Err e => (HttpError (error_string e) http.StatusInternalServerError, [])
    | Ok _ =>
        let hdr := copyHeaders ∅ (req_Header r) in
        let hdr := http.Del hdr "Proxy-Connection" in
        let hdr := http.Del hdr "Proxy-Authorization" in
        let outReq :=
          mkRequest (Method r) (req_URL r) (Host (req_URL r)) hdr (req_Body r)
            (req_deadline r) in
        let (res, st) :=
          transport.Do (net w) (fingerprint h) outReq transport.newUTLSRoundTripper in
        let evs := map EvTransport (transport.trace st) in
        match res with
        | Err e =>
            (HttpError ("Request failed: " +:+ error_string e) http.StatusBadGateway, evs)
        | Ok resp =>
            (Relayed (StatusCode resp) (copyHeaders ∅ (resp_Header resp)) (Body resp), evs)
        end
    end.

(** [Handler.ServeHTTP], handler.go 59-65 *)
Definition ServeHTTP (h : Handler) (w : World) (r : Request) : served * list event :=
  if String.eqb (Method r) http.MethodConnect then handleConnect h w r
  else handleHTTP h w r.

End proxy.

(** ** Module strike2: strike2.go *)

Module strike2.

Record Config := mkConfig {
  CaptchaAPIKey : string;
  UpstreamProxy : string;
  Fingerprint : string;
  ProxyToken : string;
  Workers : Z
}.

(** [combinedHandler]; the API router is opaque. *)
Record combinedHandler := mkCombined {
  proxyHandler : option proxy.Handler;
  simpleAuth : option auth.SimpleAuth
}.

(** [New] followed by [WrapHandler], strike2.go 60-116, as far as the proxy
    and its authentication go. *)
Definition New (w : proxy.World) (cfg : Config) : combinedHandler :=
  let simpleAuth :=
    if negb (String.eqb (ProxyToken cfg) "")
    then Some (auth.mkSimpleAuth (ProxyToken cfg)) else None in
  let proxyConfig := proxy.mkConfig (UpstreamProxy cfg) (Fingerprint cfg) in
  match proxy.NewHandler w proxyConfig with
  | Err _ => mkCombined None simpleAuth
  | Ok proxyHandler => mkCombined (Some proxyHandler) simpleAuth
  end.

(** [h.simpleAuth != nil && !h.simpleAuth.ValidateProxyAuth(r)] *)
Definition authFails (h : combinedHandler) (r : Request) : bool :=
  match simpleAuth h with
  | Some a => negb (auth.ValidateProxyAuth a r)
  | None => false
  end.

(** [combinedHandler.ServeHTTP], strike2.go 125-152 *)
Definition ServeHTTP (h : combinedHandler) (w : proxy.World) (r : Request)
  : proxy.served * list proxy.event :=
  if String.eqb (Method r) http.MethodConnect then
    match proxyHandler h with
    | Some ph =>
        if authFails h r then (proxy.Rejected auth.Reject407, [])
        else proxy.ServeHTTP ph w r
    | None => (proxy.HttpError "Proxy not enabled" http.StatusServiceUnavailable, [])
    end
  else
    match IsAbs (req_URL r), proxyHandler h with
    | true, Some ph =>
        if authFails h r then (proxy.Rejected auth.Reject407, [])
        else proxy.ServeHTTP ph w r
    | _, _ => (proxy.ApiRouter, [])
    end.

End strike2.

(** ** [io], [bufio] and [compress/gzip] as the scraper uses them *)

Module io.

Definition EOF : error := ErrMsg "EOF".
Definition ErrUnexpectedEOF : error := ErrMsg "unexpected EOF".

(** [io.ReadAll(io.LimitReader(r, n))] on the bytes [bs] that [r] still
    holds and its ending [e]: the limited reader hands out one byte per
    unit of [n] and reports end of file once [n] is used up, without
    looking at [r] again; [ReadAll] turns end of file into no error. *)
Fixpoint readAllLimited (n : Z) (bs : list Byte.byte) (e : option error)
  : list Byte.byte * option error :=
  match bs with
  | [] => if n <=? 0 then ([], None) else ([], e)
  | b :: rest =>
      if n <=? 0 then ([], None)
      else let (got, err) := readAllLimited (n - 1) rest e in (b :: got, err)
  end.

Definition ReadAllLimit (r : BodyStream) (n : Z) : list Byte.byte * option error :=
  readAllLimited n (unread r) (read_err r).

End io.

Module gzip.

Definition ErrHeader : error := ErrMsg "gzip: invalid header".

(** [bufio.NewReader]'s buffer: [defaultBufSize]. *)
Definition defaultBufSize : nat := 4096.

(** [gzip.NewReader(r)] wraps a reader that has no [ReadByte] (an HTTP
    response body has none) in a [bufio.Reader] and reads the header through
    it.  To serve the first [need] bytes the buffer has been filled
    [ceil(need / 4096)] times from [r]; with a body of [len] bytes at hand
    these many are gone from [r]. *)
Definition pulled (need len : nat) : nat :=
  Nat.min len (defaultBufSize * ((need + defaultBufSize - 1) / defaultBufSize)).

(** What the library makes of a member whose fixed ten-byte header is in
    order: its optional header fields and its deflate stream. *)
Inductive member : Type :=
| MemberOk (data : list Byte.byte) (ending : option error)
    (* the header parses; reading yields [data], then end of file or [ending] *)
| MemberBad (headerBytes : nat) (e : error).
    (* an optional field is malformed; [headerBytes] were read to find out *)

Definition Inflater : Type := list Byte.byte -> member.

(** The fixed part of [readHeader]: ID1, ID2 and the deflate method. *)
Definition fixedHeaderOk (bs : list Byte.byte) : bool :=
  match bs with
  | Byte.x1f :: Byte.x8b :: Byte.x08 :: _ => true
  | _ => false
  end.

Inductive opened : Type :=
| Opened (gzReader : BodyStream)
| Failed (e : error) (rest : BodyStream).  (* [rest]: what is left in [r] *)

Definition NewReader (inflate : Inflater) (r : BodyStream) : opened :=
  let bs := unread r in
  let left need := mkBody (skipn (pulled need (length bs)) bs) (read_err r) in
  if (length bs <? 10)%nat then
    Failed match read_err r with
           | Some e => e
           | None => if (length bs =? 0)%nat then io.EOF else io.ErrUnexpectedEOF
           end
           (left 10%nat)
  else if negb (fixedHeaderOk bs) then Failed ErrHeader (left 10%nat)
  else
    match inflate bs with
    | MemberOk data ending => Opened (mkBody data ending)
    | MemberBad headerBytes e => Failed e (left (Nat.max 10 headerBytes))
    end.

End gzip.

(** ** Module scraper: scraper/scraper.go *)

Module FetchRequest.
Record t := mk {
  URL : string;
  Fingerprint : string;
  Headers : gmap string string;
  Method : string;
  Body : string
}.
End FetchRequest.

Module FetchResponse.
Record t := mk {
  URL : string;
  StatusCode : Z;
  Headers : gmap string string;
  Body : list Byte.byte;     (* string(bodyBytes) *)
  Error : string;
  Duration : Z
}.
End FetchResponse.

Module BatchResponse.
Record t := mk {
  Results : list FetchResponse.t;
  Total : Z;
  Success : Z;
  Failed : Z
}.
End BatchResponse.

Module scraper.

(** A cached [*transport.UTLSClient]: its fingerprint and the state of its
    round tripper. *)
Record UTLSClient := mkClient {
  client_fingerprint : transport.Fingerprint;
  client_transport : transport.rtState
}.

Record ScraperService := mkService {
  clientCache : gmap string UTLSClient
}.

(** What one call of [FetchURL] meets outside. *)
Record World := mkWorld {
  net : transport.Network;
  inflate : gzip.Inflater;
  acquired : bool;      (* a worker slot came free before ctx.Done() *)
  NewRequest : string -> string -> result URL;  (* http.NewRequestWithContext *)
  ctx_deadline : deadline;
  elapsed : Z;          (* time.Since(start).Milliseconds() *)
  caseTables : unicode.Tables
}.

(** The loop of [findFingerprint]. *)
Fixpoint findLoop (T : unicode.Tables) (name : string)
    (fps : list transport.Fingerprint) : option transport.Fingerprint :=
  match fps with
  | [] => None
  | fp :: rest =>
      if String.eqb (strings.ToLower T (transport.Name fp)) name then Some fp
      else findLoop T name rest
  end.

(** [findFingerprint], scraper.go 87-100; [None] would be a panic. *)
Definition findFingerprint (T : unicode.Tables) (name : string)
  : option transport.Fingerprint :=
  if String.eqb name "" then transport.GetRandomFingerprint
  else
    let name := strings.ToLower T name in
    match findLoop T name transport.GetFingerprints with
    | Some fp => Some fp
    | None => transport.GetRandomFingerprint
    end.

(** [getClient], scraper.go 64-84 *)
Definition getClient (T : unicode.Tables) (s : ScraperService) (fingerprintName : string)
  : UTLSClient * ScraperService :=
  match clientCache s !! fingerprintName with
  | Some client => (client, s)
  | None =>
      let fp := default transport.zeroFingerprint (findFingerprint T fingerprintName) in
      let client := mkClient fp transport.newUTLSRoundTripper in
      (client, mkService (<[fingerprintName := client]> (clientCache s)))
  end.

(** [10*1024*1024], the limit of the body reader *)
Definition bodyLimit : Z := 10 * 1024 * 1024.

(** scraper.go 158-165: the reader the body is read from. *)
Definition bodyReader (w : World) (resp : Response) : BodyStream :=
  if String.eqb (http.Get (resp_Header resp) "Content-Encoding") "gzip" then
    match gzip.NewReader (inflate w) (Body resp) with
    | gzip.Opened gzReader => gzReader
    | gzip.Failed _ rest => rest   (* resp.Body, after the header read *)
    end
  else Body resp.

(** scraper.go 156-189: from the response to the result. *)
Definition readResponse (w : World) (req : FetchRequest.t) (resp : Response)
  : FetchResponse.t :=
  let reader := bodyReader w resp in
  match io.ReadAllLimit reader bodyLimit with
  | (_, Some err) =>
      FetchResponse.mk (FetchRequest.URL req) (StatusCode resp) ∅ []
        ("failed to read body: " +:+ error_string err) (elapsed w)
  | (bodyBytes, None) =>
      let headers :=
        map_imap (fun key _ => Some (http.Get (resp_Header resp) key)) (resp_Header resp) in
      FetchResponse.mk (FetchRequest.URL req) (StatusCode resp) headers bodyBytes
        "" (elapsed w)
  end.

(** scraper.go 103-155: the worker slot, the client, the request and
    [client.Do].  [inl] is a result returned before there is a response. *)
Definition doRequest (s : ScraperService) (w : World) (req : FetchRequest.t)
  : (FetchResponse.t + Response) * ScraperService :=
  if negb (acquired w) then
    (inl (FetchResponse.mk (FetchRequest.URL req) 0 ∅ []
            "context cancelled while waiting for worker" 0), s)
  else
    let (client, s) := getClient (caseTables w) s (FetchRequest.Fingerprint req) in
    let method := FetchRequest.Method req in
    let method := if String.eqb method "" then "GET" else method in
    match NewRequest w method (FetchRequest.URL req) with
    | Err err =>
        (inl (FetchResponse.mk (FetchRequest.URL req) 0 ∅ []
                ("failed to create request: " +:+ error_string err) (elapsed w)), s)
    | Ok u =>
        let hdr :=
          map_fold (fun key value h => http.Set_ h key value) ∅ (FetchRequest.Headers req) in
        let httpReq :=
          mkRequest method u (Host u) hdr (FetchRequest.Body req) (ctx_deadline w) in
        let (res, st) :=
          transport.Do (net w) (client_fingerprint client) httpReq (client_transport client) in
        let s :=
          mkService (<[FetchRequest.Fingerprint req := mkClient (client_fingerprint client) st]>
                       (clientCache s)) in
        match res with
        | Err err =>
            (inl (FetchResponse.mk (FetchRequest.URL req) 0 ∅ []
                    ("request failed: " +:+ error_string err) (elapsed w)), s)
        | Ok resp => (inr resp, s)
        end
    end.

(** [FetchURL], scraper.go 103-189 *)
Definition FetchURL (s : ScraperService) (w : World) (req : FetchRequest.t)
  : FetchResponse.t * ScraperService :=
  match doRequest s w req with
  | (inl early, s) => (early, s)
  | (inr resp, s) => (readResponse w req resp, s)
  end.

(** scraper.go 206-213: the loop that counts the results. *)
Fixpoint countResults (results : list FetchResponse.t) (success failed : Z) : Z * Z :=
  match results with
  | [] => (success, failed)
  | res :: rest =>
      if String.eqb (FetchResponse.Error res) ""
         && (200 <=? FetchResponse.StatusCode res)
         && (FetchResponse.StatusCode res <? 400)
      then countResults rest (success + 1) failed
      else countResults rest success (failed + 1)
  end.

(** [FetchBatch], scraper.go 192-221.  One goroutine per request runs
    [FetchURL] and writes its result at the index of the request; [met idx] is
    the state of the shared service and the outside world that the goroutine
    of index [idx] met.  The function returns once all have written. *)
Definition FetchBatch (met : nat -> ScraperService * World) (batch : list FetchRequest.t)
  : BatchResponse.t :=
  let results :=
    imap (fun idx r => fst (FetchURL (fst (met idx)) (snd (met idx)) r)) batch in
  let (success, failed) := countResults results 0 0 in
  BatchResponse.mk results (Z.of_nat (length results)) success failed.

End scraper.

(** ** Module strike2, routes.go: the handlers of the fetch API *)

Module routes.

(** What [c.JSON] writes. *)
Inductive reply : Type :=
| ErrorJSON (code : Z) (msg : string)            (* gin.H{"error": msg} *)
| FetchJSON (code : Z) (result : FetchResponse.t)
| BatchJSON (code : Z) (result : BatchResponse.t).

(** [fetchHandler], routes.go 55-77.  [bound] is what [c.ShouldBindJSON]
    made of the request body. *)
Definition fetchHandler (s : scraper.ScraperService) (w : scraper.World)
    (bound : result FetchRequest.t) : reply * scraper.ScraperService :=
  match bound with
  | Err err => (ErrorJSON http.StatusBadRequest ("invalid request body: " +:+ error_string err), s)
  | Ok req =>
      if String.eqb (FetchRequest.URL req) "" then
        (ErrorJSON http.StatusBadRequest "url is required", s)
      else
        let (result, s) := scraper.FetchURL s w req in
        (FetchJSON http.StatusOK result, s)
  end.

(** [batchHandler], routes.go 80-108 *)
Definition batchHandler (met : nat -> scraper.ScraperService * scraper.World)
    (bound : result (list FetchRequest.t)) : reply :=
  match bound with
  | Err err => ErrorJSON http.StatusBadRequest ("invalid request body: " +:+ error_string err)
  | Ok requests =>
      if (length requests =? 0)%nat then
        ErrorJSON http.StatusBadRequest "requests array is required and cannot be empty"
      else if (100 <? length requests)%nat then
        ErrorJSON http.StatusBadRequest "maximum 100 requests per batch"
      else BatchJSON http.StatusOK (scraper.FetchBatch met requests)
  end.

End routes.

(** ** Vocabulary of the properties *)

(** [net/url]: the port of a [host] or [host:port] authority, as [URL.Port()]
    reads it: the digits after the last colon, when only digits follow it.
    A host has an explicit port when this is not empty. *)
Module url.

Fixpoint afterLastColon (s : string) : option string :=
  match s with
  | EmptyString => None
  | String c s' =>
      match afterLastColon s' with
      | Some p => Some p
      | None => if Ascii.eqb c ":"%char then Some s' else None
      end
  end.

Fixpoint allDigits (s : string) : bool :=
  match s with
  | EmptyString => true
  | String c s' =>
      ((48 <=? nat_of_ascii c) && (nat_of_ascii c <=? 57))%nat && allDigits s'
  end.

Definition Port (hostport : string) : string :=
  match afterLastColon hostport with
  | Some p => if allDigits p then p else EmptyString
  | None => EmptyString
  end.

End url.

(** [name] is [canonical] up to the case of its letters. *)
Inductive case_variant : string -> string -> Prop :=
| cv_nil : case_variant EmptyString EmptyString
| cv_same c s t :
    case_variant s t -> case_variant (String c s) (String c t)
| cv_upper c s t :
    strings.is_lower c = true -> case_variant s t ->
    case_variant (String (strings.upper_char c) s) (String c t)
| cv_lower c s t :
    strings.is_upper c = true -> case_variant s t ->
    case_variant (String (strings.lower_char c) s) (String c t).

(** The hop-by-hop header names of the design document. *)
Definition hop_by_hop_set : list string :=
  [ "Connection"; "Keep-Alive"; "Proxy-Authenticate"; "Proxy-Authorization";
    "Proxy-Connection"; "Te"; "Trailer"; "Transfer-Encoding"; "Upgrade" ].

(** Header maps that [net/http] hands out have canonical keys. *)
Definition canonicalKeys (h : Header) : Prop :=
  forall key vs, h !! key = Some vs -> http.CanonicalMIMEHeaderKey key = key.

(** The server name [dialUTLS] sends for an address. *)
Definition serverName (net : transport.Network) (addr : string) : string :=
  match transport.SplitHostPort net addr with
  | Ok (h, _) => h
  | Err _ => addr
  end.

(** The TCP dial to [addr] fails, or the TLS handshake on the socket does
    (a handshake that runs into its deadline fails with a timeout error). *)
Definition dial_fails (net : transport.Network) (addr : string) : Prop :=
  (exists e, transport.DialContext net addr = Err e) \/
  (exists c e, transport.DialContext net addr = Ok c /\
               transport.Handshake net c (serverName net addr) = Err e).

(** The deadline [dialUTLS] puts on the socket for the handshake. *)
Definition handshakeDeadline (req : Request) : deadline :=
  match req_deadline req with
  | NoDeadline => DeadlineIn transport.tlsTimeout
  | d => d
  end.

(** The character of the sextet [n] decodes to [n] and is neither the padding
    character nor a line break. *)
Definition sextet_ok (n : N) : bool :=
  match base64.dec6 (base64.enc6 n) with
  | Some m => N.eqb m n
  | None => false
  end
  && negb (Ascii.eqb (base64.enc6 n) base64.pad)
  && negb (Ascii.eqb (base64.enc6 n) "010"%char)
  && negb (Ascii.eqb (base64.enc6 n) "013"%char).

(** Every byte value, for properties of characters checked by enumeration. *)
Definition all_ascii : list ascii := map ascii_of_nat (seq 0 256).

(** [c] is [d], or the other case of the letter [d]. *)
Definition fold_related (c d : ascii) : bool :=
  Ascii.eqb c d
  || (strings.is_lower d && Ascii.eqb c (strings.upper_char d))
  || (strings.is_upper d && Ascii.eqb c (strings.lower_char d)).

(** The request an event of the transport puts on the wire, if it does. *)
Definition sent (e : transport.event) : option Request :=
  match e with
  | transport.EvH2RoundTrip _ r => Some r
  | transport.EvH1RoundTrip _ r => Some r
  | transport.EvPlainRoundTrip r => Some r
  | _ => None
  end.

Definition is_dial (e : transport.event) : bool :=
  match e with transport.EvDial _ => true | _ => false end.

Definition is_handshake (e : transport.event) : bool :=
  match e with transport.EvHandshake _ _ => true | _ => false end.

Definition is_sent (e : transport.event) : bool :=
  match sent e with Some _ => true | None => false end.

(** The events a run of the transport added to the log. *)
Definition newEvents (before after : transport.rtState) : list transport.event :=
  drop (length (transport.trace before)) (transport.trace after).

(** All requests among [evs] are [req]. *)
Definition sends_only (req : Request) (evs : list transport.event) : Prop :=
  Forall (fun e => match sent e with Some r => r = req | None => True end) evs.

(** Every deadline put on a socket among [evs] is [d] or the cleared one. *)
Definition deadlines_within (d : deadline) (evs : list transport.event) : Prop :=
  Forall (fun e => match e with
                   | transport.EvSetDeadline _ d' => d' = d \/ d' = NoDeadline
                   | _ => True
                   end) evs.

(** What makes a list of events the log of one call: at most [n] requests,
    all of them [req], at most one dial and one handshake, and no deadline
    on a socket but the one of the handshake. *)
Definition attempt (n : nat) (req : Request) (evs : list transport.event) : Prop :=
  (length (List.filter is_dial evs) <= 1)%nat /\
  (length (List.filter is_handshake evs) <= 1)%nat /\
  (length (List.filter is_sent evs) <= n)%nat /\
  sends_only req evs /\
  deadlines_within (handshakeDeadline req) evs.

(** The requests the forwarding client of the proxy put on the wire. *)
Definition forwarded (e : proxy.event) : option Request :=
  match e with
  | proxy.EvTransport te => sent te
  | _ => None
  end.

(** The request [handleHTTP] builds from the inbound one, handler.go 203-212. *)
Definition forwardRequest (r : Request) : Request :=
  mkRequest (Method r) (req_URL r) (Host (req_URL r))
    (http.Del (http.Del (proxy.copyHeaders ∅ (req_Header r)) "Proxy-Connection")
       "Proxy-Authorization")
    (req_Body r) (req_deadline r).

(** The address [handleConnect] dials: the upstream proxy when one is
    configured (port 80 when it names none), the target otherwise. *)
Definition connectDialAddr (h : proxy.Handler) (r : Request) : string :=
  match proxy.upstreamURL h with
  | Some upstream =>
      if strings.Contains (Host upstream) ":" then Host upstream
      else Host upstream +:+ ":80"
  | None => proxy.targetAddr r
  end.

(** The events of the exchange with an upstream proxy after the dial. *)
Definition upstream_only (e : proxy.event) : Prop :=
  match e with
  | proxy.EvWrite _ _ | proxy.EvReadResponse _ | proxy.EvClose _ => True
  | _ => False
  end.

Definition no_dial (e : proxy.event) : Prop :=
  match e with proxy.EvDialTCP _ => False | _ => True end.

Definition no_relay (e : proxy.event) : Prop :=
  match e with proxy.EvRelay _ _ => False | _ => True end.

(** What [handleConnect] writes on the hijacked socket. *)
Definition established : string :=
  "HTTP/1.1 200 Connection Established" +:+ auth.CRLF +:+ auth.CRLF.

(** One header line of an HTTP/1.1 message. *)
Definition headerLine (name value : string) : string :=
  name +:+ ": " +:+ value +:+ auth.CRLF.

(** The success test of [FetchBatch]. *)
Definition succeeded (res : FetchResponse.t) : bool :=
  String.eqb (FetchResponse.Error res) ""
  && (200 <=? FetchResponse.StatusCode res)
  && (FetchResponse.StatusCode res <? 400).

(** Every character of [s] is a lower-case hexadecimal digit. *)
Fixpoint allHex (s : string) : bool :=
  match s with
  | EmptyString => true
  | String c s' => strings.Contains auth.hextable (String c EmptyString) && allHex s'
  end.

(** ** Concrete inputs *)

Module Examples.

Definition httpsGet (host : string) : Request :=
  mkRequest "GET" (mkURL "https" None host "/") host ∅ "" NoDeadline.

Definition page : Response := mkResponse 200 ∅ (mkBody [] None).

Definition broken : error := ErrMsg "connection reset by peer".

(** A network on which the pooled session 1 is dead, sockets open and
    negotiate [proto], and the session made on a socket works; of the body
    of a cancelled request nothing has arrived. *)
Definition netWith (proto : string) (wrap : result transport.ClientConn)
  : transport.Network :=
  transport.mkNetwork
    (fun addr => if String.eqb addr "example.com:443"
                 then Ok ("example.com", "443")
                 else Err (ErrMsg "missing port in address"))
    (fun addr => Ok 7%nat)
    (fun c sni => Ok proto)
    (fun c => wrap)
    (fun cc => true)
    (fun cc req => if (cc =? 1)%nat then Err broken else Ok page)
    (fun c req => Ok page)
    (fun req => Ok page)
    (fun resp => Some 0%nat).

(** A network on which nothing can be reached. *)
Definition netDown : transport.Network :=
  transport.mkNetwork
    (fun addr => Err (ErrMsg "missing port in address"))
    (fun addr => Err (ErrMsg "connection refused"))
    (fun c sni => Err (ErrMsg "i/o timeout"))
    (fun c => Err broken)
    (fun cc => true)
    (fun cc req => Err broken)
    (fun c req => Err broken)
    (fun req => Err broken)
    (fun resp => Some 0%nat).

Definition pooled : transport.rtState :=
  transport.mkState {[ "example.com:443" := 1%nat ]} [].

Definition withProxyAuth (method : string) (u : URL) (host value : string) : Request :=
  mkRequest method u host {[ "Proxy-Authorization" := [value] ]} "" NoDeadline.

Definition connectNoAuth : Request :=
  mkRequest "CONNECT" (mkURL "" None "example.com:443" "") "example.com:443" ∅ ""
    NoDeadline.

(** The entries of the case tables that lead to or from an ASCII letter:
    U+0130 and the Kelvin sign U+212A are lower-cased to 'i' and 'k'; the
    orbit of 's' goes on from the long s U+017F to 'S', that of 'k' from the
    Kelvin sign to 'K', and U+0130 folds to 'i'.  Other runes play no part
    in the examples. *)
Definition tables : unicode.Tables :=
  unicode.mkTables
    (fun r => if r =? 304 then 105 else if r =? 8490 then 107 else r)
    (fun r => if r =? 383 then 83 else if r =? 8490 then 75
              else if r =? 304 then 105 else r).

Definition world : proxy.World :=
  proxy.mkWorld (netWith "h2" (Ok 2%nat))
    (fun s => Err (ErrMsg "parse error"))
    (fun m u => Ok tt)
    (fun c data => Ok tt)
    (fun c => Ok (200, "200 OK"))
    (Some (Ok 9%nat))
    tables.

(** The handler of a server started without [PROXY_TOKEN]. *)
Definition openProxy : strike2.combinedHandler :=
  strike2.New world (strike2.mkConfig "" "" "chrome" "" 500).

(** The handler of a server started with [PROXY_TOKEN=tok]. *)
Definition guardedProxy : strike2.combinedHandler :=
  strike2.New world (strike2.mkConfig "" "" "chrome" "tok" 500).

Definition gzipHeader : Header := {[ "Content-Encoding" := ["gzip"] ]}.

(** The twelve bytes of "not gzipped!". *)
Definition notGzip : list Byte.byte :=
  [ Byte.x6e; Byte.x6f; Byte.x74; Byte.x20; Byte.x67; Byte.x7a;
    Byte.x69; Byte.x70; Byte.x70; Byte.x65; Byte.x64; Byte.x21 ].

(** A network on which every HTTP/2 round trip is answered by [resp]; of
    the body of a cancelled request nothing has arrived. *)
Definition netAnswering (resp : Response) : transport.Network :=
  transport.mkNetwork
    (fun addr => Ok ("example.com", "443"))
    (fun addr => Ok 7%nat)
    (fun c sni => Ok "h2")
    (fun c => Ok 2%nat)
    (fun cc => true)
    (fun cc req => Ok resp)
    (fun c req => Ok resp)
    (fun req => Ok resp)
    (fun resp => Some 0%nat).

(** The deadline [fetchHandler] gives a fetch: 60 seconds, in nanoseconds. *)
Definition fetchDeadline : deadline := DeadlineIn (60 * 1000000000).

(** The world of a fetch made through [fetchHandler]. *)
Definition fetchWorld (resp : Response) (inflate : gzip.Inflater) : scraper.World :=
  scraper.mkWorld (netAnswering resp) inflate true
    (fun m u => Ok (mkURL "https" None "example.com" "/")) fetchDeadline 12 tables.

(** The same fetch under a context without deadline. *)
Definition fetchWorldNoDeadline (resp : Response) (inflate : gzip.Inflater)
  : scraper.World :=
  scraper.mkWorld (netAnswering resp) inflate true
    (fun m u => Ok (mkURL "https" None "example.com" "/")) NoDeadline 12 tables.

(** An inflater that finds every member malformed. *)
Definition noInflate : gzip.Inflater := fun _ => gzip.MemberBad 10 gzip.ErrHeader.

Definition emptyService : scraper.ScraperService := scraper.mkService ∅.

Definition fetchReq : FetchRequest.t :=
  FetchRequest.mk "https://example.com/" "" ∅ "" "".

(** A fetch that asks for gzip itself: the HTTP library then hands out the
    response as it came, Content-Encoding header and compressed body. *)
Definition gzipReq : FetchRequest.t :=
  FetchRequest.mk "https://example.com/" "" {[ "Accept-Encoding" := "gzip" ]} "" "".

(** "firefox" with U+0130 (bytes C4 B0) for the 'i', and "safari" with the
    long s U+017F (bytes C5 BF) for the 's'. *)
Definition dottedFirefox : string :=
  String "f" (String "196" (String "176" "refox")).

Definition longSafari : string :=
  String "197" (String "191" "afari").

(** A response header with a repeated header and a hop-by-hop one. *)
Definition replyHeader : Header :=
  {[ "Set-Cookie" := ["a=1"; "b=2"]; "Connection" := ["keep-alive"] ]}.

(** A body of one byte more than the limit. *)
Definition bigBody : list Byte.byte :=
  repeat Byte.x61 (S (Z.to_nat scraper.bodyLimit)).

End Examples.

(** * Properties of the transport engine *)

Section TransportFacts.

Import transport.
Variable net : Network.

(** [dialUTLS] never touches the pool. *)
Lemma dialUTLS_pool req addr st :
  h2ConnPool (snd (dialUTLS net req addr st)) = h2ConnPool st.
Proof.
  unfold dialUTLS, bind, emit, ret. cbn.
  destruct (DialContext net addr) as [conn|e]; cbn; [|reflexivity].
  destruct (Handshake net conn _) as [proto|e]; reflexivity.
Qed.

Lemma dialUTLS_fails req addr st :
  dial_fails net addr ->
  exists e, fst (dialUTLS net req addr st) = Err e.
Proof.
  unfold dial_fails, serverName, dialUTLS, bind, emit, ret.
  intros [[e He] | (c & e & Hc & He)]; cbn.
  - rewrite He. cbn. eauto.
  - rewrite Hc. cbn. rewrite He. cbn. eauto.
Qed.

(** After a handshake that completed, [dialUTLS] hands out the socket and
    the negotiated protocol, with the deadline cleared. *)
Lemma dialUTLS_done req addr st c proto :
  DialContext net addr = Ok c ->
  Handshake net c (serverName net addr) = Ok proto ->
  dialUTLS net req addr st =
    (Ok (mkUConn c proto),
     mkState (h2ConnPool st)
       (trace st ++ [EvDial addr; EvSetDeadline c (handshakeDeadline req);
                     EvHandshake c (serverName net addr);
                     EvSetDeadline c NoDeadline])%list).
Proof.
  unfold serverName, dialUTLS, bind, emit, ret, handshakeDeadline.
  intros Hc Hp. cbn. rewrite Hc. cbn. rewrite Hp. cbn.
  rewrite <- !app_assoc. reflexivity.
Qed.

Lemma dialAndDispatch_fails req addr st :
  dial_fails net addr ->
  (exists e, fst (dialAndDispatch net req addr st) = Err e) /\
  h2ConnPool (snd (dialAndDispatch net req addr st)) = h2ConnPool st.
Proof.
  intros Hf. unfold dialAndDispatch, bind.
  destruct (dialUTLS_fails req addr st Hf) as [e He].
  pose proof (dialUTLS_pool req addr st) as Hp.
  destruct (dialUTLS net req addr st) as [r st']. cbn in He, Hp. subst r.
  cbn. eauto.
Qed.

(** An https request is the pooled attempt followed, unless that returned
    a response, by the dial. *)
Lemma RoundTrip_https req st :
  Scheme (req_URL req) = "https" ->
  RoundTrip net req st =
    match tryPooled net req (poolKey req) st with
    | (Some resp, st1) => (Ok resp, st1)
    | (None, st1) => dialAndDispatch net req (poolKey req) st1
    end.
Proof.
  intros Hs. unfold RoundTrip. rewrite Hs.
  change (String.eqb "https" "https") with true. cbv [negb]. unfold bind at 1.
  destruct (tryPooled net req (poolKey req) st) as [[resp|] st1]; reflexivity.
Qed.

Lemma tryPooled_miss req addr st :
  h2ConnPool st !! addr = None \/
  (exists cc, h2ConnPool st !! addr = Some cc /\ CanTakeNewRequest net cc = false) ->
  tryPooled net req addr st = (None, st).
Proof.
  unfold tryPooled, bind, poolLookup, ret.
  intros [H | (cc & H & Hc)]; rewrite H; [reflexivity|]. rewrite Hc. reflexivity.
Qed.

Lemma tryPooled_broken req addr st cc e :
  h2ConnPool st !! addr = Some cc ->
  CanTakeNewRequest net cc = true ->
  h2_RoundTrip net cc req = Err e ->
  tryPooled net req addr st =
    (None, mkState (delete addr (h2ConnPool st)) (trace st ++ [EvH2RoundTrip cc req])%list).
Proof.
  unfold tryPooled, bind, poolLookup, poolDelete, emit, ret.
  intros -> -> H. cbn. rewrite H. reflexivity.
Qed.

(** Whatever comes of it, the first thing [dialAndDispatch] does is dial. *)
Lemma dialAndDispatch_dials req addr st :
  exists rest,
    trace (snd (dialAndDispatch net req addr st)) = (trace st ++ EvDial addr :: rest)%list.
Proof.
  unfold dialAndDispatch, dialUTLS, roundTripH2, roundTripH1, bind, emit, ret, poolStore.
  cbn.
  destruct (DialContext net addr) as [conn|e]; cbn; [|eexists; reflexivity].
  destruct (Handshake net conn _) as [proto|e]; cbn;
    [|rewrite <- !app_assoc; eexists; reflexivity].
  destruct (String.eqb proto "h2"); cbn.
  - destruct (NewClientConn net conn); cbn; rewrite <- !app_assoc; eexists; reflexivity.
  - destruct (String.eqb proto "http/1.1" || String.eqb proto ""); cbn.
    + destruct (h1_RoundTrip net conn req); cbn; rewrite <- !app_assoc; eexists; reflexivity.
    + rewrite <- !app_assoc; eexists; reflexivity.
Qed.

(** The three ways [dialAndDispatch] goes on after a completed handshake. *)
Lemma dialAndDispatch_done req addr st c proto :
  DialContext net addr = Ok c ->
  Handshake net c (serverName net addr) = Ok proto ->
  dialAndDispatch net req addr st =
    let st1 :=
      mkState (h2ConnPool st)
        (trace st ++ [EvDial addr; EvSetDeadline c (handshakeDeadline req);
                      EvHandshake c (serverName net addr);
                      EvSetDeadline c NoDeadline; EvLog addr proto])%list in
    if String.eqb proto "h2" then roundTripH2 net req (mkUConn c proto) addr st1
    else if String.eqb proto "http/1.1" || String.eqb proto "" then
      roundTripH1 net req (mkUConn c proto) st1
    else
      (Err (ErrMsg ("unsupported protocol: " +:+ proto)),
       mkState (h2ConnPool st) (trace st1 ++ [EvClose c])%list).
Proof.
  intros Hc Hp. unfold dialAndDispatch, bind at 1.
  rewrite (dialUTLS_done req addr st c proto Hc Hp).
  unfold roundTripH2, roundTripH1, bind, emit, ret, poolStore. cbn.
  rewrite <- !app_assoc. cbn.
  destruct (String.eqb proto "h2"); cbn.
  - destruct (NewClientConn net c); cbn; rewrite <- ?app_assoc; reflexivity.
  - destruct (String.eqb proto "http/1.1" || String.eqb proto ""); cbn.
    + destruct (h1_RoundTrip net c req); cbn; rewrite <- ?app_assoc; reflexivity.
    + rewrite <- ?app_assoc; reflexivity.
Qed.

End TransportFacts.

(** C5.  For every destination key, when the TCP dial fails or the TLS
    handshake fails (also by running into its deadline), [dialUTLS] and the
    dial part of [RoundTrip] return an error and the HTTP/2 pool is the one
    the dial found: nothing is inserted and nothing is removed.  In
    [RoundTrip] the pool the dial finds is the pool after the pooled attempt
    of lines 127-139; when no pooled session was used it is the pool of the
    call. *)
Theorem dial_failure_leaves_pool
    (net : transport.Network) (req : Request) (addr : string) (st : transport.rtState) :
  dial_fails net addr ->
  ((exists e, fst (transport.dialUTLS net req addr st) = Err e) /\
   transport.h2ConnPool (snd (transport.dialUTLS net req addr st)) = transport.h2ConnPool st) /\
  ((exists e, fst (transport.dialAndDispatch net req addr st) = Err e) /\
   transport.h2ConnPool (snd (transport.dialAndDispatch net req addr st))
   = transport.h2ConnPool st) /\
  (Scheme (req_URL req) = "https" -> addr = transport.poolKey req ->
   (forall st1, transport.tryPooled net req addr st = (None, st1) ->
      (exists e, fst (transport.RoundTrip net req st) = Err e) /\
      transport.h2ConnPool (snd (transport.RoundTrip net req st)) = transport.h2ConnPool st1) /\
   (transport.h2ConnPool st !! addr = None \/
    (exists cc, transport.h2ConnPool st !! addr = Some cc /\
                transport.CanTakeNewRequest net cc = false) ->
      (exists e, fst (transport.RoundTrip net req st) = Err e) /\
      transport.h2ConnPool (snd (transport.RoundTrip net req st)) = transport.h2ConnPool st)).
Proof.
  intros Hf. split; [|split].
  - split; [apply dialUTLS_fails, Hf | apply dialUTLS_pool].
  - apply dialAndDispatch_fails, Hf.
  - intros Hs ->.
    assert (Hgen : forall st1, transport.tryPooled net req (transport.poolKey req) st = (None, st1) ->
      (exists e, fst (transport.RoundTrip net req st) = Err e) /\
      transport.h2ConnPool (snd (transport.RoundTrip net req st)) = transport.h2ConnPool st1).
    { intros st1 Ht. rewrite (RoundTrip_https net req st Hs), Ht.
      apply dialAndDispatch_fails, Hf. }
    split; [exact Hgen|].
    intros Hmiss. apply Hgen, tryPooled_miss, Hmiss.
Qed.

Lemma dial_failure_leaves_pool_witness :
  dial_fails Examples.netDown "example.com:443" /\
  transport.h2ConnPool
    (snd (transport.dialAndDispatch Examples.netDown (Examples.httpsGet "example.com")
            "example.com:443" Examples.pooled))
  = transport.h2ConnPool Examples.pooled.
Proof.
  assert (Hf : dial_fails Examples.netDown "example.com:443").
  { left. eexists. reflexivity. }
  split; [exact Hf|].
  apply (dial_failure_leaves_pool Examples.netDown (Examples.httpsGet "example.com")
           "example.com:443" Examples.pooled Hf).
Defined.

(** C1, as stated, fails: the pooled session 1 of example.com:443 has spare
    capacity and its round trip fails, yet the same call dials, shakes hands,
    stores the new session 2 and returns the response of the second round
    trip. *)
Lemma pooled_failure_is_retried :
  let net := Examples.netWith "h2" (Ok 2%nat) in
  let req := Examples.httpsGet "example.com" in
  transport.h2ConnPool Examples.pooled !! transport.poolKey req = Some 1%nat /\
  transport.CanTakeNewRequest net 1%nat = true /\
  transport.h2_RoundTrip net 1%nat req = Err Examples.broken /\
  transport.RoundTrip net req Examples.pooled =
    (Ok Examples.page,
     transport.mkState {[ "example.com:443" := 2%nat ]}
       [ transport.EvH2RoundTrip 1%nat req;
         transport.EvDial "example.com:443";
         transport.EvSetDeadline 7%nat (DeadlineIn transport.tlsTimeout);
         transport.EvHandshake 7%nat "example.com";
         transport.EvSetDeadline 7%nat NoDeadline;
         transport.EvLog "example.com:443" "h2";
         transport.EvNewClientConn 7%nat;
         transport.EvH2RoundTrip 2%nat req ]).
Proof. vm_compute. repeat split; reflexivity. Qed.

(** C1, amended.  When the pooled session of the destination has spare
    capacity and its round trip fails, the entry is evicted and the same
    [RoundTrip] call goes on to dial the destination afresh: its result and
    its final state are those of the dial and dispatch from the state with
    the entry removed, and the event after the failed round trip is the
    dial. *)
Theorem pooled_failure_evicts_and_redials
    (net : transport.Network) (req : Request) (st : transport.rtState)
    (cc : transport.ClientConn) (e : error) :
  Scheme (req_URL req) = "https" ->
  transport.h2ConnPool st !! transport.poolKey req = Some cc ->
  transport.CanTakeNewRequest net cc = true ->
  transport.h2_RoundTrip net cc req = Err e ->
  let st1 :=
    transport.mkState (delete (transport.poolKey req) (transport.h2ConnPool st))
      (transport.trace st ++ [transport.EvH2RoundTrip cc req])%list in
  transport.h2ConnPool st1 !! transport.poolKey req = None /\
  transport.RoundTrip net req st = transport.dialAndDispatch net req (transport.poolKey req) st1 /\
  exists rest,
    transport.trace (snd (transport.RoundTrip net req st)) =
      (transport.trace st
       ++ transport.EvH2RoundTrip cc req :: transport.EvDial (transport.poolKey req) :: rest)%list.
Proof.
  intros Hs Hp Hc He st1.
  assert (Hrt : transport.RoundTrip net req st
                = transport.dialAndDispatch net req (transport.poolKey req) st1).
  { rewrite (RoundTrip_https net req st Hs).
    rewrite (tryPooled_broken net req _ st cc e Hp Hc He). reflexivity. }
  split; [apply lookup_delete_eq|]. split; [exact Hrt|].
  rewrite Hrt. destruct (dialAndDispatch_dials net req (transport.poolKey req) st1) as [rest Hr].
  exists rest. rewrite Hr. subst st1. cbn. rewrite <- app_assoc. reflexivity.
Qed.

Lemma pooled_failure_evicts_and_redials_witness :
  transport.RoundTrip (Examples.netWith "h2" (Ok 2%nat)) (Examples.httpsGet "example.com")
    Examples.pooled
  = transport.dialAndDispatch (Examples.netWith "h2" (Ok 2%nat))
      (Examples.httpsGet "example.com") "example.com:443"
      (transport.mkState (delete "example.com:443" (transport.h2ConnPool Examples.pooled))
         [transport.EvH2RoundTrip 1%nat (Examples.httpsGet "example.com")]).
Proof.
  apply (pooled_failure_evicts_and_redials (Examples.netWith "h2" (Ok 2%nat))
           (Examples.httpsGet "example.com") Examples.pooled 1%nat Examples.broken);
    reflexivity.
Defined.

(** C4, as stated, fails: the handshake completes with "h2", the HTTP/2
    session cannot be set up on the socket, and no request is issued: the
    socket is closed, an error is returned and the pool stays empty. *)
Lemma h2_without_session_issues_nothing :
  let net := Examples.netWith "h2" (Err Examples.broken) in
  let req := Examples.httpsGet "example.com" in
  transport.DialContext net "example.com:443" = Ok 7%nat /\
  transport.Handshake net 7%nat "example.com" = Ok "h2" /\
  transport.RoundTrip net req transport.newUTLSRoundTripper =
    (Err (ErrWrap "failed to create HTTP/2 connection" Examples.broken),
     transport.mkState ∅
       [ transport.EvDial "example.com:443";
         transport.EvSetDeadline 7%nat (DeadlineIn transport.tlsTimeout);
         transport.EvHandshake 7%nat "example.com";
         transport.EvSetDeadline 7%nat NoDeadline;
         transport.EvLog "example.com:443" "h2";
         transport.EvNewClientConn 7%nat;
         transport.EvClose 7%nat ]).
Proof. vm_compute. repeat split; reflexivity. Qed.

(** C4, amended.  After a completed handshake: with "h2" the socket is
    wrapped in an HTTP/2 session which, when the wrapping succeeds, is stored
    in the pool under the destination key and carries the request (when it
    does not, the socket is closed and an error returned, the pool
    untouched); with "http/1.1" or the empty string the request goes over the
    same socket, with no further dial or handshake and the pool untouched;
    with any other value the socket is closed at once and the call returns
    the error "unsupported protocol". *)
Theorem alpn_dispatch
    (net : transport.Network) (req : Request) (addr : string) (st : transport.rtState)
    (c : transport.Conn) (proto : string) :
  transport.DialContext net addr = Ok c ->
  transport.Handshake net c (serverName net addr) = Ok proto ->
  let pool := transport.h2ConnPool st in
  let pre :=
    (transport.trace st
     ++ [ transport.EvDial addr;
          transport.EvSetDeadline c (handshakeDeadline req);
          transport.EvHandshake c (serverName net addr);
          transport.EvSetDeadline c NoDeadline;
          transport.EvLog addr proto ])%list in
  let out := transport.dialAndDispatch net req addr st in
  (proto = "h2" ->
   match transport.NewClientConn net c with
   | Ok h2Conn =>
       out = (transport.h2_RoundTrip net h2Conn req,
              transport.mkState (<[addr := h2Conn]> pool)
                (pre ++ [transport.EvNewClientConn c; transport.EvH2RoundTrip h2Conn req])%list)
   | Err e =>
       out = (Err (ErrWrap "failed to create HTTP/2 connection" e),
              transport.mkState pool
                (pre ++ [transport.EvNewClientConn c; transport.EvClose c])%list)
   end) /\
  (proto = "http/1.1" \/ proto = "" ->
   out = (transport.h1_RoundTrip net c req,
          transport.mkState pool
            (pre ++ transport.EvH1RoundTrip c req
                 :: if is_Err (transport.h1_RoundTrip net c req)
                    then [transport.EvClose c] else [])%list)) /\
  (proto <> "h2" -> proto <> "http/1.1" -> proto <> "" ->
   out = (Err (ErrMsg ("unsupported protocol: " +:+ proto)),
          transport.mkState pool (pre ++ [transport.EvClose c])%list)) /\
  (Scheme (req_URL req) = "https" -> addr = transport.poolKey req ->
   pool !! addr = None ->
   transport.RoundTrip net req st = out).
Proof.
  intros Hc Hp pool pre out.
  assert (Hrt : Scheme (req_URL req) = "https" -> addr = transport.poolKey req ->
                pool !! addr = None -> transport.RoundTrip net req st = out).
  { intros Hs -> Hnone. rewrite (RoundTrip_https net req st Hs).
    rewrite (tryPooled_miss net req _ st (or_introl Hnone)). reflexivity. }
  split; [|split; [|split; [|exact Hrt]]]; clear Hrt; subst out;
    rewrite (dialAndDispatch_done net req addr st c proto Hc Hp); cbv zeta;
    fold pool; fold pre.
  - intros ->. cbn [String.eqb Ascii.eqb Bool.eqb].
    unfold transport.roundTripH2, transport.bind, transport.emit, transport.ret,
      transport.poolStore. cbn.
    destruct (transport.NewClientConn net c); cbn; rewrite <- ?app_assoc; reflexivity.
  - intros [-> | ->]; cbn [String.eqb Ascii.eqb Bool.eqb orb];
      unfold transport.roundTripH1, transport.bind, transport.emit, transport.ret; cbn;
      destruct (transport.h1_RoundTrip net c req); cbn; rewrite <- ?app_assoc; reflexivity.
  - intros H2 H1 H0.
    apply String.eqb_neq in H2, H1, H0. rewrite H2, H1, H0. reflexivity.
Qed.

Lemma alpn_dispatch_witness :
  transport.dialAndDispatch (Examples.netWith "spdy/3" (Ok 2%nat))
    (Examples.httpsGet "example.com") "example.com:443" transport.newUTLSRoundTripper
  = (Err (ErrMsg "unsupported protocol: spdy/3"),
     transport.mkState ∅
       [ transport.EvDial "example.com:443";
         transport.EvSetDeadline 7%nat (DeadlineIn transport.tlsTimeout);
         transport.EvHandshake 7%nat "example.com";
         transport.EvSetDeadline 7%nat NoDeadline;
         transport.EvLog "example.com:443" "spdy/3";
         transport.EvClose 7%nat ]).
Proof.
  apply (alpn_dispatch (Examples.netWith "spdy/3" (Ok 2%nat))
           (Examples.httpsGet "example.com") "example.com:443"
           transport.newUTLSRoundTripper 7%nat "spdy/3");
    first [reflexivity | discriminate].
Defined.

(** Hosts without a colon get ":443"; a host with a colon is left alone. *)
Lemma default_port_by_colon (req : Request) :
  (strings.Contains (Host (req_URL req)) ":" = false ->
   transport.poolKey req = Host (req_URL req) +:+ ":443") /\
  (strings.Contains (Host (req_URL req)) ":" = true ->
   transport.poolKey req = Host (req_URL req)) /\
  (strings.Contains (req_Host req) ":" = false ->
   proxy.targetAddr req = req_Host req +:+ ":443") /\
  (strings.Contains (req_Host req) ":" = true ->
   proxy.targetAddr req = req_Host req).
Proof.
  unfold transport.poolKey, proxy.targetAddr.
  repeat split; intros ->; reflexivity.
Qed.

(** C8.  The bracketed IPv6 literal [2001:db8::1] carries no port, yet the
    pool key of the protocol router and the target address of a CONNECT are
    the bare literal: no ":443" is appended, because the test for a port is
    the presence of a colon. *)
Theorem bracketed_ipv6_gets_no_default_port :
  let host := "[2001:db8::1]" in
  url.Port host = "" /\
  transport.poolKey (Examples.httpsGet host) = host /\
  proxy.targetAddr (mkRequest "CONNECT" (mkURL "" None host "") host ∅ "" NoDeadline) = host.
Proof. vm_compute. repeat split; reflexivity. Qed.

(** * Properties of the proxy authentication *)

Section Base64Facts.
Import base64.

Lemma string_ind3 (P : string -> Prop) :
  P EmptyString ->
  (forall a, P (String a EmptyString)) ->
  (forall a b, P (String a (String b EmptyString))) ->
  (forall a b c s, P s -> P (String a (String b (String c s)))) ->
  forall s, P s.
Proof.
  intros H0 H1 H2 H3 s.
  assert (H : P s /\ (forall a, P (String a s)) /\ (forall a b, P (String a (String b s)))).
  { induction s as [|c s IH].
    - auto.
    - destruct IH as (IHa & IHb & IHc). repeat split; auto. }
  apply H.
Qed.

Lemma sextet_table : forallb sextet_ok (map N.of_nat (seq 0 64)) = true.
Proof. vm_compute. reflexivity. Qed.

Lemma sextet_ok_lt n : (n < 64)%N -> sextet_ok n = true.
Proof.
  intros Hn. pose proof sextet_table as Ht.
  rewrite forallb_forall in Ht. apply Ht.
  apply in_map_iff. exists (N.to_nat n). split; [apply N2Nat.id|].
  apply in_seq. lia.
Qed.

Lemma dec6_enc6 n : (n < 64)%N -> dec6 (enc6 n) = Some n.
Proof.
  intros Hn. apply sextet_ok_lt in Hn. unfold sextet_ok in Hn.
  repeat (apply andb_prop in Hn; destruct Hn as [Hn ?]).
  destruct (dec6 (enc6 n)); [|discriminate].
  apply N.eqb_eq in Hn. congruence.
Qed.

Lemma enc6_plain n :
  (n < 64)%N ->
  Ascii.eqb (enc6 n) pad = false /\
  Ascii.eqb (enc6 n) "010"%char = false /\
  Ascii.eqb (enc6 n) "013"%char = false.
Proof.
  intros Hn. apply sextet_ok_lt in Hn. unfold sextet_ok in Hn.
  repeat (apply andb_prop in Hn; destruct Hn as [Hn ?]).
  repeat split; apply negb_true_iff; assumption.
Qed.

Ltac euclid := zify; Z.to_euclidean_division_equations; lia.

Lemma sextet_bounds (v : N) :
  ((v / 262144) mod 64 < 64 /\ (v / 4096) mod 64 < 64 /\
   (v / 64) mod 64 < 64 /\ v mod 64 < 64)%N.
Proof. repeat split; apply N.mod_upper_bound; discriminate. Qed.

Lemma quantum4 (x y z : N) :
  (x < 256 -> y < 256 -> z < 256 ->
   let v := x * 65536 + y * 256 + z in
   let v' := ((((v / 262144) mod 64) * 64 + (v / 4096) mod 64) * 64
              + (v / 64) mod 64) * 64 + v mod 64 in
   (v' / 65536) mod 256 = x /\ (v' / 256) mod 256 = y /\ v' mod 256 = z)%N.
Proof. intros Hx Hy Hz v v'. subst v v'. repeat split; euclid. Qed.

Lemma quantum3 (x y : N) :
  (x < 256 -> y < 256 ->
   let v := x * 65536 + y * 256 + 0 in
   let v' := (((v / 262144) mod 64) * 64 + (v / 4096) mod 64) * 64
              + (v / 64) mod 64 in
   (v' / 1024) mod 256 = x /\ (v' / 4) mod 256 = y)%N.
Proof. intros Hx Hy v v'. subst v v'. repeat split; euclid. Qed.

Lemma quantum2 (x : N) :
  (x < 256 ->
   let v := x * 65536 + 0 * 256 + 0 in
   let v' := ((v / 262144) mod 64) * 64 + (v / 4096) mod 64 in
   (v' / 16) mod 256 = x)%N.
Proof. intros Hx v v'. subst v v'. euclid. Qed.

Lemma val3_sextets a b c :
  let v := val3 a b c in
  decode4 (enc6 ((v / 262144) mod 64)) (enc6 ((v / 4096) mod 64))
          (enc6 ((v / 64) mod 64)) (enc6 (v mod 64))
  = Some (String a (String b (String c EmptyString))).
Proof.
  intros v. destruct (sextet_bounds v) as (B0 & B1 & B2 & B3).
  unfold decode4. rewrite !dec6_enc6 by assumption.
  destruct (quantum4 (N_of_ascii a) (N_of_ascii b) (N_of_ascii c)) as (Qa & Qb & Qc);
    try apply N_ascii_bounded.
  fold (val3 a b c) in Qa, Qb, Qc. fold v in Qa, Qb, Qc.
  unfold byte_of. rewrite Qa, Qb, Qc, !ascii_N_embedding. reflexivity.
Qed.

Lemma val3_sextets3 a b :
  let v := val3 a b zero in
  decode3 (enc6 ((v / 262144) mod 64)) (enc6 ((v / 4096) mod 64))
          (enc6 ((v / 64) mod 64))
  = Some (String a (String b EmptyString)).
Proof.
  intros v. destruct (sextet_bounds v) as (B0 & B1 & B2 & B3).
  unfold decode3. rewrite !dec6_enc6 by assumption.
  destruct (quantum3 (N_of_ascii a) (N_of_ascii b)) as (Qa & Qb);
    try apply N_ascii_bounded.
  change (N_of_ascii a * 65536 + N_of_ascii b * 256 + 0)%N with (val3 a b zero) in Qa, Qb.
  fold v in Qa, Qb.
  unfold byte_of. rewrite Qa, Qb, !ascii_N_embedding. reflexivity.
Qed.

Lemma val3_sextets2 a :
  let v := val3 a zero zero in
  decode2 (enc6 ((v / 262144) mod 64)) (enc6 ((v / 4096) mod 64))
  = Some (String a EmptyString).
Proof.
  intros v. destruct (sextet_bounds v) as (B0 & B1 & B2 & B3).
  unfold decode2. rewrite !dec6_enc6 by assumption.
  pose proof (quantum2 (N_of_ascii a) (N_ascii_bounded a)) as Qa.
  change (N_of_ascii a * 65536 + 0 * 256 + 0)%N with (val3 a zero zero) in Qa.
  fold v in Qa.
  unfold byte_of. rewrite Qa, !ascii_N_embedding. reflexivity.
Qed.

Lemma stripCRLF_encode s : stripCRLF (EncodeToString s) = EncodeToString s.
Proof.
  induction s as [|a|a b|a b c s IH] using string_ind3; cbn [EncodeToString stripCRLF].
  - reflexivity.
  - destruct (sextet_bounds (val3 a zero zero)) as (B0 & B1 & _).
    destruct (enc6_plain _ B0) as (_ & -> & ->), (enc6_plain _ B1) as (_ & -> & ->).
    reflexivity.
  - destruct (sextet_bounds (val3 a b zero)) as (B0 & B1 & B2 & _).
    destruct (enc6_plain _ B0) as (_ & -> & ->), (enc6_plain _ B1) as (_ & -> & ->),
      (enc6_plain _ B2) as (_ & -> & ->).
    reflexivity.
  - destruct (sextet_bounds (val3 a b c)) as (B0 & B1 & B2 & B3).
    destruct (enc6_plain _ B0) as (_ & -> & ->), (enc6_plain _ B1) as (_ & -> & ->),
      (enc6_plain _ B2) as (_ & -> & ->), (enc6_plain _ B3) as (_ & -> & ->).
    cbn [orb]. rewrite IH. reflexivity.
Qed.

Lemma decodeQuanta_encode s : decodeQuanta (EncodeToString s) = Some s.
Proof.
  induction s as [|a|a b|a b c s IH] using string_ind3; cbn [EncodeToString decodeQuanta].
  - reflexivity.
  - rewrite Ascii.eqb_refl. cbn. apply val3_sextets2.
  - destruct (sextet_bounds (val3 a b zero)) as (_ & _ & B2 & _).
    destruct (enc6_plain _ B2) as (-> & _). rewrite Ascii.eqb_refl. cbn [String.eqb].
    apply val3_sextets3.
  - destruct (sextet_bounds (val3 a b c)) as (_ & _ & B2 & B3).
    destruct (enc6_plain _ B2) as (-> & _), (enc6_plain _ B3) as (-> & _).
    rewrite val3_sextets, IH. reflexivity.
Qed.

(** Decoding undoes encoding. *)
Lemma DecodeString_EncodeToString s : DecodeString (EncodeToString s) = Some s.
Proof. unfold DecodeString. rewrite stripCRLF_encode. apply decodeQuanta_encode. Qed.

End Base64Facts.

Section StringFacts.

Lemma append_cons c s t : String c s +:+ t = String c (s +:+ t).
Proof. reflexivity. Qed.

Lemma append_nil t : EmptyString +:+ t = t.
Proof. reflexivity. Qed.

Lemma Contains_colon_cons c s :
  strings.Contains (String c s) ":" = Ascii.eqb c ":"%char || strings.Contains s ":".
Proof.
  cbn [strings.Contains String.prefix].
  destruct (ascii_dec ":"%char c) as [<-|Hne].
  - destruct s; reflexivity.
  - rewrite (proj2 (Ascii.eqb_neq c ":"%char)) by congruence. reflexivity.
Qed.

Lemma SplitN2_none s :
  strings.SplitN2 s ":"%char = None <-> strings.Contains s ":" = false.
Proof.
  induction s as [|c s IH].
  - split; reflexivity.
  - rewrite Contains_colon_cons. cbn [strings.SplitN2].
    destruct (Ascii.eqb c ":"%char); cbn [orb].
    + split; discriminate.
    + destruct (strings.SplitN2 s ":"%char) as [[a b]|].
      * split; [discriminate|]. intros H. apply IH in H. discriminate.
      * split; [intros _; apply IH; reflexivity | reflexivity].
Qed.

Lemma SplitN2_join user rest :
  strings.Contains user ":" = false ->
  strings.SplitN2 (user +:+ ":" +:+ rest) ":"%char = Some (user, rest).
Proof.
  induction user as [|c user IH]; intros Hu.
  - reflexivity.
  - rewrite Contains_colon_cons in Hu. apply orb_false_iff in Hu as [Hc Hu].
    rewrite append_cons. cbn [strings.SplitN2]. rewrite Hc, (IH Hu). reflexivity.
Qed.

Lemma SplitN2_some s a b :
  strings.SplitN2 s ":"%char = Some (a, b) ->
  s = a +:+ ":" +:+ b /\ strings.Contains a ":" = false.
Proof.
  revert a b. induction s as [|c s IH]; intros a b; cbn [strings.SplitN2].
  - discriminate.
  - destruct (Ascii.eqb c ":"%char) eqn:Hc.
    + intros [= <- <-]. apply Ascii.eqb_eq in Hc. subst c. split; reflexivity.
    + destruct (strings.SplitN2 s ":"%char) as [[a' b']|]; [|discriminate].
      intros [= <- <-]. destruct (IH a' b' eq_refl) as [-> Ha].
      split; [reflexivity|]. rewrite Contains_colon_cons, Hc, Ha. reflexivity.
Qed.

Lemma prefix_drop p s :
  String.prefix p s = true -> s = p +:+ strings.drop (String.length p) s.
Proof.
  revert s. induction p as [|c p IH]; intros s.
  - reflexivity.
  - destruct s as [|d s]; cbn [String.prefix]; [discriminate|].
    destruct (ascii_dec c d) as [<-|]; [|discriminate].
    intros H. cbn [String.length strings.drop]. rewrite append_cons. f_equal. apply IH, H.
Qed.

Lemma prefix_append p s : String.prefix p (p +:+ s) = true.
Proof.
  induction p as [|c p IH].
  - rewrite append_nil. destruct s; reflexivity.
  - rewrite append_cons. cbn [String.prefix].
    destruct (ascii_dec c c); [exact IH | congruence].
Qed.

Lemma drop_append p s : strings.drop (String.length p) (p +:+ s) = s.
Proof. induction p as [|c p IH]; [reflexivity | exact IH]. Qed.

End StringFacts.

Section AuthFacts.

Variable a : auth.SimpleAuth.
Variable r : Request.

Let header : string := http.Get (req_Header r) "Proxy-Authorization".

(** The accepted headers: "Basic ", then a base64 text that decodes to a
    colon-free user name, a colon, and the token. *)
Lemma ValidateProxyAuth_true_iff :
  auth.ValidateProxyAuth a r = true <->
  exists cred user,
    header = "Basic " +:+ cred /\
    base64.DecodeString cred = Some (user +:+ ":" +:+ auth.token a) /\
    strings.Contains user ":" = false.
Proof.
  unfold auth.ValidateProxyAuth. fold header. split.
  - destruct (String.eqb header ""); [discriminate|].
    unfold strings.HasPrefix.
    destruct (String.prefix "Basic " header) eqn:Hp; [|discriminate]. cbn [negb].
    apply prefix_drop in Hp. cbn [String.length] in Hp.
    destruct (base64.DecodeString (strings.drop 6 header)) as [decoded|] eqn:Hd;
      [|discriminate].
    destruct (strings.SplitN2 decoded ":"%char) as [[user parts1]|] eqn:Hs; [|discriminate].
    intros Ht. apply String.eqb_eq in Ht. subst parts1.
    apply SplitN2_some in Hs as [-> Hu].
    exists (strings.drop 6 header), user. auto.
  - intros (cred & user & Hh & Hd & Hu). rewrite Hh.
    change (String.eqb ("Basic " +:+ cred) "") with false.
    unfold strings.HasPrefix. rewrite prefix_append. cbn [negb].
    change 6%nat with (String.length "Basic "). rewrite drop_append, Hd.
    rewrite (SplitN2_join user (auth.token a) Hu). apply String.eqb_refl.
Qed.

End AuthFacts.

(** C6, as stated, fails for a user name with a colon in it: with the token
    "tok", the header "Basic " followed by base64("a:b" ++ ":" ++ "tok") is
    refused, because the credentials are cut at their first colon. *)
Lemma colon_in_username_is_rejected :
  auth.ValidateProxyAuth (auth.mkSimpleAuth "tok")
    (Examples.withProxyAuth "CONNECT" (mkURL "" None "example.com:443" "") "example.com:443"
       ("Basic " +:+ base64.EncodeToString ("a:b" +:+ ":" +:+ "tok")))
  = false.
Proof. vm_compute. reflexivity. Qed.

(** C6, amended.  [ValidateProxyAuth] returns true exactly for a
    Proxy-Authorization header made of "Basic " and a base64 text that
    decodes to a user name without a colon, a colon, and the configured
    token; every such user name is accepted.  It returns false for a missing
    header, a scheme other than "Basic ", base64 that does not decode,
    decoded credentials without a colon, and a token other than the
    configured one. *)
Theorem ValidateProxyAuth_spec (a : auth.SimpleAuth) (r : Request) :
  let header := http.Get (req_Header r) "Proxy-Authorization" in
  (forall user,
     strings.Contains user ":" = false ->
     header = "Basic " +:+ base64.EncodeToString (user +:+ ":" +:+ auth.token a) ->
     auth.ValidateProxyAuth a r = true) /\
  (auth.ValidateProxyAuth a r = true ->
   exists cred user,
     header = "Basic " +:+ cred /\
     base64.DecodeString cred = Some (user +:+ ":" +:+ auth.token a) /\
     strings.Contains user ":" = false) /\
  (req_Header r !! "Proxy-Authorization" = None -> auth.ValidateProxyAuth a r = false) /\
  (strings.HasPrefix header "Basic " = false -> auth.ValidateProxyAuth a r = false) /\
  (forall cred,
     header = "Basic " +:+ cred -> base64.DecodeString cred = None ->
     auth.ValidateProxyAuth a r = false) /\
  (forall cred decoded,
     header = "Basic " +:+ cred -> base64.DecodeString cred = Some decoded ->
     strings.Contains decoded ":" = false ->
     auth.ValidateProxyAuth a r = false) /\
  (forall cred user tok,
     header = "Basic " +:+ cred ->
     base64.DecodeString cred = Some (user +:+ ":" +:+ tok) ->
     strings.Contains user ":" = false -> tok <> auth.token a ->
     auth.ValidateProxyAuth a r = false).
Proof.
  intros header. pose proof (ValidateProxyAuth_true_iff a r) as Hiff. fold header in Hiff.
  assert (Hinj : forall x y, "Basic " +:+ x = "Basic " +:+ y -> x = y).
  { intros x y H. rewrite !append_cons, !append_nil in H. congruence. }
  repeat split.
  - intros user Hu Hh. apply Hiff. eexists _, user. repeat split; [exact Hh| |exact Hu].
    apply DecodeString_EncodeToString.
  - apply Hiff.
  - intros Hnone. unfold auth.ValidateProxyAuth, http.Get, http.values.
    change (http.CanonicalMIMEHeaderKey "Proxy-Authorization") with "Proxy-Authorization".
    rewrite Hnone. reflexivity.
  - intros Hp. apply not_true_is_false. intros Ht.
    apply Hiff in Ht as (cred & user & Hh & _). rewrite Hh in Hp.
    unfold strings.HasPrefix in Hp. rewrite prefix_append in Hp. discriminate.
  - intros cred Hh Hd. apply not_true_is_false. intros Ht.
    apply Hiff in Ht as (cred' & user & Hh' & Hd' & _).
    rewrite Hh in Hh'. apply Hinj in Hh'. subst cred'. congruence.
  - intros cred decoded Hh Hd Hc. apply not_true_is_false. intros Ht.
    apply Hiff in Ht as (cred' & user & Hh' & Hd' & Hu).
    rewrite Hh in Hh'. apply Hinj in Hh'. subst cred'.
    rewrite Hd in Hd'. injection Hd' as ->.
    apply SplitN2_none in Hc. rewrite (SplitN2_join user _ Hu) in Hc. discriminate.
  - intros cred user tok Hh Hd Hu Hne. apply not_true_is_false. intros Ht.
    apply Hiff in Ht as (cred' & user' & Hh' & Hd' & Hu').
    rewrite Hh in Hh'. apply Hinj in Hh'. subst cred'.
    rewrite Hd in Hd'. injection Hd' as Heq.
    pose proof (SplitN2_join user tok Hu) as H1.
    rewrite Heq, (SplitN2_join user' _ Hu') in H1. congruence.
Qed.

Lemma ValidateProxyAuth_spec_witness :
  auth.ValidateProxyAuth (auth.mkSimpleAuth "tok")
    (Examples.withProxyAuth "CONNECT" (mkURL "" None "example.com:443" "") "example.com:443"
       ("Basic " +:+ base64.EncodeToString ("anyuser" +:+ ":" +:+ "tok")))
  = true.
Proof.
  apply (ValidateProxyAuth_spec (auth.mkSimpleAuth "tok")
           (Examples.withProxyAuth "CONNECT" (mkURL "" None "example.com:443" "")
              "example.com:443"
              ("Basic " +:+ base64.EncodeToString ("anyuser" +:+ ":" +:+ "tok"))))
    with (user := "anyuser"); reflexivity.
Defined.

(** * Properties of the proxy front end *)

Section HeaderFacts.

Implicit Types (h dst src : Header) (key k : string) (vs : list string).

(** The literal map of [copyHeaders] holds the nine names of the document. *)
Lemma hopByHop_set k :
  default false (proxy.hopByHop !! k) = bool_decide (k ∈ hop_by_hop_set).
Proof.
  destruct (bool_decide (k ∈ hop_by_hop_set)) eqn:E.
  - apply bool_decide_eq_true in E. unfold hop_by_hop_set in E.
    set_unfold in E. destruct_or!; subst k; vm_compute; reflexivity.
  - apply bool_decide_eq_false in E.
    unfold proxy.hopByHop. cbn [list_to_map foldr fst snd uncurry].
    rewrite !lookup_insert_ne, lookup_empty; [reflexivity|..];
      intros <-; apply E; unfold hop_by_hop_set; set_solver.
Qed.

Lemma hop_names_canonical k :
  k ∈ hop_by_hop_set -> http.CanonicalMIMEHeaderKey k = k.
Proof.
  unfold hop_by_hop_set. intros E. set_unfold in E.
  destruct_or!; subst k; vm_compute; reflexivity.
Qed.

Lemma values_Add h key v k :
  http.values (http.Add h key v) k =
  if decide (k = http.CanonicalMIMEHeaderKey key)
  then (http.values h k ++ [v])%list else http.values h k.
Proof.
  unfold http.Add, http.values. case_decide as Hk.
  - subst k. rewrite lookup_insert_eq. reflexivity.
  - rewrite lookup_insert_ne by congruence. reflexivity.
Qed.

Lemma values_foldl_Add vs h key k :
  http.values (foldl (fun dst value => http.Add dst key value) h vs) k =
  if decide (k = http.CanonicalMIMEHeaderKey key)
  then (http.values h k ++ vs)%list else http.values h k.
Proof.
  revert h. induction vs as [|v vs IH]; intros h; cbn [foldl].
  - case_decide; [rewrite app_nil_r|]; reflexivity.
  - rewrite IH, values_Add. case_decide; [|reflexivity].
    rewrite <- app_assoc. reflexivity.
Qed.

Lemma values_Del h key k :
  http.values (http.Del h key) k =
  if decide (k = http.CanonicalMIMEHeaderKey key) then [] else http.values h k.
Proof.
  unfold http.Del, http.values. case_decide as Hk.
  - subst k. rewrite lookup_delete_eq. reflexivity.
  - rewrite lookup_delete_ne by congruence. reflexivity.
Qed.

Lemma values_insert h key vs k :
  http.values (<[key := vs]> h) k = if decide (k = key) then vs else http.values h k.
Proof.
  unfold http.values. case_decide as Hk.
  - subst k. rewrite lookup_insert_eq. reflexivity.
  - rewrite lookup_insert_ne by congruence. reflexivity.
Qed.

Lemma copyHeaders_values dst src :
  canonicalKeys src ->
  forall k,
    http.values (proxy.copyHeaders dst src) k =
    (http.values dst k
     ++ if bool_decide (k ∈ hop_by_hop_set) then [] else http.values src k)%list.
Proof.
  unfold proxy.copyHeaders.
  apply (map_fold_weak_ind
           (fun (r : Header) (m : Header) =>
              canonicalKeys m ->
              forall k, http.values r k =
                        (http.values dst k
                         ++ if bool_decide (k ∈ hop_by_hop_set) then []
                            else http.values m k)%list)).
  - intros _ k. unfold http.values at 3. rewrite lookup_empty. cbn.
    destruct (bool_decide _); rewrite app_nil_r; reflexivity.
  - intros i x m r Hi IH Hcanon k.
    assert (Hci : http.CanonicalMIMEHeaderKey i = i).
    { apply (Hcanon i x). apply lookup_insert_eq. }
    assert (Hm : canonicalKeys m).
    { intros j vs Hj. apply (Hcanon j vs).
      rewrite lookup_insert_ne; [exact Hj|]. intros ->. congruence. }
    specialize (IH Hm). rewrite hopByHop_set, values_insert.
    assert (Hmi : http.values m i = []).
    { unfold http.values. rewrite Hi. reflexivity. }
    destruct (bool_decide (i ∈ hop_by_hop_set)) eqn:Ei.
    + rewrite IH. destruct (decide (k = i)) as [->|Hk]; [|reflexivity].
      rewrite Ei. reflexivity.
    + rewrite values_foldl_Add, Hci, IH. destruct (decide (k = i)) as [->|Hk]; [|reflexivity].
      rewrite Ei, Hmi, app_nil_r. reflexivity.
Qed.

End HeaderFacts.

(** C7.  For every header map with canonical keys (the maps [net/http] hands
    to the proxy, for the inbound request and for the upstream response),
    [copyHeaders] adds to the destination nothing under the nine hop-by-hop
    names and, under every other name, all values of the source in their
    order.  Copied into an empty header the result holds exactly the headers
    of the source outside the nine names, each with all its values; the two
    deletions [handleHTTP] makes on the outbound request change nothing
    more. *)
Theorem copyHeaders_filter (dst src : Header) :
  canonicalKeys src ->
  (forall key,
     http.values (proxy.copyHeaders dst src) key =
     (http.values dst key
      ++ if bool_decide (key ∈ hop_by_hop_set) then [] else http.values src key)%list) /\
  (forall key,
     http.values (proxy.copyHeaders ∅ src) key =
     if bool_decide (key ∈ hop_by_hop_set) then [] else http.values src key) /\
  (forall key,
     http.values
       (http.Del (http.Del (proxy.copyHeaders ∅ src) "Proxy-Connection")
          "Proxy-Authorization") key =
     if bool_decide (key ∈ hop_by_hop_set) then [] else http.values src key).
Proof.
  intros Hc.
  assert (H0 : forall key,
     http.values (proxy.copyHeaders ∅ src) key =
     if bool_decide (key ∈ hop_by_hop_set) then [] else http.values src key).
  { intros key. rewrite (copyHeaders_values ∅ src Hc key).
    unfold http.values at 1. rewrite lookup_empty. reflexivity. }
  split; [exact (copyHeaders_values dst src Hc)|]. split; [exact H0|].
  intros key. rewrite !values_Del, H0.
  change (http.CanonicalMIMEHeaderKey "Proxy-Authorization") with "Proxy-Authorization".
  change (http.CanonicalMIMEHeaderKey "Proxy-Connection") with "Proxy-Connection".
  destruct (decide (key = "Proxy-Authorization")) as [->|]; [reflexivity|].
  destruct (decide (key = "Proxy-Connection")) as [->|]; reflexivity.
Qed.

Lemma copyHeaders_filter_witness :
  canonicalKeys Examples.replyHeader /\
  http.values (proxy.copyHeaders ∅ Examples.replyHeader) "Set-Cookie" = ["a=1"; "b=2"] /\
  http.values (proxy.copyHeaders ∅ Examples.replyHeader) "Connection" = [].
Proof.
  assert (Hc : canonicalKeys Examples.replyHeader).
  { intros key vs Hk. unfold Examples.replyHeader in Hk.
    destruct (decide (key = "Set-Cookie")) as [->|]; [vm_compute; reflexivity|].
    destruct (decide (key = "Connection")) as [->|]; [vm_compute; reflexivity|].
    rewrite lookup_insert_ne, lookup_singleton_ne in Hk by congruence. discriminate. }
  split; [exact Hc|]. split.
  - rewrite (proj1 (proj2 (copyHeaders_filter ∅ Examples.replyHeader Hc)) "Set-Cookie").
    vm_compute. reflexivity.
  - rewrite (proj1 (proj2 (copyHeaders_filter ∅ Examples.replyHeader Hc)) "Connection").
    vm_compute. reflexivity.
Defined.

(** [New] sets up the authentication exactly when a token is configured. *)
Lemma New_simpleAuth (w : proxy.World) (cfg : strike2.Config) :
  strike2.simpleAuth (strike2.New w cfg) =
  if String.eqb (strike2.ProxyToken cfg) "" then None
  else Some (auth.mkSimpleAuth (strike2.ProxyToken cfg)).
Proof.
  unfold strike2.New.
  destruct (proxy.NewHandler w _); cbn [strike2.simpleAuth];
    destruct (String.eqb (strike2.ProxyToken cfg) ""); reflexivity.
Qed.

(** C2, as stated, fails on a server started without a proxy token: a CONNECT
    without any Proxy-Authorization header is not answered with 407 but
    dispatched; the target is dialled and the tunnel set up. *)
Lemma open_proxy_forwards_without_credentials :
  strike2.simpleAuth Examples.openProxy = None /\
  req_Header Examples.connectNoAuth !! "Proxy-Authorization" = None /\
  strike2.ServeHTTP Examples.openProxy Examples.world Examples.connectNoAuth =
    (proxy.Tunnel 9%nat 7%nat,
     [ proxy.EvDialTCP "example.com:443";
       proxy.EvHijack;
       proxy.EvWrite 9%nat
         ("HTTP/1.1 200 Connection Established" +:+ auth.CRLF +:+ auth.CRLF);
       proxy.EvRelay 9%nat 7%nat;
       proxy.EvClose 9%nat;
       proxy.EvClose 7%nat ]).
Proof. vm_compute. repeat split; reflexivity. Qed.

(** C2, amended.  On a server whose proxy handler is enabled, for every
    CONNECT request and every absolute-URL request: when a proxy token is
    configured, the Proxy-Authorization header is checked before dispatch;
    when the check fails the client receives status 407 with the
    Proxy-Authenticate challenge and nothing is forwarded (no event: no
    dial, no round trip); when it succeeds the request is what the proxy
    handler makes of it.  When no token is configured no check is made: the
    request is what the proxy handler makes of it, whatever credentials it
    carries.  [New] configures the check exactly for a non-empty token. *)
Theorem proxy_auth_gate
    (h : strike2.combinedHandler) (w : proxy.World) (r : Request)
    (ph : proxy.Handler) :
  strike2.proxyHandler h = Some ph ->
  Method r = http.MethodConnect \/ IsAbs (req_URL r) = true ->
  (forall a, strike2.simpleAuth h = Some a ->
     (auth.ValidateProxyAuth a r = false ->
      strike2.ServeHTTP h w r = (proxy.Rejected auth.Reject407, []) /\
      auth.rej_status auth.Reject407 = 407 /\
      http.Get (auth.rej_header auth.Reject407) "Proxy-Authenticate"
      = "Basic realm=" +:+ auth.dquote +:+ "Strike2" +:+ auth.dquote) /\
     (auth.ValidateProxyAuth a r = true ->
      strike2.ServeHTTP h w r = proxy.ServeHTTP ph w r)) /\
  (strike2.simpleAuth h = None ->
   strike2.ServeHTTP h w r = proxy.ServeHTTP ph w r) /\
  (forall cfg,
     strike2.simpleAuth (strike2.New w cfg) =
     if String.eqb (strike2.ProxyToken cfg) "" then None
     else Some (auth.mkSimpleAuth (strike2.ProxyToken cfg))).
Proof.
  intros Hph Hkind.
  assert (Hgate : strike2.ServeHTTP h w r =
                  if strike2.authFails h r then (proxy.Rejected auth.Reject407, [])
                  else proxy.ServeHTTP ph w r).
  { unfold strike2.ServeHTTP. rewrite Hph.
    destruct (String.eqb (Method r) http.MethodConnect) eqn:Hm; [reflexivity|].
    destruct Hkind as [Hc | Habs].
    - rewrite Hc in Hm. discriminate.
    - rewrite Habs. reflexivity. }
  split; [|split].
  - intros a Ha. unfold strike2.authFails in Hgate. rewrite Ha in Hgate.
    split; intros Hv; rewrite Hgate, Hv; [|reflexivity].
    repeat split; vm_compute; reflexivity.
  - intros Hnone. unfold strike2.authFails in Hgate. rewrite Hnone in Hgate.
    exact Hgate.
  - intros cfg. apply New_simpleAuth.
Qed.

Lemma proxy_auth_gate_witness :
  strike2.ServeHTTP Examples.guardedProxy Examples.world Examples.connectNoAuth
  = (proxy.Rejected auth.Reject407, []) /\
  match strike2.proxyHandler Examples.openProxy with
  | Some ph =>
      strike2.ServeHTTP Examples.openProxy Examples.world (Examples.httpsGet "example.com")
      = proxy.ServeHTTP ph Examples.world (Examples.httpsGet "example.com")
  | None => False
  end.
Proof.
  split.
  - refine (proj1 (proj1 (proj1 (proxy_auth_gate Examples.guardedProxy Examples.world
                                   Examples.connectNoAuth
                                   (proxy.mkHandler (proxy.mkConfig "" "chrome")
                                      (default transport.zeroFingerprint
                                         (transport.GetFingerprints !! 0%nat))
                                      None)
                                   _ _)
                                (auth.mkSimpleAuth "tok") _) _)).
    + vm_compute. reflexivity.
    + left. reflexivity.
    + vm_compute. reflexivity.
    + vm_compute. reflexivity.
  - change (strike2.proxyHandler Examples.openProxy)
      with (Some (proxy.mkHandler (proxy.mkConfig "" "chrome")
                    (default transport.zeroFingerprint
                       (transport.GetFingerprints !! 0%nat))
                    None)).
    cbv iota beta.
    refine (proj1 (proj2 (proxy_auth_gate Examples.openProxy Examples.world
                            (Examples.httpsGet "example.com")
                            (proxy.mkHandler (proxy.mkConfig "" "chrome")
                               (default transport.zeroFingerprint
                                  (transport.GetFingerprints !! 0%nat))
                               None)
                            _ _)) _).
    + vm_compute. reflexivity.
    + right. reflexivity.
    + vm_compute. reflexivity.
Defined.

(** * Properties of the fingerprint catalog *)

Section CaseFacts.

Lemma in_all_ascii c : In c all_ascii.
Proof.
  unfold all_ascii. apply in_map_iff. exists (nat_of_ascii c).
  split; [apply ascii_nat_embedding|]. apply in_seq.
  pose proof (nat_ascii_bounded c). lia.
Qed.

Lemma for_all_ascii (P : ascii -> bool) :
  forallb P all_ascii = true -> forall c, P c = true.
Proof. intros H c. rewrite forallb_forall in H. apply H, in_all_ascii. Qed.

Lemma lower_upper c :
  strings.is_lower c = true ->
  strings.lower_char (strings.upper_char c) = strings.lower_char c.
Proof.
  intros H.
  pose proof (for_all_ascii
    (fun c => implb (strings.is_lower c)
                (Ascii.eqb (strings.lower_char (strings.upper_char c)) (strings.lower_char c)))
    ltac:(vm_compute; reflexivity) c) as Hc.
  cbv beta in Hc. rewrite H in Hc. apply Ascii.eqb_eq, Hc.
Qed.

Lemma lower_lower c :
  strings.lower_char (strings.lower_char c) = strings.lower_char c.
Proof.
  apply Ascii.eqb_eq.
  apply (for_all_ascii
    (fun c => Ascii.eqb (strings.lower_char (strings.lower_char c)) (strings.lower_char c))).
  vm_compute; reflexivity.
Qed.

Lemma lower_eq_related c d :
  strings.lower_char c = strings.lower_char d -> fold_related c d = true.
Proof.
  intros H.
  pose proof (for_all_ascii
    (fun c => forallb
       (fun d => implb (Ascii.eqb (strings.lower_char c) (strings.lower_char d))
                   (fold_related c d)) all_ascii)
    ltac:(vm_compute; reflexivity) c) as Hc.
  cbv beta in Hc. rewrite forallb_forall in Hc. specialize (Hc d (in_all_ascii d)).
  rewrite H, Ascii.eqb_refl in Hc. exact Hc.
Qed.

Lemma case_variant_lowerASCII name canonical :
  case_variant name canonical -> strings.lowerASCII name = strings.lowerASCII canonical.
Proof.
  induction 1 as [|c s t _ IH|c s t Hc _ IH|c s t Hc _ IH]; cbn [strings.lowerASCII].
  - reflexivity.
  - rewrite IH. reflexivity.
  - rewrite IH, (lower_upper c Hc). reflexivity.
  - rewrite IH, lower_lower. reflexivity.
Qed.

Lemma lowerASCII_case_variant name canonical :
  strings.lowerASCII name = strings.lowerASCII canonical -> case_variant name canonical.
Proof.
  revert canonical. induction name as [|c s IH]; intros [|d t]; cbn [strings.lowerASCII];
    try discriminate.
  - constructor.
  - intros [= Hc Hs]. specialize (IH t Hs).
    apply lower_eq_related in Hc. unfold fold_related in Hc.
    apply orb_prop in Hc as [Hc | Hc]; [apply orb_prop in Hc as [Hc | Hc]|].
    + apply Ascii.eqb_eq in Hc. subst d. constructor. exact IH.
    + apply andb_prop in Hc as [Hl Hc]. apply Ascii.eqb_eq in Hc. subst c.
      apply cv_upper; assumption.
    + apply andb_prop in Hc as [Hu Hc]. apply Ascii.eqb_eq in Hc. subst c.
      apply cv_lower; assumption.
Qed.

(** The other case of an ASCII letter is an ASCII letter. *)
Lemma case_variant_isASCII name canonical :
  case_variant name canonical ->
  strings.isASCII canonical = true -> strings.isASCII name = true.
Proof.
  induction 1 as [|c s t _ IH|c s t Hc _ IH|c s t Hc _ IH]; cbn [strings.isASCII];
    try reflexivity; intros Ha; apply andb_prop in Ha as [Hc' Ht];
    rewrite (IH Ht), andb_true_r.
  - exact Hc'.
  - pose proof (for_all_ascii
      (fun c => implb (strings.is_lower c)
                  (nat_of_ascii (strings.upper_char c) <? 128)%nat)
      ltac:(vm_compute; reflexivity) c) as Hu.
    cbv beta in Hu. rewrite Hc in Hu. exact Hu.
  - pose proof (for_all_ascii
      (fun c => implb (strings.is_upper c)
                  (nat_of_ascii (strings.lower_char c) <? 128)%nat)
      ltac:(vm_compute; reflexivity) c) as Hu.
    cbv beta in Hu. rewrite Hc in Hu. exact Hu.
Qed.

(** On ASCII strings [ToLower] does not look at the case tables. *)
Lemma ToLower_ASCII T s :
  strings.isASCII s = true -> strings.ToLower T s = strings.lowerASCII s.
Proof. intros H. unfold strings.ToLower. rewrite H. reflexivity. Qed.

Lemma catalog_ASCII fp :
  In fp transport.GetFingerprints -> strings.isASCII (transport.Name fp) = true.
Proof. cbn. intros [<-|[<-|[<-|[]]]]; reflexivity. Qed.

Lemma findLoop_none T lname fps :
  (forall fp, In fp fps -> strings.ToLower T (transport.Name fp) <> lname) ->
  scraper.findLoop T lname fps = None.
Proof.
  induction fps as [|fp fps IH]; intros H; cbn [scraper.findLoop].
  - reflexivity.
  - rewrite (proj2 (String.eqb_neq _ _)) by (apply H; left; reflexivity).
    apply IH. intros fp' Hin. apply H. right. exact Hin.
Qed.

Lemma findLoop_In T lname fps fp :
  scraper.findLoop T lname fps = Some fp -> In fp fps.
Proof.
  induction fps as [|fp' fps IH]; cbn [scraper.findLoop]; [discriminate|].
  destruct (String.eqb _ lname).
  - intros [= ->]. left. reflexivity.
  - intros H. right. exact (IH H).
Qed.

(** A name that [ToLower] makes a lower-cased catalog name selects that
    entry: the lower-cased names of the catalog differ from each other and
    from the empty name. *)
Lemma findFingerprint_match T fp name :
  In fp transport.GetFingerprints ->
  strings.ToLower T name = strings.ToLower T (transport.Name fp) ->
  scraper.findFingerprint T name = Some fp.
Proof.
  intros Hin Heq. unfold scraper.findFingerprint.
  destruct (String.eqb name "") eqn:He.
  - apply String.eqb_eq in He. subst name. exfalso.
    cbn in Hin. destruct Hin as [<-|[<-|[<-|[]]]]; vm_compute in Heq; discriminate.
  - cbv zeta. rewrite Heq.
    cbn in Hin. destruct Hin as [<-|[<-|[<-|[]]]]; vm_compute; reflexivity.
Qed.

End CaseFacts.

(** C9.  [findFingerprint] on every name, whatever the case tables of the
    library hold.  Letter case is what [strings.ToLower] removes: on ASCII
    names the case of the letters 'A'..'Z', beyond ASCII the lower-case
    mapping of the Unicode tables.  For every name of the catalog written
    in any letter case, and for every name at all that lower-cases to the
    lower-cased name of a catalog entry, [findFingerprint] returns that very
    profile; for every other name, and for the empty name, it returns the
    first entry of the catalog, which is Chrome and is what
    [GetRandomFingerprint] returns.  It returns a profile of the catalog
    for every name: there is no error and no index panic. *)
Theorem findFingerprint_spec (T : unicode.Tables) :
  (forall fp name,
     In fp transport.GetFingerprints ->
     case_variant name (transport.Name fp) ->
     scraper.findFingerprint T name = Some fp) /\
  (forall fp name,
     In fp transport.GetFingerprints ->
     strings.ToLower T name = strings.ToLower T (transport.Name fp) ->
     scraper.findFingerprint T name = Some fp) /\
  (forall name,
     (forall fp, In fp transport.GetFingerprints ->
                 strings.ToLower T name <> strings.ToLower T (transport.Name fp)) ->
     scraper.findFingerprint T name = head transport.GetFingerprints) /\
  (forall name,
     strings.isASCII name = true ->
     (forall fp, In fp transport.GetFingerprints ->
                 ~ case_variant name (transport.Name fp)) ->
     scraper.findFingerprint T name = head transport.GetFingerprints) /\
  scraper.findFingerprint T "" = head transport.GetFingerprints /\
  (forall name,
     exists fp, In fp transport.GetFingerprints /\
                scraper.findFingerprint T name = Some fp) /\
  (exists chrome,
     head transport.GetFingerprints = Some chrome /\
     transport.GetRandomFingerprint = Some chrome /\
     transport.Name chrome = "Chrome").
Proof.
  assert (Hunknown : forall name,
            (forall fp, In fp transport.GetFingerprints ->
                        strings.ToLower T name <> strings.ToLower T (transport.Name fp)) ->
            scraper.findFingerprint T name = head transport.GetFingerprints).
  { intros name Hno. unfold scraper.findFingerprint.
    destruct (String.eqb name ""); [reflexivity|].
    cbv zeta. rewrite findLoop_none; [reflexivity|].
    intros fp Hin Heq. apply (Hno fp Hin). symmetry. exact Heq. }
  split; [|split; [|split; [|split; [|split; [|split]]]]].
  - intros fp name Hin Hcv. apply findFingerprint_match; [exact Hin|].
    pose proof (catalog_ASCII fp Hin) as Hfp.
    rewrite (ToLower_ASCII T _ Hfp), (ToLower_ASCII T _ (case_variant_isASCII _ _ Hcv Hfp)).
    apply case_variant_lowerASCII, Hcv.
  - intros fp name. apply findFingerprint_match.
  - exact Hunknown.
  - intros name Hascii Hno. apply Hunknown. intros fp Hin Heq.
    apply (Hno fp Hin). apply lowerASCII_case_variant.
    rewrite <- (ToLower_ASCII T _ Hascii), <- (ToLower_ASCII T _ (catalog_ASCII fp Hin)).
    exact Heq.
  - reflexivity.
  - intros name. unfold scraper.findFingerprint.
    destruct (String.eqb name ""); [eexists; split; [left; reflexivity|reflexivity]|].
    cbv zeta.
    destruct (scraper.findLoop T _ _) as [fp|] eqn:Hf.
    + exists fp. split; [exact (findLoop_In _ _ _ _ Hf)|reflexivity].
    + eexists. split; [left; reflexivity|reflexivity].
  - eexists. repeat split.
Qed.

Lemma findFingerprint_spec_witness :
  scraper.findFingerprint Examples.tables "fIrEfOx" = transport.GetFingerprints !! 1%nat /\
  scraper.findFingerprint Examples.tables Examples.dottedFirefox
  = transport.GetFingerprints !! 1%nat.
Proof.
  split.
  - apply (proj1 (findFingerprint_spec Examples.tables)).
    + right; left; reflexivity.
    + change "fIrEfOx" with
        (String (strings.lower_char "F") (String (strings.upper_char "i")
          (String "r" (String (strings.upper_char "e") (String "f"
            (String (strings.upper_char "o") (String "x" EmptyString))))))).
      cbn [transport.Name].
      apply cv_lower; [reflexivity|]. apply cv_upper; [reflexivity|].
      apply cv_same. apply cv_upper; [reflexivity|]. apply cv_same.
      apply cv_upper; [reflexivity|]. apply cv_same. apply cv_nil.
  - apply (proj1 (proj2 (findFingerprint_spec Examples.tables))).
    + right; left; reflexivity.
    + vm_compute. reflexivity.
Defined.

Section FoldFacts.

Variable T : unicode.Tables.

Lemma byte_ascii c : (nat_of_ascii c <? 128)%nat = (utf8.byte c <? utf8.RuneSelf).
Proof.
  unfold utf8.byte, utf8.RuneSelf, nat_of_ascii.
  destruct (Nat.ltb_spec (N.to_nat (N_of_ascii c)) 128);
    destruct (Z.ltb_spec (Z.of_N (N_of_ascii c)) 128); try reflexivity; lia.
Qed.

(** An ASCII byte is the rune it stands for. *)
Lemma runes_ascii c s :
  (nat_of_ascii c <? 128)%nat = true ->
  utf8.runes (String c s) = utf8.byte c :: utf8.runes s.
Proof.
  intros Hc. rewrite byte_ascii in Hc. cbn [utf8.runes]. cbv zeta.
  rewrite Hc. reflexivity.
Qed.

(** On ASCII bytes folding is equality of the lower-cased bytes: the case
    tables are not looked at. *)
Lemma foldEq_ascii c d :
  (nat_of_ascii c <? 128)%nat = true -> (nat_of_ascii d <? 128)%nat = true ->
  strings.foldEq T (utf8.byte c) (utf8.byte d)
  = Ascii.eqb (strings.lower_char c) (strings.lower_char d).
Proof.
  intros Hc Hd.
  pose proof (for_all_ascii
    (fun c => forallb
       (fun d => implb ((nat_of_ascii c <? 128)%nat && (nat_of_ascii d <? 128)%nat)
                   (Bool.eqb (strings.foldEq T (utf8.byte c) (utf8.byte d))
                      (Ascii.eqb (strings.lower_char c) (strings.lower_char d))))
       all_ascii)
    ltac:(vm_compute; reflexivity) c) as H.
  cbv beta in H. rewrite forallb_forall in H. specialize (H d (in_all_ascii d)).
  rewrite Hc, Hd in H. cbn [andb implb] in H. apply Bool.eqb_prop in H. exact H.
Qed.

Lemma EqualFold_ASCII s : forall t,
  strings.isASCII s = true -> strings.isASCII t = true ->
  strings.EqualFold T s t
  = String.eqb (strings.lowerASCII s) (strings.lowerASCII t).
Proof.
  unfold strings.EqualFold.
  induction s as [|c s IH]; intros [|d t]; cbn [strings.isASCII strings.lowerASCII];
    intros Hs Ht.
  - reflexivity.
  - apply andb_prop in Ht as [Hd Ht]. rewrite (runes_ascii d t Hd). reflexivity.
  - apply andb_prop in Hs as [Hc Hs]. rewrite (runes_ascii c s Hc). reflexivity.
  - apply andb_prop in Hs as [Hc Hs]. apply andb_prop in Ht as [Hd Ht].
    rewrite (runes_ascii c s Hc), (runes_ascii d t Hd). cbn [strings.equalRunes].
    rewrite (foldEq_ascii c d Hc Hd), (IH t Hs Ht). cbn [String.eqb].
    destruct (Ascii.eqb (strings.lower_char c) (strings.lower_char d)); reflexivity.
Qed.

(** On an ASCII name the loop of [NewHandler] finds what the loop of
    [findFingerprint] finds. *)
Lemma lookupFold_findLoop T' name fps :
  strings.isASCII name = true ->
  (forall fp, In fp fps -> strings.isASCII (transport.Name fp) = true) ->
  proxy.lookupFold T name fps =
  default transport.zeroFingerprint (scraper.findLoop T' (strings.ToLower T' name) fps).
Proof.
  intros Hname. induction fps as [|fp fps IH]; intros Hfps;
    cbn [proxy.lookupFold scraper.findLoop].
  - reflexivity.
  - rewrite (EqualFold_ASCII _ _ (Hfps fp (or_introl eq_refl)) Hname).
    rewrite (ToLower_ASCII T' _ Hname), (ToLower_ASCII T' _ (Hfps fp (or_introl eq_refl))).
    destruct (String.eqb (strings.lowerASCII (transport.Name fp)) (strings.lowerASCII name));
      [reflexivity|].
    rewrite <- (ToLower_ASCII T' _ Hname). apply IH.
    intros fp' Hin. apply Hfps. right. exact Hin.
Qed.

End FoldFacts.

(** Beyond ASCII folding and lower-casing are not the same: the long s
    folds with 's' but is not lower-cased to it, U+0130 is lower-cased to 'i'
    but does not fold with 'I'. *)
Lemma fold_and_lower_differ :
  strings.EqualFold Examples.tables "Safari" Examples.longSafari = true /\
  strings.ToLower Examples.tables Examples.longSafari <> "safari" /\
  strings.EqualFold Examples.tables "Firefox" Examples.dottedFirefox = false /\
  strings.ToLower Examples.tables Examples.dottedFirefox = "firefox".
Proof. vm_compute. repeat split; try reflexivity. discriminate. Qed.

(** X24.  On every ASCII name the proxy handler picks its fingerprint as the
    scraper does: [NewHandler] and [findFingerprint] choose the same profile,
    although one compares with [EqualFold] and the other lower-cases both
    sides, and whatever the case tables hold.  (Beyond ASCII the two
    comparisons are not the same: folding and lower-casing differ.) *)
Lemma NewHandler_fingerprint
    (T : unicode.Tables) (w : proxy.World) (config : proxy.Config) (h : proxy.Handler) :
  strings.isASCII (proxy.Fingerprint config) = true ->
  proxy.NewHandler w config = Ok h ->
  Some (proxy.fingerprint h) = scraper.findFingerprint T (proxy.Fingerprint config).
Proof.
  intros Hascii. unfold proxy.NewHandler, scraper.findFingerprint.
  set (fp := if String.eqb (transport.Name _) "" then _ else _).
  assert (Hfp : Some fp =
    (if String.eqb (proxy.Fingerprint config) "" then transport.GetRandomFingerprint
     else match scraper.findLoop T (strings.ToLower T (proxy.Fingerprint config))
                  transport.GetFingerprints with
          | Some fp => Some fp
          | None => transport.GetRandomFingerprint
          end)).
  { subst fp. destruct (String.eqb (proxy.Fingerprint config) ""); cbn [negb].
    - reflexivity.
    - rewrite (lookupFold_findLoop (proxy.caseTables w) T _ _ Hascii catalog_ASCII).
      destruct (scraper.findLoop _ _ _) as [found|] eqn:Hf; cbn [default]; [|reflexivity].
      apply findLoop_In in Hf. cbn in Hf.
      destruct Hf as [<-|[<-|[<-|[]]]]; reflexivity. }
  destruct (proxy.HasUpstreamProxy config).
  - destruct (proxy.url_Parse w _); [|discriminate]. intros [= <-]. exact Hfp.
  - intros [= <-]. exact Hfp.
Qed.

(** * Properties of the scraper *)

Section ReadFacts.

Implicit Types (bs : list Byte.byte) (e : option error) (n : Z).

(** A stream at least as long as the limit is cut at the limit, and the
    reader never sees how the stream ends. *)
Lemma readAllLimited_over bs : forall n e,
  0 <= n <= Z.of_nat (length bs) ->
  io.readAllLimited n bs e = (firstn (Z.to_nat n) bs, None).
Proof.
  induction bs as [|b bs IH]; intros n e Hn; cbn [io.readAllLimited].
  - cbn [length] in Hn. replace n with 0 by lia. reflexivity.
  - destruct (n <=? 0) eqn:Hz.
    + apply Z.leb_le in Hz. replace n with 0 by lia. reflexivity.
    + apply Z.leb_gt in Hz. rewrite (IH (n - 1) e).
      * replace (Z.to_nat n) with (S (Z.to_nat (n - 1))) by lia. reflexivity.
      * cbn [length] in Hn. lia.
Qed.

(** A stream shorter than the limit is read whole, with its ending. *)
Lemma readAllLimited_under bs : forall n e,
  Z.of_nat (length bs) < n ->
  io.readAllLimited n bs e = (bs, e).
Proof.
  induction bs as [|b bs IH]; intros n e Hn; cbn [io.readAllLimited].
  - cbn [length] in Hn. rewrite (proj2 (Z.leb_gt n 0)) by lia. reflexivity.
  - cbn [length] in Hn. rewrite (proj2 (Z.leb_gt n 0)) by lia.
    rewrite (IH (n - 1) e) by lia. reflexivity.
Qed.

Lemma readResponse_over (w : scraper.World) (req : FetchRequest.t) (resp : Response) :
  scraper.bodyLimit <= Z.of_nat (length (unread (scraper.bodyReader w resp))) ->
  FetchResponse.Error (scraper.readResponse w req resp) = "" /\
  FetchResponse.Body (scraper.readResponse w req resp)
  = firstn (Z.to_nat scraper.bodyLimit) (unread (scraper.bodyReader w resp)) /\
  FetchResponse.StatusCode (scraper.readResponse w req resp) = StatusCode resp.
Proof.
  intros Hlen. unfold scraper.readResponse, io.ReadAllLimit.
  rewrite readAllLimited_over; [repeat split|].
  split; [|exact Hlen]. unfold scraper.bodyLimit. lia.
Qed.

Lemma FetchURL_response s w req resp s' :
  scraper.doRequest s w req = (inr resp, s') ->
  scraper.FetchURL s w req = (scraper.readResponse w req resp, s').
Proof. intros H. unfold scraper.FetchURL. rewrite H. reflexivity. Qed.

(** The example world answers every fetch with the response it was built
    with. *)
Lemma doRequest_fetchWorld resp inflate :
  exists s',
    scraper.doRequest Examples.emptyService (Examples.fetchWorld resp inflate)
      Examples.fetchReq = (inr resp, s').
Proof. eexists. vm_compute. reflexivity. Qed.

Lemma bodyReader_plain w resp :
  http.Get (resp_Header resp) "Content-Encoding" <> "gzip" ->
  scraper.bodyReader w resp = Body resp.
Proof.
  intros H. unfold scraper.bodyReader.
  rewrite (proj2 (String.eqb_neq _ _) H). reflexivity.
Qed.

Lemma bigBody_length : Z.of_nat (length Examples.bigBody) = scraper.bodyLimit + 1.
Proof.
  unfold Examples.bigBody. rewrite repeat_length, Nat2Z.inj_succ, Z2Nat.id.
  - lia.
  - unfold scraper.bodyLimit. lia.
Qed.

Lemma pulled_fixed_header len : gzip.pulled 10 len = Nat.min len gzip.defaultBufSize.
Proof.
  unfold gzip.pulled.
  replace ((10 + gzip.defaultBufSize - 1) / gzip.defaultBufSize)%nat with 1%nat
    by (vm_compute; reflexivity).
  rewrite Nat.mul_1_r. reflexivity.
Qed.

(** A gzip body whose header is in order is read through the inflater. *)
Lemma bodyReader_gzip w resp data ending :
  http.Get (resp_Header resp) "Content-Encoding" = "gzip" ->
  (10 <= length (unread (Body resp)))%nat ->
  gzip.fixedHeaderOk (unread (Body resp)) = true ->
  scraper.inflate w (unread (Body resp)) = gzip.MemberOk data ending ->
  scraper.bodyReader w resp = mkBody data ending.
Proof.
  intros Hce Hlen Hfix Hinf. unfold scraper.bodyReader, gzip.NewReader.
  rewrite Hce. cbn [String.eqb Ascii.eqb Bool.eqb].
  rewrite (proj2 (Nat.ltb_ge _ _) Hlen), Hfix, Hinf. reflexivity.
Qed.

(** When the fixed header is not a gzip header, the body is read from what
    the buffered header read has left of it. *)
Lemma bodyReader_fallback w resp :
  http.Get (resp_Header resp) "Content-Encoding" = "gzip" ->
  (10 <= length (unread (Body resp)))%nat ->
  gzip.fixedHeaderOk (unread (Body resp)) = false ->
  scraper.bodyReader w resp =
    mkBody (skipn (Nat.min (length (unread (Body resp))) gzip.defaultBufSize)
              (unread (Body resp)))
      (read_err (Body resp)).
Proof.
  intros Hce Hlen Hfix. unfold scraper.bodyReader, gzip.NewReader.
  rewrite Hce. cbn [String.eqb Ascii.eqb Bool.eqb].
  rewrite (proj2 (Nat.ltb_ge _ _) Hlen), Hfix. cbn [negb].
  rewrite pulled_fixed_header. reflexivity.
Qed.

End ReadFacts.

(** X25.  A response marked gzip whose stream is well formed yields the
    inflated content, cut at the limit of 10 MiB, and no error. *)
Lemma gzip_body_is_inflated
    (w : scraper.World) (req : FetchRequest.t) (resp : Response) (data : list Byte.byte) :
  http.Get (resp_Header resp) "Content-Encoding" = "gzip" ->
  (10 <= length (unread (Body resp)))%nat ->
  gzip.fixedHeaderOk (unread (Body resp)) = true ->
  scraper.inflate w (unread (Body resp)) = gzip.MemberOk data None ->
  FetchResponse.Error (scraper.readResponse w req resp) = "" /\
  FetchResponse.Body (scraper.readResponse w req resp)
  = firstn (Z.to_nat scraper.bodyLimit) data.
Proof.
  intros Hce Hlen Hfix Hinf.
  pose proof (bodyReader_gzip w resp data None Hce Hlen Hfix Hinf) as Hr.
  destruct (Z_lt_le_dec (Z.of_nat (length data)) scraper.bodyLimit) as [Hs | Hl].
  - unfold scraper.readResponse, io.ReadAllLimit. rewrite Hr. cbn [unread read_err].
    rewrite readAllLimited_under by exact Hs. cbn.
    rewrite firstn_all2 by lia. split; reflexivity.
  - destruct (readResponse_over w req resp) as (He & Hb & _).
    + rewrite Hr. exact Hl.
    + rewrite He, Hb, Hr. split; reflexivity.
Qed.

(** C3, as stated, fails: under the deadline [fetchHandler] sets, a body
    of one byte more than the limit is fetched without any error; the
    result holds its first 10MB. *)
Lemma oversized_body_reported_as_success :
  let resp := mkResponse 200 ∅ (mkBody Examples.bigBody None) in
  let w := Examples.fetchWorld resp Examples.noInflate in
  let out := fst (scraper.FetchURL Examples.emptyService w Examples.fetchReq) in
  scraper.ctx_deadline w = DeadlineIn (60 * 1000000000) /\
  scraper.bodyLimit < Z.of_nat (length (unread (Body resp))) /\
  FetchResponse.Error out = "" /\
  Z.of_nat (length (FetchResponse.Body out)) = scraper.bodyLimit.
Proof.
  intros resp w out.
  destruct (doRequest_fetchWorld resp Examples.noInflate) as [s' Hd].
  subst out w. rewrite (FetchURL_response _ _ _ _ _ Hd). cbn [fst].
  assert (Hplain : scraper.bodyReader (Examples.fetchWorld resp Examples.noInflate) resp
                   = Body resp).
  { apply bodyReader_plain. vm_compute. discriminate. }
  assert (Hlen : scraper.bodyLimit < Z.of_nat (length (unread (Body resp)))).
  { subst resp. cbn [Body unread]. rewrite bigBody_length. lia. }
  destruct (readResponse_over (Examples.fetchWorld resp Examples.noInflate)
              Examples.fetchReq resp) as (He & Hb & _).
  { rewrite Hplain. lia. }
  split; [reflexivity|]. split; [exact Hlen|]. split; [exact He|].
  rewrite Hb, Hplain, firstn_length_le; [|lia].
  apply Z2Nat.id. unfold scraper.bodyLimit. lia.
Qed.

(** C3, amended.  For every fetch that got a response: when the stream the
    body is read from holds more than the limit of 10MB, [FetchURL]
    succeeds: the error field is empty, the status is that of the
    response, and the result body is the first 10*1024*1024 bytes of that
    stream.  The stream is the response body itself when the response is
    not marked gzip, and the inflated content when it is marked gzip and
    its gzip stream is well formed: a gzip response is measured by its
    content, not by its compressed body. *)
Theorem oversized_body_is_truncated
    (s : scraper.ScraperService) (w : scraper.World) (req : FetchRequest.t)
    (resp : Response) (s' : scraper.ScraperService) :
  scraper.doRequest s w req = (inr resp, s') ->
  let out := fst (scraper.FetchURL s w req) in
  let limit := Z.to_nat scraper.bodyLimit in
  (scraper.bodyLimit < Z.of_nat (length (unread (scraper.bodyReader w resp))) ->
   FetchResponse.Error out = "" /\
   FetchResponse.Body out = firstn limit (unread (scraper.bodyReader w resp)) /\
   Z.of_nat (length (FetchResponse.Body out)) = scraper.bodyLimit /\
   FetchResponse.StatusCode out = StatusCode resp) /\
  (http.Get (resp_Header resp) "Content-Encoding" <> "gzip" ->
   scraper.bodyLimit < Z.of_nat (length (unread (Body resp))) ->
   FetchResponse.Error out = "" /\
   FetchResponse.Body out = firstn limit (unread (Body resp)) /\
   Z.of_nat (length (FetchResponse.Body out)) = scraper.bodyLimit /\
   FetchResponse.StatusCode out = StatusCode resp) /\
  (forall data ending,
     http.Get (resp_Header resp) "Content-Encoding" = "gzip" ->
     (10 <= length (unread (Body resp)))%nat ->
     gzip.fixedHeaderOk (unread (Body resp)) = true ->
     scraper.inflate w (unread (Body resp)) = gzip.MemberOk data ending ->
     scraper.bodyLimit < Z.of_nat (length data) ->
     FetchResponse.Error out = "" /\
     FetchResponse.Body out = firstn limit data /\
     Z.of_nat (length (FetchResponse.Body out)) = scraper.bodyLimit /\
     FetchResponse.StatusCode out = StatusCode resp).
Proof.
  intros Hd out limit.
  assert (Hstream :
    scraper.bodyLimit < Z.of_nat (length (unread (scraper.bodyReader w resp))) ->
    FetchResponse.Error out = "" /\
    FetchResponse.Body out = firstn limit (unread (scraper.bodyReader w resp)) /\
    Z.of_nat (length (FetchResponse.Body out)) = scraper.bodyLimit /\
    FetchResponse.StatusCode out = StatusCode resp).
  { intros Hlen. subst out limit.
    rewrite (FetchURL_response _ _ _ _ _ Hd). cbn [fst].
    destruct (readResponse_over w req resp) as (He & Hb & Hs); [lia|].
    repeat split; try assumption.
    rewrite Hb, firstn_length_le; [|lia].
    apply Z2Nat.id. unfold scraper.bodyLimit. lia. }
  split; [exact Hstream|]. split.
  - intros Hce Hlen. rewrite <- (bodyReader_plain w resp Hce). apply Hstream.
    rewrite (bodyReader_plain w resp Hce). exact Hlen.
  - intros data ending Hce H10 Hfix Hinf Hlen.
    pose proof (bodyReader_gzip w resp data ending Hce H10 Hfix Hinf) as Hr.
    replace data with (unread (scraper.bodyReader w resp)) by (rewrite Hr; reflexivity).
    apply Hstream. rewrite Hr. exact Hlen.
Qed.

Lemma oversized_body_is_truncated_witness :
  FetchResponse.Error
    (fst (scraper.FetchURL Examples.emptyService
            (Examples.fetchWorld (mkResponse 200 ∅ (mkBody Examples.bigBody None))
               Examples.noInflate)
            Examples.fetchReq))
  = "".
Proof.
  destruct (doRequest_fetchWorld (mkResponse 200 ∅ (mkBody Examples.bigBody None))
              Examples.noInflate) as [s' Hd].
  apply (proj1 (proj2 (oversized_body_is_truncated _ _ _ _ _ Hd))).
  - vm_compute. discriminate.
  - cbn [Body unread]. rewrite bigBody_length. lia.
Defined.

(** C10.  A fetch that asks for gzip itself (so that the HTTP library
    hands the response out as it came), made under the deadline
    [fetchHandler] sets, and answered by a response marked
    "Content-Encoding: gzip" whose twelve bytes are not a gzip stream:
    [gzip.NewReader] fails on the header, [FetchURL] reports no error, and
    the body of the result is empty, not the twelve raw bytes: the failed
    header read has taken them from the response body, which is the reader
    the code falls back to. *)
Theorem gzip_fallback_loses_the_body (inflate : gzip.Inflater) :
  let resp := mkResponse 200 Examples.gzipHeader (mkBody Examples.notGzip None) in
  let w := Examples.fetchWorld resp inflate in
  let out := fst (scraper.FetchURL Examples.emptyService w Examples.gzipReq) in
  FetchRequest.Headers Examples.gzipReq !! "Accept-Encoding" = Some "gzip" /\
  scraper.ctx_deadline w = DeadlineIn (60 * 1000000000) /\
  http.Get (resp_Header resp) "Content-Encoding" = "gzip" /\
  gzip.fixedHeaderOk (unread (Body resp)) = false /\
  FetchResponse.Error out = "" /\
  FetchResponse.StatusCode out = 200 /\
  FetchResponse.Body out = [].
Proof. vm_compute. repeat split; reflexivity. Qed.

(** * Further properties of the transport engine *)

Section TransportRuns.

Import transport.
Variable net : Network.

Ltac log_done :=
  rewrite <- ?app_assoc;
  (eexists; split; [reflexivity|]); cbn;
  repeat split;
  first [ lia
        | solve [repeat (constructor; cbn; auto)]
        | solve [eauto] ].

Lemma newEvents_app st st' evs :
  trace st' = (trace st ++ evs)%list -> newEvents st st' = evs.
Proof. intros H. unfold newEvents. rewrite H. apply drop_app_length. Qed.

(** The three ways of the pooled attempt. *)
Lemma tryPooled_run req addr st :
  tryPooled net req addr st = (None, st) \/
  (exists cc resp,
     h2ConnPool st !! addr = Some cc /\ CanTakeNewRequest net cc = true /\
     h2_RoundTrip net cc req = Ok resp /\
     tryPooled net req addr st =
       (Some resp, mkState (h2ConnPool st) (trace st ++ [EvH2RoundTrip cc req])%list)) \/
  (exists cc e,
     h2ConnPool st !! addr = Some cc /\ CanTakeNewRequest net cc = true /\
     h2_RoundTrip net cc req = Err e /\
     tryPooled net req addr st =
       (None, mkState (delete addr (h2ConnPool st))
                (trace st ++ [EvH2RoundTrip cc req])%list)).
Proof.
  unfold tryPooled, bind, poolLookup, poolDelete, emit, ret.
  destruct (h2ConnPool st !! addr) as [cc|]; [|left; reflexivity].
  destruct (CanTakeNewRequest net cc) eqn:Hc; [|left; reflexivity].
  cbn. destruct (h2_RoundTrip net cc req) as [resp|e] eqn:Hr.
  - right; left. exists cc, resp. auto.
  - right; right. exists cc, e. auto.
Qed.

(** What the dial and dispatch adds to the log and does to the pool. *)
Lemma dialAndDispatch_run req addr st :
  exists evs,
    trace (snd (dialAndDispatch net req addr st)) = (trace st ++ evs)%list /\
    attempt 1 req evs /\
    (h2ConnPool (snd (dialAndDispatch net req addr st)) = h2ConnPool st \/
     exists cc, h2ConnPool (snd (dialAndDispatch net req addr st))
                = <[addr := cc]> (h2ConnPool st)).
Proof.
  unfold attempt, sends_only, deadlines_within, handshakeDeadline.
  unfold dialAndDispatch, dialUTLS, roundTripH2, roundTripH1, bind, emit, ret, poolStore.
  cbn.
  destruct (DialContext net addr) as [conn|e]; cbn; [|log_done].
  destruct (Handshake net conn _) as [proto|e]; cbn; [|log_done].
  destruct (String.eqb proto "h2"); cbn.
  - destruct (NewClientConn net conn) as [cc|e]; cbn; log_done.
  - destruct (String.eqb proto "http/1.1" || String.eqb proto ""); cbn.
    + destruct (h1_RoundTrip net conn req); cbn; log_done.
    + log_done.
Qed.

Lemma attempt_after_pooled req cc evs :
  attempt 1 req evs -> attempt 2 req (EvH2RoundTrip cc req :: evs).
Proof.
  unfold attempt, sends_only, deadlines_within.
  intros (Hd & Hh & Hs & Ho & Hl). cbn.
  repeat split; try lia; constructor; cbn; auto.
Qed.

Lemma attempt_more n m req evs : (n <= m)%nat -> attempt n req evs -> attempt m req evs.
Proof. unfold attempt. intros Hle (Hd & Hh & Hs & Ho & Hl). repeat split; auto; lia. Qed.

(** What a call of [RoundTrip] adds to the log and does to the pool. *)
Lemma RoundTrip_run req st :
  exists evs,
    trace (snd (RoundTrip net req st)) = (trace st ++ evs)%list /\
    attempt 2 req evs /\
    (forall k, k <> poolKey req ->
       h2ConnPool (snd (RoundTrip net req st)) !! k = h2ConnPool st !! k).
Proof.
  destruct (String.eqb (Scheme (req_URL req)) "https") eqn:Hs.
  - apply String.eqb_eq in Hs. rewrite (RoundTrip_https net req st Hs).
    destruct (tryPooled_run req (poolKey req) st)
      as [-> | [(cc & resp & _ & _ & _ & ->) | (cc & e & _ & _ & _ & ->)]].
    + destruct (dialAndDispatch_run req (poolKey req) st) as (evs & Ht & Ha & Hp).
      exists evs. split; [exact Ht|]. split; [apply (attempt_more 1); [lia | exact Ha]|].
      intros k Hk. destruct Hp as [-> | [cc ->]]; [reflexivity|].
      apply lookup_insert_ne. congruence.
    + exists [EvH2RoundTrip cc req]. cbn. split; [reflexivity|].
      split; [|reflexivity].
      unfold attempt, sends_only, deadlines_within. cbn.
      repeat split; try lia; repeat (constructor; cbn; auto).
    + set (st1 := mkState _ _).
      destruct (dialAndDispatch_run req (poolKey req) st1) as (evs & Ht & Ha & Hp).
      exists (EvH2RoundTrip cc req :: evs). split.
      * rewrite Ht. subst st1. cbn. rewrite <- app_assoc. reflexivity.
      * split; [apply attempt_after_pooled, Ha|].
        intros k Hk. subst st1. cbn in Hp.
        destruct Hp as [-> | [cc' ->]].
        -- apply lookup_delete_ne. congruence.
        -- rewrite lookup_insert_ne by congruence. apply lookup_delete_ne. congruence.
  - unfold RoundTrip. rewrite Hs. cbn.
    exists [EvPlainRoundTrip req]. split; [reflexivity|]. split; [|reflexivity].
    unfold attempt, sends_only, deadlines_within. cbn.
    repeat split; try lia; repeat (constructor; cbn; auto).
Qed.

(** A pooled session with spare capacity that answers is all a call uses. *)
Lemma RoundTrip_pooled req st cc resp :
  Scheme (req_URL req) = "https" ->
  h2ConnPool st !! poolKey req = Some cc ->
  CanTakeNewRequest net cc = true ->
  h2_RoundTrip net cc req = Ok resp ->
  RoundTrip net req st =
    (Ok resp, mkState (h2ConnPool st) (trace st ++ [EvH2RoundTrip cc req])%list).
Proof.
  intros Hs Hp Hc Hr. rewrite (RoundTrip_https net req st Hs).
  unfold tryPooled, bind, poolLookup, emit, ret. rewrite Hp, Hc. cbn. rewrite Hr.
  reflexivity.
Qed.

End TransportRuns.

(** X1.  One call of [RoundTrip] only adds to the log of the round tripper,
    and what it adds is one attempt: at most one TCP dial, at most one TLS
    handshake, at most two requests put on the wire (the pooled session and
    the new connection), every one of them the request of the caller, and no
    deadline on a socket other than that of the handshake. *)
Theorem RoundTrip_one_attempt
    (net : transport.Network) (req : Request) (st : transport.rtState) :
  let st' := snd (transport.RoundTrip net req st) in
  transport.trace st' = (transport.trace st ++ newEvents st st')%list /\
  attempt 2 req (newEvents st st').
Proof.
  intros st'. destruct (RoundTrip_run net req st) as (evs & Ht & Ha & _).
  subst st'. rewrite (newEvents_app _ _ _ Ht). split; assumption.
Qed.

(** X2.  [RoundTrip] leaves the pooled sessions of all other addresses as
    they are: only the entry of the address of the request can change. *)
Theorem RoundTrip_pool_frame
    (net : transport.Network) (req : Request) (st : transport.rtState) (k : string) :
  k <> transport.poolKey req ->
  transport.h2ConnPool (snd (transport.RoundTrip net req st)) !! k
  = transport.h2ConnPool st !! k.
Proof.
  intros Hk. destruct (RoundTrip_run net req st) as (evs & _ & _ & Hp). apply Hp, Hk.
Qed.

Lemma RoundTrip_pool_frame_witness :
  transport.h2ConnPool
    (snd (transport.RoundTrip (Examples.netWith "h2" (Ok 2%nat))
            (Examples.httpsGet "other.example") Examples.pooled))
    !! "example.com:443"
  = Some 1%nat.
Proof.
  refine (eq_trans
            (RoundTrip_pool_frame (Examples.netWith "h2" (Ok 2%nat))
               (Examples.httpsGet "other.example") Examples.pooled "example.com:443" _) _).
  - vm_compute. discriminate.
  - vm_compute. reflexivity.
Defined.

(** X3.  Connection reuse: when an https request finds no pooled session,
    the dial and the handshake succeed with ALPN "h2" and the new session
    answers, the session is stored under the address; the same request sent
    again is answered by that session with no dial and no handshake, and the
    pool stays as it is. *)
Theorem h2_session_is_reused
    (net : transport.Network) (req : Request) (st : transport.rtState)
    (c : transport.Conn) (cc : transport.ClientConn) (resp : Response) :
  Scheme (req_URL req) = "https" ->
  transport.h2ConnPool st !! transport.poolKey req = None ->
  transport.DialContext net (transport.poolKey req) = Ok c ->
  transport.Handshake net c (serverName net (transport.poolKey req)) = Ok "h2" ->
  transport.NewClientConn net c = Ok cc ->
  transport.CanTakeNewRequest net cc = true ->
  transport.h2_RoundTrip net cc req = Ok resp ->
  let first := transport.RoundTrip net req st in
  let second := transport.RoundTrip net req (snd first) in
  fst first = Ok resp /\
  transport.h2ConnPool (snd first)
  = <[transport.poolKey req := cc]> (transport.h2ConnPool st) /\
  fst second = Ok resp /\
  transport.h2ConnPool (snd second) = transport.h2ConnPool (snd first) /\
  newEvents (snd first) (snd second) = [transport.EvH2RoundTrip cc req].
Proof.
  intros Hs Hnone Hd Hh Hw Hc Hr first second.
  assert (H1 : first =
    (Ok resp,
     transport.mkState (<[transport.poolKey req := cc]> (transport.h2ConnPool st))
       (transport.trace st
        ++ [ transport.EvDial (transport.poolKey req);
             transport.EvSetDeadline c (handshakeDeadline req);
             transport.EvHandshake c (serverName net (transport.poolKey req));
             transport.EvSetDeadline c NoDeadline;
             transport.EvLog (transport.poolKey req) "h2";
             transport.EvNewClientConn c;
             transport.EvH2RoundTrip cc req ])%list)).
  { subst first. rewrite (RoundTrip_https net req st Hs).
    rewrite (tryPooled_miss net req _ st (or_introl Hnone)).
    rewrite (dialAndDispatch_done net req _ st c "h2" Hd Hh). cbv zeta.
    cbn [String.eqb Ascii.eqb Bool.eqb].
    unfold transport.roundTripH2, transport.bind, transport.emit, transport.ret,
      transport.poolStore. cbn. rewrite Hw. cbn. rewrite Hr, <- !app_assoc. reflexivity. }
  subst second. rewrite H1. cbn [fst snd].
  rewrite (RoundTrip_pooled net req _ cc resp Hs (lookup_insert_eq _ _ _) Hc Hr).
  cbn [fst snd transport.h2ConnPool transport.trace].
  repeat split. apply newEvents_app. reflexivity.
Qed.

Lemma h2_session_is_reused_witness :
  newEvents
    (snd (transport.RoundTrip (Examples.netAnswering Examples.page)
            (Examples.httpsGet "example.com") transport.newUTLSRoundTripper))
    (snd (transport.RoundTrip (Examples.netAnswering Examples.page)
            (Examples.httpsGet "example.com")
            (snd (transport.RoundTrip (Examples.netAnswering Examples.page)
                    (Examples.httpsGet "example.com") transport.newUTLSRoundTripper))))
  = [transport.EvH2RoundTrip 2%nat (Examples.httpsGet "example.com")].
Proof.
  apply (h2_session_is_reused (Examples.netAnswering Examples.page)
           (Examples.httpsGet "example.com") transport.newUTLSRoundTripper
           7%nat 2%nat Examples.page); reflexivity.
Defined.

Section SocketFacts.

Import transport.
Variable net : Network.

Lemma dialAndDispatch_closes req addr st c e :
  DialContext net addr = Ok c ->
  fst (dialAndDispatch net req addr st) = Err e ->
  exists evs,
    trace (snd (dialAndDispatch net req addr st)) = (trace st ++ evs)%list /\
    (In (EvClose c) evs \/
     exists cc, NewClientConn net c = Ok cc /\
                h2ConnPool (snd (dialAndDispatch net req addr st)) !! addr = Some cc /\
                h2_RoundTrip net cc req = Err e).
Proof.
  intros Hd.
  unfold dialAndDispatch, dialUTLS, roundTripH2, roundTripH1, bind, emit, ret, poolStore.
  cbn. rewrite Hd. cbn.
  destruct (Handshake net c _) as [proto|e']; cbn.
  2: { intros _. rewrite <- !app_assoc. eexists; split; [reflexivity|]. left. cbn. auto. }
  destruct (String.eqb proto "h2"); cbn.
  - destruct (NewClientConn net c) as [cc|e'] eqn:Hw; cbn.
    + intros Hr. rewrite <- !app_assoc. eexists; split; [reflexivity|]. right.
      exists cc. rewrite lookup_insert_eq. auto.
    + intros _. rewrite <- !app_assoc. eexists; split; [reflexivity|]. left. cbn. auto 10.
  - destruct (String.eqb proto "http/1.1" || String.eqb proto ""); cbn.
    + destruct (h1_RoundTrip net c req); cbn; [discriminate|].
      intros _. rewrite <- !app_assoc. eexists; split; [reflexivity|]. left. cbn. auto 10.
    + intros _. rewrite <- !app_assoc. eexists; split; [reflexivity|]. left. cbn. auto 10.
Qed.

End SocketFacts.

(** X4.  No socket is leaked by a failed call: when the dial of an https
    request succeeds and [RoundTrip] still returns an error, the dialled
    socket has been closed, or it carries the HTTP/2 session that was stored
    in the pool and whose round trip was the error. *)
Theorem failed_call_closes_its_socket
    (net : transport.Network) (req : Request) (st : transport.rtState)
    (c : transport.Conn) (e : error) :
  Scheme (req_URL req) = "https" ->
  transport.DialContext net (transport.poolKey req) = Ok c ->
  fst (transport.RoundTrip net req st) = Err e ->
  let st' := snd (transport.RoundTrip net req st) in
  In (transport.EvClose c) (newEvents st st') \/
  exists cc,
    transport.NewClientConn net c = Ok cc /\
    transport.h2ConnPool st' !! transport.poolKey req = Some cc /\
    transport.h2_RoundTrip net cc req = Err e.
Proof.
  intros Hs Hd. rewrite (RoundTrip_https net req st Hs).
  destruct (tryPooled_run net req (transport.poolKey req) st)
    as [-> | [(cc & resp & _ & _ & _ & ->) | (cc & e' & _ & _ & _ & ->)]].
  - intros He st'. subst st'.
    destruct (dialAndDispatch_closes net req _ st c e Hd He) as (evs & Ht & H).
    rewrite (newEvents_app _ _ _ Ht). exact H.
  - discriminate.
  - set (st1 := transport.mkState _ _). intros He st'. subst st'.
    destruct (dialAndDispatch_closes net req _ st1 c e Hd He) as (evs & Ht & H).
    assert (Hn : newEvents st (snd (transport.dialAndDispatch net req (transport.poolKey req) st1))
                 = transport.EvH2RoundTrip cc req :: evs).
    { apply newEvents_app. rewrite Ht. subst st1. cbn. rewrite <- app_assoc. reflexivity. }
    rewrite Hn. destruct H as [H | H]; [left; right; exact H | right; exact H].
Qed.

Lemma failed_call_closes_its_socket_witness :
  In (transport.EvClose 7%nat)
    (newEvents transport.newUTLSRoundTripper
       (snd (transport.RoundTrip (Examples.netWith "spdy/3" (Ok 2%nat))
               (Examples.httpsGet "example.com") transport.newUTLSRoundTripper))).
Proof.
  destruct (failed_call_closes_its_socket (Examples.netWith "spdy/3" (Ok 2%nat))
              (Examples.httpsGet "example.com") transport.newUTLSRoundTripper 7%nat
              (ErrMsg "unsupported protocol: spdy/3") eq_refl eq_refl eq_refl)
    as [H | (cc & _ & H & _)].
  - exact H.
  - vm_compute in H. discriminate.
Defined.

Section ClientFacts.

Import transport.
Variable net : Network.

(** The request [Do] hands to [RoundTrip]: the round tripper is left as
    that call leaves it. *)
Lemma Do_RoundTrip fingerprint req st :
  snd (Do net fingerprint req st) =
  snd (RoundTrip net
         (mkRequest (Method req) (req_URL req) (req_Host req)
            (if String.eqb (http.Get (req_Header req) "User-Agent") ""
             then http.Set_ (req_Header req) "User-Agent" (UserAgent fingerprint)
             else req_Header req)
            (req_Body req)
            match req_deadline req with
            | NoDeadline => DeadlineIn (30 * 1000000000)
            | d => d
            end) st).
Proof.
  unfold Do, bind, ret. destruct (RoundTrip net _ st) as [res st'].
  destruct (req_deadline req); destruct res; reflexivity.
Qed.

(** What [Do] returns: the answer of [RoundTrip], cancelled when the context
    was made by [Do]. *)
Lemma Do_result fingerprint req st :
  fst (Do net fingerprint req st) =
  match req_deadline req,
        fst (RoundTrip net
               (mkRequest (Method req) (req_URL req) (req_Host req)
                  (if String.eqb (http.Get (req_Header req) "User-Agent") ""
                   then http.Set_ (req_Header req) "User-Agent" (UserAgent fingerprint)
                   else req_Header req)
                  (req_Body req)
                  match req_deadline req with
                  | NoDeadline => DeadlineIn (30 * 1000000000)
                  | d => d
                  end) st) with
  | NoDeadline, Ok resp => Ok (cancelled net resp)
  | _, res => res
  end.
Proof.
  unfold Do, bind, ret. destruct (RoundTrip net _ st) as [res st'].
  destruct (req_deadline req); destruct res; reflexivity.
Qed.

End ClientFacts.

(** X5.  Whatever [UTLSClient.Do] puts on the wire is the request of the
    caller: same method, URL and body, the headers unchanged except that a
    missing User-Agent is that of the fingerprint, and the deadline of the
    caller or, when there is none, 30 seconds; no socket gets another
    deadline, and a call never runs without one. *)
Theorem Do_sends_the_request_with_a_user_agent
    (net : transport.Network) (fingerprint : transport.Fingerprint)
    (req : Request) (st : transport.rtState) :
  let st' := snd (transport.Do net fingerprint req st) in
  let deadline := match req_deadline req with
                  | NoDeadline => DeadlineIn (30 * 1000000000)
                  | d => d
                  end in
  Forall (fun e =>
            match sent e with
            | Some r =>
                Method r = Method req /\ req_URL r = req_URL req /\
                req_Body r = req_Body req /\ req_deadline r = deadline /\
                http.Get (req_Header r) "User-Agent" =
                  (if String.eqb (http.Get (req_Header req) "User-Agent") ""
                   then transport.UserAgent fingerprint
                   else http.Get (req_Header req) "User-Agent") /\
                (forall key, key <> "User-Agent" ->
                   http.values (req_Header r) key = http.values (req_Header req) key)
            | None => True
            end) (newEvents st st') /\
  deadlines_within deadline (newEvents st st') /\
  deadline <> NoDeadline.
Proof.
  intros st' deadline. subst st'. rewrite Do_RoundTrip.
  set (prepared := mkRequest _ _ _ _ _ _).
  destruct (RoundTrip_run net prepared st) as (evs & Ht & (_ & _ & _ & Hsent & Hdl) & _).
  rewrite (newEvents_app _ _ _ Ht).
  assert (Hdeadline : deadline <> NoDeadline).
  { subst deadline. destruct (req_deadline req); discriminate. }
  assert (Hhd : handshakeDeadline prepared = deadline).
  { unfold handshakeDeadline. subst prepared. cbn [req_deadline]. fold deadline.
    destruct deadline; congruence. }
  rewrite Hhd in Hdl. split; [|split; assumption].
  unfold sends_only in Hsent. eapply Forall_impl; [exact Hsent|].
  intros e He. cbv beta in *. destruct (sent e) as [r|]; [|exact I]. subst r.
  subst prepared. cbn [Method req_URL req_Body req_deadline req_Header].
  repeat split.
  - destruct (String.eqb (http.Get (req_Header req) "User-Agent") ""); [|reflexivity].
    unfold http.Get, http.Set_, http.values.
    change (http.CanonicalMIMEHeaderKey "User-Agent") with "User-Agent".
    rewrite lookup_insert_eq. reflexivity.
  - intros key Hkey.
    destruct (String.eqb (http.Get (req_Header req) "User-Agent") ""); [|reflexivity].
    unfold http.Set_, http.values.
    change (http.CanonicalMIMEHeaderKey "User-Agent") with "User-Agent".
    rewrite lookup_insert_ne by congruence. reflexivity.
Qed.

(** * Further properties of the proxy front end *)

Section ForwardFacts.

Variable h : proxy.Handler.
Variable w : proxy.World.
Variable r : Request.

(** What [handleHTTP] does once the request is built. *)
Lemma handleHTTP_forwards :
  IsAbs (req_URL r) = true ->
  proxy.NewRequest w (Method r) (req_URL r) = Ok tt ->
  proxy.handleHTTP h w r =
    let out := transport.Do (proxy.net w) (proxy.fingerprint h) (forwardRequest r)
                 transport.newUTLSRoundTripper in
    (match fst out with
     | Err e => proxy.HttpError ("Request failed: " +:+ error_string e) http.StatusBadGateway
     | Ok resp =>
         proxy.Relayed (StatusCode resp) (proxy.copyHeaders ∅ (resp_Header resp)) (Body resp)
     end,
     map proxy.EvTransport (transport.trace (snd out))).
Proof.
  intros Habs Hnew. unfold proxy.handleHTTP. rewrite Habs, Hnew. cbn [negb].
  fold (forwardRequest r).
  destruct (transport.Do _ _ _ _) as [[resp|e] st]; reflexivity.
Qed.

(** Before the request is built nothing is sent. *)
Lemma handleHTTP_refuses :
  IsAbs (req_URL r) = false \/ (exists e, proxy.NewRequest w (Method r) (req_URL r) = Err e) ->
  snd (proxy.handleHTTP h w r) = [].
Proof.
  unfold proxy.handleHTTP. intros [-> | [e He]]; [reflexivity|].
  destruct (IsAbs (req_URL r)); cbn [negb]; [|reflexivity]. rewrite He. reflexivity.
Qed.

(** Every request the forwarding client sends is the one [Do] prepared, which
    has the headers of [forwardRequest] except for the User-Agent. *)
Lemma handleHTTP_sent :
  Forall (fun e =>
            match forwarded e with
            | Some r' =>
                forall key, key <> "User-Agent" ->
                  http.values (req_Header r') key
                  = http.values (req_Header (forwardRequest r)) key
            | None => True
            end) (snd (proxy.handleHTTP h w r)).
Proof.
  destruct (IsAbs (req_URL r)) eqn:Habs.
  2: { rewrite handleHTTP_refuses by auto. constructor. }
  destruct (proxy.NewRequest w (Method r) (req_URL r)) as [[]|e] eqn:Hnew.
  2: { rewrite handleHTTP_refuses by eauto. constructor. }
  rewrite (handleHTTP_forwards Habs Hnew). cbv zeta. cbn [snd].
  rewrite Do_RoundTrip. set (prepared := mkRequest _ _ _ _ _ _).
  destruct (RoundTrip_run (proxy.net w) prepared transport.newUTLSRoundTripper)
    as (evs & Ht & (_ & _ & _ & Hsent & _) & _).
  rewrite Ht. cbn [transport.newUTLSRoundTripper transport.trace app].
  apply Forall_map. eapply Forall_impl; [exact Hsent|].
  intros e He. cbn [forwarded]. cbv beta in He. destruct (sent e) as [r'|]; [|exact I].
  subst r'. intros key Hkey. subst prepared. cbn [req_Header].
  destruct (String.eqb _ ""); [|reflexivity].
  unfold http.Set_, http.values.
  change (http.CanonicalMIMEHeaderKey "User-Agent") with "User-Agent".
  rewrite lookup_insert_ne by congruence. reflexivity.
Qed.

End ForwardFacts.

(** X6.  The plain-HTTP proxy never forwards the credentials of its own
    client: no request that [handleHTTP] sends to a target carries a
    Proxy-Authorization or a Proxy-Connection header, whatever the case of
    the header name in the inbound request. *)
Theorem proxy_credentials_are_not_forwarded
    (h : proxy.Handler) (w : proxy.World) (r : Request) :
  Forall (fun e =>
            match forwarded e with
            | Some r' =>
                http.Get (req_Header r') "Proxy-Authorization" = "" /\
                http.Get (req_Header r') "Proxy-Connection" = ""
            | None => True
            end) (snd (proxy.handleHTTP h w r)).
Proof.
  eapply Forall_impl; [apply handleHTTP_sent|].
  intros e He. cbv beta in *. destruct (forwarded e) as [r'|]; [|exact I].
  unfold http.Get.
  change (http.CanonicalMIMEHeaderKey "Proxy-Authorization") with "Proxy-Authorization".
  change (http.CanonicalMIMEHeaderKey "Proxy-Connection") with "Proxy-Connection".
  rewrite !He by discriminate. unfold forwardRequest. cbn [req_Header].
  rewrite !values_Del.
  change (http.CanonicalMIMEHeaderKey "Proxy-Authorization") with "Proxy-Authorization".
  change (http.CanonicalMIMEHeaderKey "Proxy-Connection") with "Proxy-Connection".
  split.
  - destruct (decide ("Proxy-Authorization" = "Proxy-Authorization")); [reflexivity|congruence].
  - destruct (decide ("Proxy-Connection" = "Proxy-Authorization")); [reflexivity|].
    destruct (decide ("Proxy-Connection" = "Proxy-Connection")); [reflexivity|congruence].
Qed.

(** X7.  [handleHTTP] builds a new client for every request, so a proxied
    https request always starts with a TCP dial to the host of its URL (port
    443 when the host names none): sessions are never reused between proxied
    requests. *)
Theorem proxied_https_request_dials_afresh
    (h : proxy.Handler) (w : proxy.World) (r : Request) :
  Scheme (req_URL r) = "https" ->
  proxy.NewRequest w (Method r) (req_URL r) = Ok tt ->
  exists rest,
    snd (proxy.handleHTTP h w r)
    = proxy.EvTransport (transport.EvDial (transport.poolKey r)) :: rest.
Proof.
  intros Hs Hnew.
  assert (Habs : IsAbs (req_URL r) = true) by (unfold IsAbs; rewrite Hs; reflexivity).
  rewrite (handleHTTP_forwards h w r Habs Hnew). cbv zeta. cbn [snd].
  rewrite Do_RoundTrip. set (prepared := mkRequest _ _ _ _ _ _).
  assert (Hkey : transport.poolKey prepared = transport.poolKey r) by reflexivity.
  rewrite (RoundTrip_https (proxy.net w) prepared _ Hs).
  rewrite (tryPooled_miss (proxy.net w) prepared _ transport.newUTLSRoundTripper)
    by (left; apply lookup_empty).
  destruct (dialAndDispatch_dials (proxy.net w) prepared (transport.poolKey prepared)
              transport.newUTLSRoundTripper) as [rest Hr].
  rewrite Hr, Hkey. cbn. eexists. reflexivity.
Qed.

Lemma proxied_https_request_dials_afresh_witness :
  exists rest,
    snd (proxy.handleHTTP
           (proxy.mkHandler (proxy.mkConfig "" "chrome") transport.zeroFingerprint None)
           Examples.world (Examples.httpsGet "example.com"))
    = proxy.EvTransport (transport.EvDial "example.com:443") :: rest.
Proof.
  apply (proxied_https_request_dials_afresh
           (proxy.mkHandler (proxy.mkConfig "" "chrome") transport.zeroFingerprint None)
           Examples.world (Examples.httpsGet "example.com")); reflexivity.
Defined.

Section ConnectFacts.

Variable w : proxy.World.

(** The upstream exchange: one dial, to the upstream proxy; a socket only
    after the answer 200; the socket closed on every failure after the
    dial. *)
Lemma dialViaUpstreamProxy_run upstream target :
  let addr := if strings.Contains (Host upstream) ":" then Host upstream
              else Host upstream +:+ ":80" in
  let out := proxy.dialViaUpstreamProxy w upstream target in
  exists rest,
    snd out = proxy.EvDialTCP addr :: rest /\
    Forall upstream_only rest /\
    match fst out with
    | Ok conn =>
        transport.DialContext (proxy.net w) addr = Ok conn /\
        (exists status, proxy.ReadResponse w conn = Ok (200, status)) /\
        Forall (fun e => e <> proxy.EvClose conn) rest
    | Err _ =>
        forall conn, transport.DialContext (proxy.net w) addr = Ok conn ->
                     last rest = Some (proxy.EvClose conn)
    end.
Proof.
  intros addr out. subst out. unfold proxy.dialViaUpstreamProxy.
  replace (if negb (strings.Contains (Host upstream) ":")
           then Host upstream +:+ ":80" else Host upstream) with addr
    by (subst addr; destruct (strings.Contains (Host upstream) ":"); reflexivity).
  destruct (transport.DialContext (proxy.net w) addr) as [conn|e].
  2: { eexists. split; [reflexivity|]. split; [constructor|]. cbn. discriminate. }
  set (text := (_ +:+ auth.CRLF)).
  destruct (proxy.conn_Write w conn text) as [[]|e].
  2: { eexists. split; [reflexivity|]. split; [repeat constructor|].
       cbn. intros ? [= <-]. reflexivity. }
  destruct (proxy.ReadResponse w conn) as [[code status]|e] eqn:Hr.
  2: { eexists. split; [reflexivity|]. split; [repeat constructor|].
       cbn. intros ? [= <-]. reflexivity. }
  destruct (code =? 200) eqn:Hc; cbn [negb].
  - apply Z.eqb_eq in Hc. subst code. eexists. split; [reflexivity|].
    split; [repeat constructor|]. cbn. split; [reflexivity|]. split; [eauto|].
    repeat constructor; discriminate.
  - eexists. split; [reflexivity|]. split; [repeat constructor|].
    cbn. intros ? [= <-]. reflexivity.
Qed.

End ConnectFacts.

Section TunnelFacts.

Variable h : proxy.Handler.
Variable w : proxy.World.
Variable r : Request.

(** The dial of [handleConnect], whichever way it goes. *)
Lemma handleConnect_dial :
  let dialled :=
    match proxy.upstreamURL h with
    | Some upstream => proxy.dialViaUpstreamProxy w upstream (proxy.targetAddr r)
    | None => proxy.dialDirectTLS w (proxy.targetAddr r)
    end in
  exists rest,
    snd dialled = proxy.EvDialTCP (connectDialAddr h r) :: rest /\
    Forall upstream_only rest /\
    match fst dialled with
    | Ok conn =>
        transport.DialContext (proxy.net w) (connectDialAddr h r) = Ok conn /\
        (forall upstream, proxy.upstreamURL h = Some upstream ->
           exists status, proxy.ReadResponse w conn = Ok (200, status))
    | Err _ =>
        forall conn, transport.DialContext (proxy.net w) (connectDialAddr h r) = Ok conn ->
                     last rest = Some (proxy.EvClose conn)
    end.
Proof.
  unfold connectDialAddr. destruct (proxy.upstreamURL h) as [upstream|]; cbv zeta.
  - destruct (dialViaUpstreamProxy_run w upstream (proxy.targetAddr r))
      as (rest & Hev & Hnd & Hout).
    exists rest. split; [exact Hev|]. split; [exact Hnd|].
    destruct (fst (proxy.dialViaUpstreamProxy w upstream (proxy.targetAddr r))).
    + destruct Hout as (Hd & Hs & Hc). split; auto.
    + exact Hout.
  - unfold proxy.dialDirectTLS. cbn [fst snd]. exists []. split; [reflexivity|].
    split; [constructor|].
    destruct (transport.DialContext (proxy.net w) (proxy.targetAddr r)).
    + split; [reflexivity | discriminate].
    + discriminate.
Qed.

Lemma upstream_only_quiet e : upstream_only e -> no_dial e /\ no_relay e.
Proof. destruct e; cbn; auto. Qed.

Lemma last_cons_snoc {A} (x : A) l y : last (x :: l ++ [y]) = Some y.
Proof. rewrite app_comm_cons. apply last_snoc. Qed.

(** X8.  What a CONNECT can come to.  [handleConnect] dials exactly once, as
    its first step, the upstream proxy when one is configured and the target
    otherwise; a socket it dialled is closed as its last step, on every
    path.  It answers with a tunnel only when the dial and the hijack of the
    client connection succeeded and, with an upstream proxy, the upstream
    answered the CONNECT with status 200; the client is then told
    "200 Connection Established" before any byte is relayed, and both
    sockets are closed after the relay.  Otherwise it answers 502, 500 or 503
    and relays nothing. *)
Theorem handleConnect_outcomes :
  let out := fst (proxy.handleConnect h w r) in
  let evs := snd (proxy.handleConnect h w r) in
  (exists rest, evs = proxy.EvDialTCP (connectDialAddr h r) :: rest /\ Forall no_dial rest) /\
  (forall conn, transport.DialContext (proxy.net w) (connectDialAddr h r) = Ok conn ->
                last evs = Some (proxy.EvClose conn)) /\
  match out with
  | proxy.Tunnel clientConn targetConn =>
      transport.DialContext (proxy.net w) (connectDialAddr h r) = Ok targetConn /\
      proxy.Hijack w = Some (Ok clientConn) /\
      (forall upstream, proxy.upstreamURL h = Some upstream ->
         exists status, proxy.ReadResponse w targetConn = Ok (200, status)) /\
      exists before,
        Forall no_relay before /\
        evs = (before ++ [ proxy.EvHijack;
                           proxy.EvWrite clientConn established;
                           proxy.EvRelay clientConn targetConn;
                           proxy.EvClose clientConn;
                           proxy.EvClose targetConn ])%list
  | proxy.HttpError _ code =>
      (code = 502 \/ code = 500 \/ code = 503) /\ Forall no_relay evs
  | _ => False
  end.
Proof.
  cbv zeta. unfold proxy.handleConnect.
  destruct handleConnect_dial as (rest & Hev & Hnd & Hout). cbv zeta in Hev, Hout.
  destruct (match proxy.upstreamURL h with
            | Some upstream => proxy.dialViaUpstreamProxy w upstream (proxy.targetAddr r)
            | None => proxy.dialDirectTLS w (proxy.targetAddr r)
            end) as [dialled devs] eqn:Hdial.
  cbn [fst snd] in Hev, Hout. subst devs.
  assert (Hquiet : Forall no_dial rest /\ Forall no_relay rest).
  { split; eapply Forall_impl; try exact Hnd; intros e He;
      apply (upstream_only_quiet e He). }
  destruct Hquiet as [Hno_dial Hno_relay].
  assert (Hfirst : forall tail,
            Forall no_dial tail ->
            exists rest',
              ((proxy.EvDialTCP (connectDialAddr h r) :: rest) ++ tail)%list
              = proxy.EvDialTCP (connectDialAddr h r) :: rest' /\ Forall no_dial rest').
  { intros tail Ht. exists (rest ++ tail)%list. split; [reflexivity|].
    apply Forall_app. split; assumption. }
  assert (Hrelay : forall tail,
            Forall no_relay tail ->
            Forall no_relay ((proxy.EvDialTCP (connectDialAddr h r) :: rest) ++ tail)%list).
  { intros tail Ht. apply Forall_app. split; [|exact Ht].
    constructor; [exact I | exact Hno_relay]. }
  destruct dialled as [targetConn|e].
  - destruct Hout as (Hd & Hup).
    assert (Hlast : forall front conn,
              transport.DialContext (proxy.net w) (connectDialAddr h r) = Ok conn ->
              last (front ++ [proxy.EvClose targetConn])%list = Some (proxy.EvClose conn)).
    { intros front conn Hc. rewrite Hd in Hc. injection Hc as <-. apply last_snoc. }
    destruct (proxy.Hijack w) as [[clientConn|e]|] eqn:Hh; cbn [fst snd].
    + split; [apply Hfirst; repeat constructor|]. split.
      * intros conn Hc.
        change [proxy.EvHijack;
                proxy.EvWrite clientConn
                  ("HTTP/1.1 200 Connection Established" +:+ auth.CRLF +:+ auth.CRLF);
                proxy.EvRelay clientConn targetConn; proxy.EvClose clientConn;
                proxy.EvClose targetConn]
          with ([proxy.EvHijack; proxy.EvWrite clientConn established;
                 proxy.EvRelay clientConn targetConn; proxy.EvClose clientConn]
                ++ [proxy.EvClose targetConn])%list.
        rewrite app_assoc. apply Hlast, Hc.
      * split; [exact Hd|]. split; [reflexivity|]. split; [exact Hup|].
        exists (proxy.EvDialTCP (connectDialAddr h r) :: rest). split; [|reflexivity].
        constructor; [exact I | exact Hno_relay].
    + split; [apply Hfirst; repeat constructor|]. split.
      * intros conn Hc.
        change [proxy.EvHijack; proxy.EvClose targetConn]
          with ([proxy.EvHijack] ++ [proxy.EvClose targetConn])%list.
        rewrite app_assoc. apply Hlast, Hc.
      * split; [auto|]. apply Hrelay. repeat constructor.
    + split; [apply Hfirst; repeat constructor|]. split.
      * intros conn Hc. apply Hlast, Hc.
      * split; [auto|]. apply Hrelay. repeat constructor.
  - cbn [fst snd]. split; [|split].
    + eexists. split; [reflexivity | exact Hno_dial].
    + intros conn Hc. specialize (Hout conn Hc).
      destruct rest as [|x rest']; [discriminate|]. exact Hout.
    + split; [auto|]. constructor; [exact I | exact Hno_relay].
Qed.

End TunnelFacts.

Section RoutingFacts.

Variable w : proxy.World.

(** The proxy handler answers itself: it never hands a request to the API
    router and never sends the 407 challenge. *)
Lemma proxy_ServeHTTP_served (ph : proxy.Handler) (r : Request) :
  match fst (proxy.ServeHTTP ph w r) with
  | proxy.ApiRouter | proxy.Rejected _ => False
  | _ => True
  end.
Proof.
  unfold proxy.ServeHTTP. destruct (String.eqb (Method r) http.MethodConnect).
  - unfold proxy.handleConnect.
    destruct (match proxy.upstreamURL ph with Some _ => _ | None => _ end) as [[c|e] evs];
      [|exact I].
    destruct (proxy.Hijack w) as [[cl|e]|]; exact I.
  - unfold proxy.handleHTTP. destruct (negb (IsAbs (req_URL r))); [exact I|].
    destruct (proxy.NewRequest w _ _); [|exact I].
    destruct (transport.Do _ _ _ _) as [[resp|e] st]; exact I.
Qed.

End RoutingFacts.

(** X9.  Routing of the combined handler.  A request that is not a CONNECT
    and has a relative URL goes to the API router, with no authentication
    and no network activity; a CONNECT never reaches the API router.  With
    the proxy disabled nothing is dialled: a CONNECT is answered 503 and
    everything else goes to the API router.  Whenever the request goes to
    the API router or is rejected with 407, the proxy has done nothing. *)
Theorem api_and_proxy_routing
    (h : strike2.combinedHandler) (w : proxy.World) (r : Request) :
  (Method r <> http.MethodConnect -> IsAbs (req_URL r) = false ->
   strike2.ServeHTTP h w r = (proxy.ApiRouter, [])) /\
  (Method r = http.MethodConnect -> fst (strike2.ServeHTTP h w r) <> proxy.ApiRouter) /\
  (strike2.proxyHandler h = None ->
   snd (strike2.ServeHTTP h w r) = [] /\
   (Method r = http.MethodConnect ->
    fst (strike2.ServeHTTP h w r)
    = proxy.HttpError "Proxy not enabled" http.StatusServiceUnavailable) /\
   (Method r <> http.MethodConnect -> fst (strike2.ServeHTTP h w r) = proxy.ApiRouter)) /\
  (fst (strike2.ServeHTTP h w r) = proxy.ApiRouter \/
   (exists rej, fst (strike2.ServeHTTP h w r) = proxy.Rejected rej) ->
   snd (strike2.ServeHTTP h w r) = []).
Proof.
  unfold strike2.ServeHTTP.
  assert (Hserved : forall ph,
            fst (proxy.ServeHTTP ph w r) = proxy.ApiRouter \/
            (exists rej, fst (proxy.ServeHTTP ph w r) = proxy.Rejected rej) -> False).
  { intros ph Hph. pose proof (proxy_ServeHTTP_served w ph r) as Hs.
    destruct Hph as [Hph | [rej Hph]]; rewrite Hph in Hs; exact Hs. }
  split; [|split; [|split]].
  - intros Hm Ha. rewrite (proj2 (String.eqb_neq _ _) Hm), Ha. reflexivity.
  - intros Hm. rewrite Hm.
    change (String.eqb http.MethodConnect http.MethodConnect) with true. cbv iota.
    destruct (strike2.proxyHandler h) as [ph|]; [|discriminate].
    destruct (strike2.authFails h r); [discriminate|].
    intros Heq. apply (Hserved ph). left. exact Heq.
  - intros ->. split; [|split].
    + destruct (String.eqb (Method r) http.MethodConnect); [reflexivity|].
      destruct (IsAbs (req_URL r)); reflexivity.
    + intros Hm. rewrite Hm. reflexivity.
    + intros Hm. rewrite (proj2 (String.eqb_neq _ _) Hm).
      destruct (IsAbs (req_URL r)); reflexivity.
  - intros Hout.
    destruct (String.eqb (Method r) http.MethodConnect).
    + destruct (strike2.proxyHandler h) as [ph|]; [|reflexivity].
      destruct (strike2.authFails h r); [reflexivity|].
      destruct (Hserved ph Hout).
    + destruct (IsAbs (req_URL r)); [|reflexivity].
      destruct (strike2.proxyHandler h) as [ph|]; [|reflexivity].
      destruct (strike2.authFails h r); [reflexivity|].
      destruct (Hserved ph Hout).
Qed.

(** X10.  [New] and the upstream proxy: with no upstream configured the
    proxy connects directly; with an upstream URL that parses the proxy goes
    through it; with one that does not parse the proxy is disabled, so that
    every CONNECT is answered 503 without any dial and every other request
    goes to the API router. *)
Theorem New_proxy_availability (w : proxy.World) (cfg : strike2.Config) :
  (strike2.UpstreamProxy cfg = "" ->
   exists ph, strike2.proxyHandler (strike2.New w cfg) = Some ph /\
              proxy.upstreamURL ph = None) /\
  (forall u, strike2.UpstreamProxy cfg <> "" ->
     proxy.url_Parse w (strike2.UpstreamProxy cfg) = Ok u ->
     exists ph, strike2.proxyHandler (strike2.New w cfg) = Some ph /\
                proxy.upstreamURL ph = Some u) /\
  (forall e r, strike2.UpstreamProxy cfg <> "" ->
     proxy.url_Parse w (strike2.UpstreamProxy cfg) = Err e ->
     strike2.proxyHandler (strike2.New w cfg) = None /\
     (Method r = http.MethodConnect ->
      strike2.ServeHTTP (strike2.New w cfg) w r
      = (proxy.HttpError "Proxy not enabled" http.StatusServiceUnavailable, [])) /\
     (Method r <> http.MethodConnect ->
      strike2.ServeHTTP (strike2.New w cfg) w r = (proxy.ApiRouter, []))).
Proof.
  unfold strike2.New, proxy.NewHandler, proxy.HasUpstreamProxy.
  cbn [proxy.UpstreamProxy proxy.Fingerprint]. split; [|split].
  - intros ->. cbn. eexists. split; reflexivity.
  - intros u Hne Hp. rewrite (proj2 (String.eqb_neq _ _) Hne), Hp. cbn.
    eexists. split; reflexivity.
  - intros e r Hne Hp. rewrite (proj2 (String.eqb_neq _ _) Hne), Hp. cbn [negb].
    split; [reflexivity|split].
    + intros Hm. unfold strike2.ServeHTTP. rewrite Hm. reflexivity.
    + intros Hm. unfold strike2.ServeHTTP. rewrite (proj2 (String.eqb_neq _ _) Hm).
      cbn [strike2.proxyHandler]. destruct (IsAbs (req_URL r)); reflexivity.
Qed.

(** X11.  The whole path of an accepted CONNECT on a direct proxy: when the
    authentication does not fail, the target can be dialled and the client
    connection hijacked, the target is dialled at the address of the request
    (port 443 by default), the client is told that the connection is
    established, the two sockets are relayed and then closed. *)
Theorem authenticated_connect_tunnels
    (h : strike2.combinedHandler) (w : proxy.World) (r : Request)
    (ph : proxy.Handler) (clientConn targetConn : transport.Conn) :
  strike2.proxyHandler h = Some ph ->
  proxy.upstreamURL ph = None ->
  strike2.authFails h r = false ->
  Method r = http.MethodConnect ->
  transport.DialContext (proxy.net w) (proxy.targetAddr r) = Ok targetConn ->
  proxy.Hijack w = Some (Ok clientConn) ->
  strike2.ServeHTTP h w r =
    (proxy.Tunnel clientConn targetConn,
     [ proxy.EvDialTCP (proxy.targetAddr r);
       proxy.EvHijack;
       proxy.EvWrite clientConn established;
       proxy.EvRelay clientConn targetConn;
       proxy.EvClose clientConn;
       proxy.EvClose targetConn ]).
Proof.
  intros Hph Hup Hauth Hm Hd Hh.
  unfold strike2.ServeHTTP. rewrite Hm, Hph, Hauth.
  change (String.eqb http.MethodConnect http.MethodConnect) with true. cbv iota.
  unfold proxy.ServeHTTP. rewrite Hm.
  change (String.eqb http.MethodConnect http.MethodConnect) with true. cbv iota.
  unfold proxy.handleConnect, proxy.dialDirectTLS. rewrite Hup, Hd, Hh. reflexivity.
Qed.

Lemma authenticated_connect_tunnels_witness :
  strike2.ServeHTTP Examples.guardedProxy Examples.world
    (Examples.withProxyAuth "CONNECT" (mkURL "" None "example.com" "") "example.com"
       ("Basic " +:+ base64.EncodeToString "curl:tok"))
  = (proxy.Tunnel 9%nat 7%nat,
     [ proxy.EvDialTCP "example.com:443";
       proxy.EvHijack;
       proxy.EvWrite 9%nat established;
       proxy.EvRelay 9%nat 7%nat;
       proxy.EvClose 9%nat;
       proxy.EvClose 7%nat ]).
Proof.
  eapply (authenticated_connect_tunnels Examples.guardedProxy Examples.world
            (Examples.withProxyAuth "CONNECT" (mkURL "" None "example.com" "") "example.com"
               ("Basic " +:+ base64.EncodeToString "curl:tok")));
    vm_compute; reflexivity.
Defined.

(** * Further properties of the scraper *)

Section FetchFacts.

Import scraper.

Lemma readAllLimited_length bs : forall n e,
  Z.of_nat (length (fst (io.readAllLimited n bs e))) <= Z.max 0 n.
Proof.
  induction bs as [|b rest IH]; intros n e; cbn [io.readAllLimited].
  - destruct (n <=? 0); cbn; lia.
  - destruct (n <=? 0) eqn:Hn; [cbn; lia|]. apply Z.leb_gt in Hn.
    specialize (IH (n - 1) e).
    destruct (io.readAllLimited (n - 1) rest e) as [got err].
    cbn [fst length] in *. lia.
Qed.

(** What [doRequest] returns early carries the URL, status 0, nothing else
    and a message. *)
Lemma doRequest_early s w req early s' :
  doRequest s w req = (inl early, s') ->
  exists msg d, early = FetchResponse.mk (FetchRequest.URL req) 0 ∅ [] msg d /\ msg <> "".
Proof.
  unfold doRequest. destruct (negb (acquired w)).
  { intros [= <- _]. eexists _, _. split; [reflexivity|discriminate]. }
  destruct (getClient _ s _) as [client s1].
  destruct (NewRequest w _ _) as [u|err].
  2: { intros [= <- _]. eexists _, _. split; [reflexivity|].
       rewrite !append_cons. discriminate. }
  destruct (transport.Do _ _ _ _) as [[resp|err] st].
  - discriminate.
  - intros [= <- _]. eexists _, _. split; [reflexivity|].
    rewrite !append_cons. discriminate.
Qed.

Lemma readResponse_cases w req resp :
  (exists err, 
     readResponse w req resp =
       FetchResponse.mk (FetchRequest.URL req) (StatusCode resp) ∅ []
         ("failed to read body: " +:+ error_string err) (elapsed w)) \/
  (exists body,
     io.ReadAllLimit (bodyReader w resp) bodyLimit = (body, None) /\
     readResponse w req resp =
       FetchResponse.mk (FetchRequest.URL req) (StatusCode resp)
         (map_imap (fun key _ => Some (http.Get (resp_Header resp) key)) (resp_Header resp))
         body "" (elapsed w)).
Proof.
  unfold readResponse.
  destruct (io.ReadAllLimit (bodyReader w resp) bodyLimit) as [body [err|]].
  - left. exists err. reflexivity.
  - right. exists body. split; reflexivity.
Qed.

Lemma FetchURL_cases s w req :
  (exists early s', doRequest s w req = (inl early, s') /\
                    FetchURL s w req = (early, s')) \/
  (exists resp s', doRequest s w req = (inr resp, s') /\
                   FetchURL s w req = (readResponse w req resp, s')).
Proof.
  unfold FetchURL. destruct (doRequest s w req) as [[early|resp] s'].
  - left. eexists _, _. split; reflexivity.
  - right. eexists _, _. split; reflexivity.
Qed.

(** [Do] adds to the log of the client, and one dial and two requests at
    most. *)
Lemma Do_run net fingerprint req st :
  exists evs,
    transport.trace (snd (transport.Do net fingerprint req st))
    = (transport.trace st ++ evs)%list /\
    (length (List.filter is_dial evs) <= 1)%nat /\
    (length (List.filter is_sent evs) <= 2)%nat.
Proof.
  rewrite Do_RoundTrip.
  destruct (RoundTrip_run net
              (mkRequest (Method req) (req_URL req) (req_Host req)
                 (if String.eqb (http.Get (req_Header req) "User-Agent") ""
                  then http.Set_ (req_Header req) "User-Agent"
                         (transport.UserAgent fingerprint)
                  else req_Header req)
                 (req_Body req)
                 match req_deadline req with
                 | NoDeadline => DeadlineIn (30 * 1000000000)
                 | d => d
                 end) st) as (evs & Ht & (Hd & _ & Hs & _) & _).
  exists evs. split; [exact Ht|]. split; assumption.
Qed.

Lemma getClient_frame T s name :
  clientCache (snd (getClient T s name)) !! name = Some (fst (getClient T s name)) /\
  (forall other, other <> name ->
     clientCache (snd (getClient T s name)) !! other = clientCache s !! other).
Proof.
  unfold getClient.
  destruct (clientCache s !! name) as [client|] eqn:Hc; cbn.
  - split; [exact Hc|reflexivity].
  - rewrite lookup_insert_eq. split; [reflexivity|].
    intros other Hne. apply lookup_insert_ne. congruence.
Qed.

End FetchFacts.

(** X12.  The client cache: [getClient] stores the client it returns under
    the given fingerprint name, touches no other entry, and asked again for
    the same name returns the same client without changing the cache; a
    client made on a miss starts with an empty connection pool. *)
Theorem getClient_caches
    (T : unicode.Tables) (s : scraper.ScraperService) (name : string) :
  let first := scraper.getClient T s name in
  scraper.getClient T (snd first) name = first /\
  scraper.clientCache (snd first) !! name = Some (fst first) /\
  (forall other, other <> name ->
     scraper.clientCache (snd first) !! other = scraper.clientCache s !! other) /\
  (scraper.clientCache s !! name = None ->
   scraper.client_transport (fst first) = transport.newUTLSRoundTripper).
Proof.
  unfold scraper.getClient.
  destruct (scraper.clientCache s !! name) as [client|] eqn:Hc; cbn.
  - rewrite Hc. repeat split; try reflexivity. discriminate.
  - rewrite lookup_insert_eq. repeat split; try reflexivity.
    intros other Hne. apply lookup_insert_ne. congruence.
Qed.

(** X13.  The shape of every result of [FetchURL]: it names the URL of the
    request; a result with an error has an empty body and no headers; a
    result without an error comes from a response that was received and has
    its status code; a result made before there was a response has status 0
    and an error. *)
Theorem FetchURL_result_shape
    (s : scraper.ScraperService) (w : scraper.World) (req : FetchRequest.t) :
  let res := fst (scraper.FetchURL s w req) in
  FetchResponse.URL res = FetchRequest.URL req /\
  (FetchResponse.Error res <> "" ->
   FetchResponse.Body res = [] /\ FetchResponse.Headers res = ∅) /\
  (FetchResponse.Error res = "" ->
   exists resp s', scraper.doRequest s w req = (inr resp, s') /\
                   FetchResponse.StatusCode res = StatusCode resp) /\
  (forall early s', scraper.doRequest s w req = (inl early, s') ->
                    FetchResponse.StatusCode res = 0 /\ FetchResponse.Error res <> "").
Proof.
  cbn zeta.
  destruct (FetchURL_cases s w req) as [(early & s' & Hd & ->) | (resp & s' & Hd & ->)];
    cbn [fst].
  - destruct (doRequest_early _ _ _ _ _ Hd) as (msg & d & -> & Hmsg). cbn.
    split; [reflexivity|]. split; [intros _; split; reflexivity|].
    split; [intros He; destruct (Hmsg He)|].
    intros early' s'' _. split; [reflexivity|exact Hmsg].
  - destruct (readResponse_cases w req resp) as [(err & ->) | (body & _ & ->)]; cbn.
    + split; [reflexivity|]. split; [intros _; split; reflexivity|].
      split; [rewrite !append_cons; discriminate|].
      intros early s'' He. rewrite Hd in He. discriminate.
    + split; [reflexivity|]. split; [intros He; destruct (He eq_refl)|].
      split; [intros _; exists resp, s'; split; [exact Hd|reflexivity]|].
      intros early s'' He. rewrite Hd in He. discriminate.
Qed.

(** X14.  The body of a result of [FetchURL] is never longer than 10 MiB,
    whatever the server sends and whether or not it is compressed. *)
Theorem FetchURL_body_within_limit
    (s : scraper.ScraperService) (w : scraper.World) (req : FetchRequest.t) :
  Z.of_nat (length (FetchResponse.Body (fst (scraper.FetchURL s w req))))
  <= scraper.bodyLimit.
Proof.
  destruct (FetchURL_cases s w req) as [(early & s' & Hd & ->) | (resp & s' & Hd & ->)];
    cbn [fst].
  - destruct (doRequest_early _ _ _ _ _ Hd) as (msg & d & -> & _). cbn.
    unfold scraper.bodyLimit. lia.
  - destruct (readResponse_cases w req resp) as [(err & ->) | (body & Hr & ->)]; cbn.
    + unfold scraper.bodyLimit. lia.
    + pose proof (readAllLimited_length (unread (scraper.bodyReader w resp))
                    scraper.bodyLimit (read_err (scraper.bodyReader w resp))) as Hl.
      unfold io.ReadAllLimit in Hr. rewrite Hr in Hl. cbn [fst] in Hl.
      unfold scraper.bodyLimit in *. lia.
Qed.

(** X15.  A response that is not marked gzip and whose body is shorter than
    the limit is read to its end: the result has the status of the response
    and, if the stream ends cleanly, the whole body and no error; if reading
    fails, the result has the error "failed to read body: ..." and an empty
    body, and what was read before the failure is dropped. *)
Theorem short_body_is_read_to_its_end
    (s s' : scraper.ScraperService) (w : scraper.World) (req : FetchRequest.t)
    (resp : Response) :
  scraper.doRequest s w req = (inr resp, s') ->
  http.Get (resp_Header resp) "Content-Encoding" <> "gzip" ->
  Z.of_nat (length (unread (Body resp))) < scraper.bodyLimit ->
  let res := fst (scraper.FetchURL s w req) in
  FetchResponse.StatusCode res = StatusCode resp /\
  match read_err (Body resp) with
  | None => FetchResponse.Error res = "" /\ FetchResponse.Body res = unread (Body resp)
  | Some e =>
      FetchResponse.Error res = "failed to read body: " +:+ error_string e /\
      FetchResponse.Body res = []
  end.
Proof.
  intros Hd Hce Hlen. cbn zeta.
  rewrite (FetchURL_response _ _ _ _ _ Hd). cbn [fst].
  unfold scraper.readResponse, io.ReadAllLimit.
  rewrite (bodyReader_plain w resp Hce), (readAllLimited_under _ _ _ Hlen).
  destruct (read_err (Body resp)) as [e|]; cbn; repeat split; reflexivity.
Qed.

Lemma short_body_is_read_to_its_end_witness :
  let resp := mkResponse 200 ∅ (mkBody Examples.notGzip None) in
  FetchResponse.Body
    (fst (scraper.FetchURL Examples.emptyService
            (Examples.fetchWorld resp Examples.noInflate) Examples.fetchReq))
  = Examples.notGzip.
Proof.
  intros resp.
  refine (proj2 (proj2
    (short_body_is_read_to_its_end Examples.emptyService
       (snd (scraper.doRequest Examples.emptyService
               (Examples.fetchWorld resp Examples.noInflate) Examples.fetchReq))
       (Examples.fetchWorld resp Examples.noInflate) Examples.fetchReq resp _ _ _))).
  - vm_compute. reflexivity.
  - vm_compute. discriminate.
  - vm_compute. reflexivity.
Defined.

(** X16.  The headers of a successful result are those of the response, each
    with the first of its values only; further values of a repeated header
    are dropped. *)
Theorem result_headers_hold_first_values
    (s s' : scraper.ScraperService) (w : scraper.World) (req : FetchRequest.t)
    (resp : Response) :
  scraper.doRequest s w req = (inr resp, s') ->
  FetchResponse.Error (fst (scraper.FetchURL s w req)) = "" ->
  canonicalKeys (resp_Header resp) ->
  forall key : string,
    FetchResponse.Headers (fst (scraper.FetchURL s w req)) !! key
    = (fun vs => hd "" vs) <$> (resp_Header resp !! key).
Proof.
  intros Hd He Hcanon key.
  rewrite (FetchURL_response _ _ _ _ _ Hd) in *. cbn [fst] in *.
  destruct (readResponse_cases w req resp) as [(err & Hr) | (body & _ & Hr)];
    rewrite Hr in *; cbn in *.
  - rewrite !append_cons in He. discriminate.
  - rewrite map_lookup_imap.
    destruct (resp_Header resp !! key) as [vs|] eqn:Hk; cbn; [|reflexivity].
    unfold http.Get, http.values. rewrite (Hcanon key vs Hk), Hk. cbn.
    destruct vs; reflexivity.
Qed.

Lemma result_headers_hold_first_values_witness :
  let resp := mkResponse 200 {[ "Set-Cookie" := ["a=1"; "b=2"] ]}
                (mkBody Examples.notGzip None) in
  FetchResponse.Headers
    (fst (scraper.FetchURL Examples.emptyService
            (Examples.fetchWorld resp Examples.noInflate) Examples.fetchReq))
    !! "Set-Cookie"
  = Some "a=1".
Proof.
  intros resp.
  refine (eq_trans
    (result_headers_hold_first_values Examples.emptyService
       (snd (scraper.doRequest Examples.emptyService
               (Examples.fetchWorld resp Examples.noInflate) Examples.fetchReq))
       (Examples.fetchWorld resp Examples.noInflate) Examples.fetchReq resp _ _ _
       "Set-Cookie") _).
  - vm_compute. reflexivity.
  - vm_compute. reflexivity.
  - intros key vs Hk. subst resp. cbn [resp_Header] in Hk.
    apply lookup_singleton_Some in Hk as [<- _]. vm_compute. reflexivity.
  - vm_compute. reflexivity.
Defined.

(** X17.  [FetchURL] and the client cache: a fetch touches only the cache
    entry of its own fingerprint name and nothing at all when no worker slot
    came free; otherwise that entry holds afterwards a client with the
    fingerprint [getClient] chose, whose log was only added to, by at most
    one dial and at most two requests on the wire. *)
Theorem FetchURL_client_cache
    (s : scraper.ScraperService) (w : scraper.World) (req : FetchRequest.t) :
  let name := FetchRequest.Fingerprint req in
  let client := fst (scraper.getClient (scraper.caseTables w) s name) in
  let s' := snd (scraper.FetchURL s w req) in
  (forall other, other <> name ->
     scraper.clientCache s' !! other = scraper.clientCache s !! other) /\
  (scraper.acquired w = false -> s' = s) /\
  (scraper.acquired w = true ->
   exists st',
     scraper.clientCache s' !! name
     = Some (scraper.mkClient (scraper.client_fingerprint client) st') /\
     transport.trace st'
     = (transport.trace (scraper.client_transport client)
        ++ newEvents (scraper.client_transport client) st')%list /\
     (length (List.filter is_dial (newEvents (scraper.client_transport client) st'))
      <= 1)%nat /\
     (length (List.filter is_sent (newEvents (scraper.client_transport client) st'))
      <= 2)%nat).
Proof.
  cbn zeta.
  pose proof (getClient_frame (scraper.caseTables w) s (FetchRequest.Fingerprint req))
    as (Hsame & Hother).
  unfold scraper.FetchURL, scraper.doRequest.
  destruct (scraper.acquired w); cbn [negb].
  2: { cbn. split; [reflexivity|]. split; [reflexivity|discriminate]. }
  destruct (scraper.getClient (scraper.caseTables w) s (FetchRequest.Fingerprint req))
    as [client s1].
  cbn [fst snd] in *.
  destruct (scraper.NewRequest w _ _) as [u|err].
  2: { cbn [snd]. split; [exact Hother|]. split; [discriminate|]. intros _.
       exists (scraper.client_transport client).
       unfold newEvents. rewrite drop_all, app_nil_r. destruct client.
       split; [exact Hsame|]. split; [reflexivity|]. cbn. split; lia. }
  match goal with
  | |- context [transport.Do ?n ?f ?r ?st] =>
      pose proof (Do_run n f r st) as (evs & Ht & Hdial & Hsent);
      destruct (transport.Do n f r st) as [res st']
  end.
  cbn [snd] in Ht.
  assert (Hgoal :
    (forall other, other <> FetchRequest.Fingerprint req ->
       <[FetchRequest.Fingerprint req := scraper.mkClient (scraper.client_fingerprint client) st']>
         (scraper.clientCache s1) !! other = scraper.clientCache s !! other) /\
    (true = false -> scraper.mkService
       (<[FetchRequest.Fingerprint req := scraper.mkClient (scraper.client_fingerprint client) st']>
          (scraper.clientCache s1)) = s) /\
    (true = true -> exists st'0,
       <[FetchRequest.Fingerprint req := scraper.mkClient (scraper.client_fingerprint client) st']>
         (scraper.clientCache s1) !! FetchRequest.Fingerprint req
       = Some (scraper.mkClient (scraper.client_fingerprint client) st'0) /\
       transport.trace st'0
       = (transport.trace (scraper.client_transport client)
          ++ newEvents (scraper.client_transport client) st'0)%list /\
       (length (List.filter is_dial (newEvents (scraper.client_transport client) st'0))
        <= 1)%nat /\
       (length (List.filter is_sent (newEvents (scraper.client_transport client) st'0))
        <= 2)%nat)).
  { split; [|split; [discriminate|]].
    - intros other Hne. rewrite lookup_insert_ne by congruence. exact (Hother other Hne).
    - intros _. exists st'. rewrite lookup_insert_eq.
      rewrite (newEvents_app _ _ _ Ht). repeat split; assumption. }
  destruct res as [resp|err]; exact Hgoal.
Qed.

Section BatchFacts.

Import scraper.

Lemma countResults_spec rs : forall a b,
  fst (countResults rs a b) = a + Z.of_nat (length (List.filter succeeded rs)) /\
  fst (countResults rs a b) + snd (countResults rs a b) = a + b + Z.of_nat (length rs).
Proof.
  induction rs as [|r rest IH]; intros a b; cbn [countResults List.filter length].
  - cbn. lia.
  - fold (succeeded r). destruct (succeeded r).
    + destruct (IH (a + 1) b) as [H1 H2]. cbn [length]. lia.
    + destruct (IH a (b + 1)) as [H1 H2]. lia.
Qed.

(** Every result names the URL it was asked for. *)
Lemma FetchURL_url s w req :
  FetchResponse.URL (fst (FetchURL s w req)) = FetchRequest.URL req.
Proof.
  destruct (FetchURL_cases s w req) as [(early & s' & Hd & ->) | (resp & s' & Hd & ->)];
    cbn [fst].
  - destruct (doRequest_early _ _ _ _ _ Hd) as (msg & d & -> & _). reflexivity.
  - destruct (readResponse_cases w req resp) as [(err & ->) | (body & _ & ->)];
      reflexivity.
Qed.

End BatchFacts.

(** X18.  The summary of [FetchBatch]: the total is the number of requests,
    successes and failures add up to it, the successes are the results with
    no error and a status from 200 to 399, and the result at each index is
    that of fetching the request at that index, so it names its URL;
    whatever the interleaving of the fetches was. *)
Theorem FetchBatch_summary
    (met : nat -> scraper.ScraperService * scraper.World) (batch : list FetchRequest.t) :
  let out := scraper.FetchBatch met batch in
  BatchResponse.Total out = Z.of_nat (length batch) /\
  BatchResponse.Success out + BatchResponse.Failed out = BatchResponse.Total out /\
  BatchResponse.Success out
  = Z.of_nat (length (List.filter succeeded (BatchResponse.Results out))) /\
  0 <= BatchResponse.Failed out /\
  (forall idx, 
     BatchResponse.Results out !! idx
     = (fun r => fst (scraper.FetchURL (fst (met idx)) (snd (met idx)) r)) <$> batch !! idx) /\
  (forall idx res r,
     BatchResponse.Results out !! idx = Some res -> batch !! idx = Some r ->
     FetchResponse.URL res = FetchRequest.URL r).
Proof.
  cbn zeta. unfold scraper.FetchBatch.
  set (results := imap _ batch).
  pose proof (countResults_spec results 0 0) as [Hs Hsum].
  destruct (scraper.countResults results 0 0) as [success failed].
  cbn [fst snd BatchResponse.Total BatchResponse.Success BatchResponse.Failed
       BatchResponse.Results] in *.
  assert (Hlen : length results = length batch) by apply length_imap.
  assert (Hle : (length (List.filter succeeded results) <= length results)%nat)
    by apply List.filter_length_le.
  split; [lia|]. split; [lia|]. split; [lia|]. split; [lia|].
  split.
  - intros idx. subst results. apply list_lookup_imap.
  - intros idx res r Hres Hr. subst results.
    rewrite list_lookup_imap, Hr in Hres. cbn in Hres. injection Hres as <-.
    apply FetchURL_url.
Qed.

(** X19.  The replies of [fetchHandler]: 200 with a fetch result exactly
    when the body could be bound and names a URL, the result being that of
    [FetchURL] for that request; otherwise 400 with a message, and then no
    fetch was made and the service is unchanged. *)
Theorem fetchHandler_reply
    (s : scraper.ScraperService) (w : scraper.World) (bound : result FetchRequest.t) :
  match fst (routes.fetchHandler s w bound) with
  | routes.FetchJSON code res =>
      code = http.StatusOK /\
      exists req, bound = Ok req /\ FetchRequest.URL req <> "" /\
                  routes.fetchHandler s w bound
                  = (routes.FetchJSON code res, snd (scraper.FetchURL s w req)) /\
                  res = fst (scraper.FetchURL s w req) /\
                  FetchResponse.URL res = FetchRequest.URL req
  | routes.ErrorJSON code msg =>
      code = http.StatusBadRequest /\ msg <> "" /\
      snd (routes.fetchHandler s w bound) = s /\
      (is_Err bound = true \/ exists req, bound = Ok req /\ FetchRequest.URL req = "")
  | routes.BatchJSON _ _ => False
  end.
Proof.
  unfold routes.fetchHandler. destruct bound as [req|err].
  - destruct (String.eqb (FetchRequest.URL req) "") eqn:Hu.
    + cbn. split; [reflexivity|]. split; [discriminate|]. split; [reflexivity|].
      right. exists req. split; [reflexivity|]. apply String.eqb_eq. exact Hu.
    + pose proof (FetchURL_url s w req) as Hurl.
      destruct (scraper.FetchURL s w req) as [result s'] eqn:Hf. cbn [fst snd] in *.
      split; [reflexivity|]. exists req. rewrite Hf. cbn [fst snd].
      split; [reflexivity|].
      split; [apply String.eqb_neq; exact Hu|]. split; [reflexivity|].
      split; [reflexivity|exact Hurl].
  - cbn. split; [reflexivity|]. split; [rewrite !append_cons; discriminate|].
    split; [reflexivity|]. left. reflexivity.
Qed.

(** X20.  The replies of [batchHandler]: 200 with the summary of
    [FetchBatch], holding one result per request, exactly when the body could
    be bound and names 1 to 100 requests; otherwise 400 with a message. *)
Theorem batchHandler_reply
    (met : nat -> scraper.ScraperService * scraper.World)
    (bound : result (list FetchRequest.t)) :
  match routes.batchHandler met bound with
  | routes.BatchJSON code out =>
      code = http.StatusOK /\
      exists requests, bound = Ok requests /\
                       (1 <= length requests <= 100)%nat /\
                       out = scraper.FetchBatch met requests /\
                       length (BatchResponse.Results out) = length requests
  | routes.ErrorJSON code msg =>
      code = http.StatusBadRequest /\ msg <> "" /\
      match bound with
      | Ok requests => requests = [] \/ (100 < length requests)%nat
      | Err _ => True
      end
  | routes.FetchJSON _ _ => False
  end.
Proof.
  unfold routes.batchHandler. destruct bound as [requests|err].
  - destruct (length requests =? 0)%nat eqn:H0.
    { split; [reflexivity|]. split; [discriminate|]. left.
      apply Nat.eqb_eq in H0. destruct requests; [reflexivity|discriminate]. }
    destruct (100 <? length requests)%nat eqn:H100.
    { split; [reflexivity|]. split; [discriminate|]. right.
      apply Nat.ltb_lt in H100. exact H100. }
    apply Nat.eqb_neq in H0. apply Nat.ltb_ge in H100.
    split; [reflexivity|]. exists requests. split; [reflexivity|]. split; [lia|].
    split; [reflexivity|].
    unfold scraper.FetchBatch.
    destruct (scraper.countResults _ 0 0) as [success failed].
    cbn [BatchResponse.Results]. apply length_imap.
  - split; [reflexivity|]. split; [rewrite !append_cons; discriminate|]. exact I.
Qed.

(** * Further properties of the proxy token *)

Section TokenFacts.

Import auth.

Lemma hex_length src : String.length (hex_EncodeToString src) = (2 * length src)%nat.
Proof. induction src as [|v rest IH]; cbn [hex_EncodeToString String.length length]; lia. Qed.

Lemma hex_digits v :
  strings.Contains hextable (String (hexDigit (N_of_ascii v / 16)) EmptyString)
  && strings.Contains hextable (String (hexDigit (N_of_ascii v mod 16)) EmptyString)
  = true.
Proof.
  exact (for_all_ascii
    (fun v => strings.Contains hextable (String (hexDigit (N_of_ascii v / 16)) EmptyString)
              && strings.Contains hextable
                   (String (hexDigit (N_of_ascii v mod 16)) EmptyString))
    ltac:(vm_compute; reflexivity) v).
Qed.

Lemma hex_allHex src : allHex (hex_EncodeToString src) = true.
Proof.
  induction src as [|v rest IH]; cbn [hex_EncodeToString allHex]; [reflexivity|].
  pose proof (hex_digits v) as Hv. apply andb_prop in Hv as [-> ->]. exact IH.
Qed.

(** The two digits of a byte tell the byte. *)
Lemma hex_byte_inj v w :
  hexDigit (N_of_ascii v / 16) = hexDigit (N_of_ascii w / 16) ->
  hexDigit (N_of_ascii v mod 16) = hexDigit (N_of_ascii w mod 16) ->
  v = w.
Proof.
  intros Hhi Hlo.
  pose proof (for_all_ascii
    (fun v => forallb
       (fun w => implb
          (Ascii.eqb (hexDigit (N_of_ascii v / 16)) (hexDigit (N_of_ascii w / 16))
           && Ascii.eqb (hexDigit (N_of_ascii v mod 16)) (hexDigit (N_of_ascii w mod 16)))
          (Ascii.eqb v w)) all_ascii)
    ltac:(vm_compute; reflexivity) v) as Hv.
  cbv beta in Hv. rewrite forallb_forall in Hv. specialize (Hv w (in_all_ascii w)).
  rewrite Hhi, Hlo, !Ascii.eqb_refl in Hv. cbn in Hv. apply Ascii.eqb_eq. exact Hv.
Qed.

Lemma hex_inj src : forall src',
  hex_EncodeToString src = hex_EncodeToString src' -> src = src'.
Proof.
  induction src as [|v rest IH]; intros [|w rest']; cbn [hex_EncodeToString];
    try discriminate; [reflexivity|].
  intros [= Hhi Hlo Hrest]. rewrite (hex_byte_inj v w Hhi Hlo), (IH rest' Hrest).
  reflexivity.
Qed.

End TokenFacts.

(** X21.  A generated proxy token is "sk_live_" followed by 64 lower-case
    hexadecimal digits. *)
Theorem generated_token_shape (fill : nat -> ascii) :
  exists hex,
    auth.generateRandomToken (Ok fill) = Some ("sk_live_" +:+ hex) /\
    String.length hex = 64%nat /\ allHex hex = true.
Proof.
  unfold auth.generateRandomToken. eexists. split; [reflexivity|].
  split; [|apply hex_allHex].
  rewrite hex_length, length_map, length_seq. reflexivity.
Qed.

(** X22.  A generated proxy token loses none of its entropy: two tokens are
    equal only if all 32 random bytes they were made from are. *)
Theorem generated_token_keeps_the_entropy (fill fill' : nat -> ascii) :
  auth.generateRandomToken (Ok fill) = auth.generateRandomToken (Ok fill') ->
  forall idx, (idx < 32)%nat -> fill idx = fill' idx.
Proof.
  assert (Hinj : forall src src',
            Some ("sk_live_" +:+ auth.hex_EncodeToString src)
            = Some ("sk_live_" +:+ auth.hex_EncodeToString src') -> src = src').
  { intros src src'. rewrite !append_cons, !append_nil. intros [= H].
    exact (hex_inj _ _ H). }
  unfold auth.generateRandomToken. intros H idx Hidx. apply Hinj in H.
  apply (proj1 List.map_ext_in_iff H idx). apply in_seq. lia.
Qed.

Lemma generated_token_keeps_the_entropy_witness :
  ascii_of_nat 7 = ascii_of_nat (7 + 256).
Proof.
  apply (generated_token_keeps_the_entropy
           (fun idx => ascii_of_nat idx) (fun idx => ascii_of_nat (idx + 256))
           ltac:(vm_compute; reflexivity) 7%nat).
  lia.
Defined.

(** X23.  The token of [NewSimpleAuth] is never empty: a token that is given
    is kept as it is, an empty one is replaced by a generated token, and the
    constructor fails only when no token is given and the random source
    fails. *)
Theorem NewSimpleAuth_token (token : string) (entropy : result (nat -> ascii)) :
  match auth.NewSimpleAuth token entropy with
  | Some a =>
      auth.Token a <> "" /\
      (token <> "" -> auth.Token a = token) /\
      (token = "" -> auth.generateRandomToken entropy = Some (auth.Token a))
  | None => token = "" /\ is_Err entropy = true
  end.
Proof.
  unfold auth.NewSimpleAuth. destruct (String.eqb token "") eqn:Ht.
  - apply String.eqb_eq in Ht. subst token.
    destruct entropy as [fill|err]; cbn [auth.generateRandomToken].
    + cbn [auth.Token auth.token]. split; [rewrite !append_cons; discriminate|].
      split; [intros H; destruct (H eq_refl)|reflexivity].
    + split; reflexivity.
  - apply String.eqb_neq in Ht. cbn [auth.Token auth.token].
    split; [exact Ht|]. split; [reflexivity|]. intros H. destruct (Ht H).
Qed.

Lemma NewHandler_fingerprint_witness :
  Some (proxy.fingerprint
          (proxy.mkHandler (proxy.mkConfig "" "SAFARI")
             (default transport.zeroFingerprint (transport.GetFingerprints !! 2%nat))
             None))
  = scraper.findFingerprint Examples.tables "SAFARI".
Proof.
  refine (NewHandler_fingerprint Examples.tables Examples.world
            (proxy.mkConfig "" "SAFARI")
            (proxy.mkHandler (proxy.mkConfig "" "SAFARI")
               (default transport.zeroFingerprint (transport.GetFingerprints !! 2%nat))
               None) _ _).
  - reflexivity.
  - vm_compute. reflexivity.
Defined.

Lemma gzip_body_is_inflated_witness :
  let w := Examples.fetchWorld Examples.page (fun _ => gzip.MemberOk Examples.notGzip None) in
  let resp :=
    mkResponse 200 Examples.gzipHeader
      (mkBody [ Byte.x1f; Byte.x8b; Byte.x08; Byte.x00; Byte.x00; Byte.x00; Byte.x00;
                Byte.x00; Byte.x00; Byte.x03; Byte.x01; Byte.x02 ] None) in
  FetchResponse.Error (scraper.readResponse w Examples.fetchReq resp) = "" /\
  FetchResponse.Body (scraper.readResponse w Examples.fetchReq resp)
  = firstn (Z.to_nat scraper.bodyLimit) Examples.notGzip.
Proof.
  intros w resp.
  refine (gzip_body_is_inflated w Examples.fetchReq resp Examples.notGzip _ _ _ _).
  - vm_compute. reflexivity.
  - cbn. lia.
  - reflexivity.
  - reflexivity.
Defined.

(** * The context [Do] cancels *)

Section CancelFacts.

(** A response [doRequest] hands on under a context without deadline is
    that of a cancelled request. *)
Lemma doRequest_cancelled s w req resp s' :
  scraper.ctx_deadline w = NoDeadline ->
  scraper.doRequest s w req = (inr resp, s') ->
  exists resp0, resp = transport.cancelled (scraper.net w) resp0.
Proof.
  intros Hdl. unfold scraper.doRequest.
  destruct (negb (scraper.acquired w)); [discriminate|].
  destruct (scraper.getClient _ s _) as [client s1].
  destruct (scraper.NewRequest w _ _) as [u|err]; [|discriminate].
  match goal with
  | |- context [transport.Do ?n ?f ?r ?st] =>
      pose proof (Do_result n f r st) as Hres;
      destruct (transport.Do n f r st) as [res st']
  end.
  cbn [fst req_deadline] in Hres. rewrite Hdl in Hres.
  destruct res as [resp1|err]; [|discriminate].
  intros [= <- _].
  match type of Hres with
  | _ = match fst ?rt with _ => _ end => destruct (fst rt) as [resp0|e]
  end; [|discriminate].
  injection Hres as ->. exists resp0. reflexivity.
Qed.

End CancelFacts.

(** X26.  A fetch under a context without deadline reads from a cancelled
    request: [Do] makes the context itself and cancels it as it returns, so
    the response [FetchURL] goes on to read is that of a cancelled request.
    When the body had not come to its end by then, fewer bytes than the
    limit had arrived and the response is not marked gzip, the fetch fails
    with "failed to read body: context canceled"; the result has the status
    of the response and an empty body. *)
Theorem fetch_without_deadline_is_cut_off
    (s s' : scraper.ScraperService) (w : scraper.World) (req : FetchRequest.t)
    (resp : Response) :
  scraper.ctx_deadline w = NoDeadline ->
  scraper.doRequest s w req = (inr resp, s') ->
  exists resp0,
    resp = transport.cancelled (scraper.net w) resp0 /\
    forall n,
      transport.arrived (scraper.net w) resp0 = Some n ->
      http.Get (resp_Header resp0) "Content-Encoding" <> "gzip" ->
      Z.of_nat n < scraper.bodyLimit ->
      let out := fst (scraper.FetchURL s w req) in
      FetchResponse.Error out = "failed to read body: context canceled" /\
      FetchResponse.Body out = [] /\
      FetchResponse.StatusCode out = StatusCode resp0.
Proof.
  intros Hdl Hd.
  destruct (doRequest_cancelled s w req resp s' Hdl Hd) as [resp0 Hresp].
  exists resp0. split; [exact Hresp|].
  intros n Hn Hce Hlt out. subst out.
  rewrite (FetchURL_response _ _ _ _ _ Hd). cbn [fst].
  subst resp. unfold transport.cancelled. rewrite Hn.
  unfold scraper.readResponse, io.ReadAllLimit.
  rewrite bodyReader_plain by exact Hce. cbn [Body unread read_err].
  rewrite readAllLimited_under.
  2: { pose proof (firstn_le_length n (unread (Body resp0))). lia. }
  cbn. repeat split; reflexivity.
Qed.

Lemma fetch_without_deadline_is_cut_off_witness :
  let resp := mkResponse 200 ∅ (mkBody Examples.notGzip None) in
  FetchResponse.Error
    (fst (scraper.FetchURL Examples.emptyService
            (Examples.fetchWorldNoDeadline resp Examples.noInflate) Examples.fetchReq))
  = "failed to read body: context canceled".
Proof.
  intros resp.
  destruct (fetch_without_deadline_is_cut_off Examples.emptyService
              (snd (scraper.doRequest Examples.emptyService
                      (Examples.fetchWorldNoDeadline resp Examples.noInflate)
                      Examples.fetchReq))
              (Examples.fetchWorldNoDeadline resp Examples.noInflate) Examples.fetchReq
              (transport.cancelled (Examples.netAnswering resp) resp)
              eq_refl ltac:(vm_compute; reflexivity)) as (resp0 & Hresp & H).
  assert (Hhdr : resp_Header resp0 = ∅).
  { apply (f_equal resp_Header) in Hresp. symmetry. exact Hresp. }
  apply (H 0%nat); [reflexivity | | reflexivity].
  rewrite Hhdr. vm_compute. discriminate.
Defined.


